(** * Business-profile search: username generation, probing, ranking, cache

    A shallow embedding of the two Python programs of the repository

      - [src/python/sherlock_business_search.py]
        (class [SherlockBusinessSearch], module [Cli] below), and
      - [src/netlify/functions/sherlock-search/main.py]
        (the serverless handler, module [Handler] below),

    together with the properties their specification states about them.

    Conventions of the embedding.

    - A Python [str] is a Rocq [string]; a character is read as the code
      point 0..255 it denotes, and [lower], [isalnum], [isspace] follow
      Python on that range.
    - A Python [set] has no specified iteration order (string hashes are
      salted per interpreter process).  Wherever the source iterates over a
      set, the embedding takes the interpreter's choice as an explicit
      argument [order], a function from the sequence of additions that
      built the set to the sequence in which it is iterated, constrained
      by [is_set_order]: every element that was added is listed exactly
      once.
    - A Python [dict] iterates in insertion order and is an association
      list.
    - [sorted] and [list.sort] are stable; they are embedded as a stable
      insertion sort. *)

From Stdlib Require Import Bool Arith ZArith QArith Lia List Ascii String.
From Stdlib Require Import DecimalString.
From Stdlib Require Import Permutation Sorted.
Import ListNotations.

Local Open Scope list_scope.
Local Open Scope string_scope.
Local Open Scope nat_scope.

(* ------------------------------------------------------------------ *)
(** ** Python string primitives *)
(* ------------------------------------------------------------------ *)

Module Py.

Definition code (c : ascii) : nat := nat_of_ascii c.

Definition between (lo hi : nat) (c : ascii) : bool :=
  (lo <=? code c) && (code c <=? hi).

Definition is_upper_az (c : ascii) : bool := between 65 90 c.
Definition is_lower_az (c : ascii) : bool := between 97 122 c.
Definition is_digit09 (c : ascii) : bool := between 48 57 c.

(** The character classes of the regular expressions of the source. *)

(** [[a-zA-Z0-9]] *)
Definition re_alnum (c : ascii) : bool :=
  is_lower_az c || is_upper_az c || is_digit09 c.

(** [[a-zA-Z0-9._-]] *)
Definition re_alnum_sep (c : ascii) : bool :=
  re_alnum c || (code c =? 46) || (code c =? 95) || (code c =? 45).

(** [[a-z0-9]], the class the specification names. *)
Definition is_az09 (c : ascii) : bool := is_lower_az c || is_digit09 c.

Definition is_ascii (c : ascii) : bool := code c <? 128.

(** [str.isspace] on one character: TAB..CR, FS..US, space, NEL, NBSP. *)
Definition isspace (c : ascii) : bool :=
  between 9 13 c || between 28 32 c || (code c =? 133) || (code c =? 160).

(** [str.isalnum] on one character: letters, decimal digits and the
    numeric characters of the range. *)
Definition isalnum (c : ascii) : bool :=
  re_alnum c
  || (code c =? 170) || (code c =? 178) || (code c =? 179)
  || (code c =? 181) || (code c =? 185) || (code c =? 186)
  || between 188 190 c
  || between 192 214 c || between 216 246 c || between 248 255 c.

(** [str.lower] on one character: A-Z and the upper-case letters
    192..222 (but for the multiplication sign 215) move up by 32. *)
Definition lower_char (c : ascii) : ascii :=
  if is_upper_az c || (between 192 222 c && negb (code c =? 215))
  then ascii_of_nat (code c + 32)
  else c.

Fixpoint lower (s : string) : string :=
  match s with
  | EmptyString => EmptyString
  | String c r => String (lower_char c) (lower r)
  end.

(** [re.sub('[^CLASS]', '', s)] and [''.join(c for c in s if keep c)]:
    keep the characters of the class, drop the others. *)
Fixpoint keep_chars (keep : ascii -> bool) (s : string) : string :=
  match s with
  | EmptyString => EmptyString
  | String c r =>
      if keep c then String c (keep_chars keep r) else keep_chars keep r
  end.

(** Every character of [s] satisfies [p]. *)
Fixpoint all_chars (p : ascii -> bool) (s : string) : bool :=
  match s with
  | EmptyString => true
  | String c r => p c && all_chars p r
  end.

(** A lower-case ASCII character or an ASCII character that is no
    letter. *)
Definition ascii_not_upper (c : ascii) : bool :=
  is_ascii c && negb (is_upper_az c).

(** A word that can be taken out of a string without minding the
    whitespace around the string. *)
Definition solid (word : string) : Prop :=
  word <> "" /\ all_chars (fun c => negb (isspace c)) word = true.

(** [str.lstrip()], [str.rstrip()], [str.strip()]. *)
Fixpoint lstrip (s : string) : string :=
  match s with
  | EmptyString => EmptyString
  | String c r => if isspace c then lstrip r else s
  end.

Fixpoint rstrip (s : string) : string :=
  match s with
  | EmptyString => EmptyString
  | String c r =>
      match rstrip r with
      | EmptyString => if isspace c then EmptyString else String c EmptyString
      | r' => String c r'
      end
  end.

Definition strip (s : string) : string := rstrip (lstrip s).

(** [s.replace(old, new)] for a non-empty [old]: scan from the left, and at
    each match emit [new] and skip the matched characters ([skip] counts
    the characters of the current match still to be passed over). *)
Fixpoint replace_from (skip : nat) (old new s : string) : string :=
  match s with
  | EmptyString => EmptyString
  | String c r =>
      match skip with
      | S k => replace_from k old new r
      | O =>
          if prefix old s
          then new ++ replace_from (String.length old - 1) old new r
          else String c (replace_from 0 old new r)
      end
  end.

(** With an empty [old], Python puts [new] before every character and at
    the end. *)
Fixpoint intersperse (new s : string) : string :=
  match s with
  | EmptyString => new
  | String c r => new ++ String c (intersperse new r)
  end.

Definition replace (old new s : string) : string :=
  match old with
  | EmptyString => intersperse new s
  | _ => replace_from 0 old new s
  end.

(** [sub in s]. *)
Fixpoint contains (sub s : string) : bool :=
  prefix sub s ||
  match s with
  | EmptyString => false
  | String _ r => contains sub r
  end.

(** [s.split(sep)] for a non-empty [sep]; [cur] is the piece being read,
    reversed. *)
Fixpoint rev_string (acc s : string) : string :=
  match s with
  | EmptyString => acc
  | String c r => rev_string (String c acc) r
  end.

Fixpoint split_from (skip : nat) (sep cur s : string) : list string :=
  match s with
  | EmptyString => [rev_string "" cur]
  | String c r =>
      match skip with
      | S k => split_from k sep cur r
      | O =>
          if prefix sep s
          then rev_string "" cur :: split_from (String.length sep - 1) sep "" r
          else split_from 0 sep (String c cur) r
      end
  end.

Definition split (sep s : string) : list string := split_from 0 sep "" s.

(** [s.split()]: the maximal runs of non-whitespace characters. *)
Fixpoint split_ws_from (cur s : string) : list string :=
  match s with
  | EmptyString =>
      match cur with EmptyString => [] | _ => [rev_string "" cur] end
  | String c r =>
      if isspace c
      then match cur with
           | EmptyString => split_ws_from "" r
           | _ => rev_string "" cur :: split_ws_from "" r
           end
      else split_ws_from (String c cur) r
  end.

Definition split_ws (s : string) : list string := split_ws_from "" s.

(** [x in xs] for a list or a set of strings. *)
Definition mem (x : string) (xs : list string) : bool :=
  existsb (String.eqb x) xs.

(** *** Sets *)

(** [it] is an iteration order of the set obtained by adding the elements
    of [added]: it has no repetition and the same elements. *)
Definition set_iter (added it : list string) : Prop :=
  NoDup it /\ forall x, In x it <-> In x added.

(** [order] iterates every set rightly. *)
Definition is_set_order (order : list string -> list string) : Prop :=
  forall added, set_iter added (order added).

Fixpoint nodupb (l : list string) : bool :=
  match l with
  | [] => true
  | x :: r => negb (mem x r) && nodupb r
  end.

Definition set_iterb (added it : list string) : bool :=
  nodupb it && forallb (fun x => mem x added) it
            && forallb (fun x => mem x it) added.

(** One iteration order among the possible ones: first additions first. *)
Fixpoint first_added (seen added : list string) : list string :=
  match added with
  | [] => []
  | x :: r =>
      if mem x seen then first_added seen r
      else x :: first_added (x :: seen) r
  end.

(** *** Stable sorting *)

Section StableSort.
Context {A : Type}.
(** [before x y]: [x] may stand before [y]. *)
Variable before : A -> A -> bool.

Fixpoint insert (x : A) (l : list A) : list A :=
  match l with
  | [] => [x]
  | y :: r => if before x y then x :: l else y :: insert x r
  end.

(** Each element is inserted in front of the elements that followed it
    in the input, never past one it may stand before: equal keys keep
    their input order. *)
Fixpoint stable_sort (l : list A) : list A :=
  match l with
  | [] => []
  | x :: r => insert x (stable_sort r)
  end.
End StableSort.

(** [sorted(l, key=key)]: ascending. *)
Definition sorted {A} (key : A -> Z) (l : list A) : list A :=
  stable_sort (fun x y => (key x <=? key y)%Z) l.

(** [l.sort(key=key, reverse=True)]: descending, still stable. *)
Definition sort_reverse {A} (key : A -> Z) (l : list A) : list A :=
  stable_sort (fun x y => (key y <=? key x)%Z) l.

(** The characters of the usernames the class proposes: [a-z0-9], [.],
    [_] and [-]. *)
Definition username_char (c : ascii) : bool :=
  is_az09 c || (code c =? 46) || (code c =? 95) || (code c =? 45).

(** The characters of a site name in a line of the scanner: no
    whitespace, no colon, no opening bracket. *)
Definition site_char (c : ascii) : bool :=
  negb (isspace c || (code c =? 58) || (code c =? 91)).

(** *** Dictionaries with string keys *)

(** [d.get(k)] *)
Fixpoint dict_get {V : Type} (d : list (string * V)) (k : string) : option V :=
  match d with
  | [] => None
  | (k', v) :: r => if (k =? k')%string then Some v else dict_get r k
  end.

(** [d[k] = v]: a key already present keeps its place. *)
Fixpoint dict_put {V : Type} (d : list (string * V)) (k : string) (v : V)
    : list (string * V) :=
  match d with
  | [] => [(k, v)]
  | (k', v') :: r =>
      if (k =? k')%string then (k, v) :: r else (k', v') :: dict_put r k v
  end.

(** *** Pieces of strings *)

(** [s[n:]] *)
Fixpoint drop (n : nat) (s : string) : string :=
  match n, s with
  | S k, String _ r => drop k r
  | _, _ => s
  end.

(** The longest prefix of [s] whose characters satisfy [p]. *)
Fixpoint take_while (p : ascii -> bool) (s : string) : string :=
  match s with
  | EmptyString => EmptyString
  | String c r => if p c then String c (take_while p r) else EmptyString
  end.

Definition line_feed : string := String (ascii_of_nat 10) "".

(** *** [urllib.parse.urlparse(url).netloc]

    [urlsplit] strips the control characters and spaces the URL starts
    with, deletes every tab, carriage return and line feed, takes the
    scheme off and reads the network location after [//] up to the first
    [/], [?] or [#].  Where [urlsplit] raises (brackets that do not
    match, a host that does not survive normalisation) no network
    location is returned at all; the callers below look the location up
    in a table of plain host names, which fails for every such location
    as well. *)

(** [_WHATWG_C0_CONTROL_OR_SPACE]: the codes 0 to 32. *)
Definition c0_control_or_space (c : ascii) : bool := code c <=? 32.

(** [url.lstrip(_WHATWG_C0_CONTROL_OR_SPACE)] *)
Fixpoint lstrip_c0 (s : string) : string :=
  match s with
  | EmptyString => EmptyString
  | String c r => if c0_control_or_space c then lstrip_c0 r else s
  end.

(** [_UNSAFE_URL_BYTES_TO_REMOVE]: tab, carriage return and line feed. *)
Definition unsafe_url_byte (c : ascii) : bool :=
  (code c =? 9) || (code c =? 13) || (code c =? 10).

(** The loop [url = url.replace(b, "")] over those three. *)
Definition remove_unsafe (s : string) : string :=
  keep_chars (fun c => negb (unsafe_url_byte c)) s.

Definition is_alpha_az (c : ascii) : bool := is_lower_az c || is_upper_az c.

(** [scheme_chars]: letters, digits, [+], [-] and [.]. *)
Definition scheme_char (c : ascii) : bool :=
  re_alnum c || (code c =? 43) || (code c =? 45) || (code c =? 46).

(** [i = url.find(':')]: [url[:i]] and [url[i+1:]]. *)
Fixpoint cut_at_colon (s : string) : option (string * string) :=
  match s with
  | EmptyString => None
  | String c r =>
      if code c =? 58 then Some (EmptyString, r)
      else match cut_at_colon r with
           | Some (before, after) => Some (String c before, after)
           | None => None
           end
  end.

(** The URL once its scheme, if it has one, is taken off. *)
Definition without_scheme (url : string) : string :=
  match url with
  | EmptyString => EmptyString
  | String c _ =>
      if is_alpha_az c then
        match cut_at_colon url with
        | Some (before, after) =>
            if all_chars scheme_char before then after else url
        | None => url
        end
      else url
  end.

(** [/], [?] and [#] end the network location. *)
Definition is_delim (c : ascii) : bool :=
  (code c =? 47) || (code c =? 63) || (code c =? 35).

Definition netloc (url : string) : string :=
  match without_scheme (remove_unsafe (lstrip_c0 url)) with
  | String c1 (String c2 r) =>
      if (code c1 =? 47) && (code c2 =? 47)
      then take_while (fun c => negb (is_delim c)) r
      else EmptyString
  | _ => EmptyString
  end.

(** What may follow the network location in a URL: nothing, or a path, a
    query or a fragment. *)
Definition ends_netloc (rest : string) : bool :=
  match rest with
  | EmptyString => true
  | String c _ => is_delim c
  end.

(** *** The two regular expressions that find URLs *)

(** [https?://] at the start of [s]: what matched and the rest. *)
Definition after_http (s : string) : option (string * string) :=
  if prefix "https://" s then Some ("https://", drop 8 s)
  else if prefix "http://" s then Some ("http://", drop 7 s)
  else None.

(** A match of [https?://[^\s]+] at the start of [s]. *)
Definition url_plus_here (s : string) : option string :=
  match after_http s with
  | Some (scheme, rest) =>
      match take_while (fun c => negb (isspace c)) rest with
      | EmptyString => None
      | tail => Some (scheme ++ tail)
      end
  | None => None
  end.

(** [re.search(r'(https?://[^\s]+)', s)]: the leftmost match. *)
Fixpoint re_search_url (s : string) : option string :=
  match url_plus_here s with
  | Some url => Some url
  | None =>
      match s with
      | EmptyString => None
      | String _ r => re_search_url r
      end
  end.

(** The class of the second expression: no whitespace, no angle bracket,
    no double or single quote. *)
Definition url_char (c : ascii) : bool :=
  negb (isspace c || (code c =? 60) || (code c =? 62)
        || (code c =? 34) || (code c =? 39)).

(** A match of [https?://] followed by any number of characters of that
    class, at the start of [s]. *)
Definition url_star_here (s : string) : option string :=
  match after_http s with
  | Some (scheme, rest) => Some (scheme ++ take_while url_char rest)
  | None => None
  end.

(** [re.findall(url_pattern, s)]: the matches from left to right, the
    search going on after each match. *)
Fixpoint re_findall_urls_from (skip : nat) (s : string) : list string :=
  match s with
  | EmptyString => []
  | String c r =>
      match skip with
      | S k => re_findall_urls_from k r
      | O =>
          match url_star_here s with
          | Some url => url :: re_findall_urls_from (String.length url - 1) r
          | None => re_findall_urls_from 0 r
          end
      end
  end.

Definition re_findall_urls (s : string) : list string :=
  re_findall_urls_from 0 s.

End Py.

(* ------------------------------------------------------------------ *)
(** ** [sherlock_business_search.py]: class [SherlockBusinessSearch] *)
(* ------------------------------------------------------------------ *)

Module Cli.

(** [re.sub(r'[^a-zA-Z0-9]', '', business_name.lower())], the cleaned name
    of [generate_business_usernames], [username_score] and
    [calculate_relevance]. *)
Definition clean_name (business_name : string) : string :=
  Py.keep_chars Py.re_alnum (Py.lower business_name).

Definition business_affixes : list string :=
  ["official"; "real"; "team"; "hq"; "inc"; "corp"; "company"].

Definition base_variations (business_name : string) : list string :=
  [ Py.replace " " "" (Py.lower business_name);
    Py.replace " " "_" (Py.lower business_name);
    Py.replace " " "." (Py.lower business_name);
    Py.replace " " "-" (Py.lower business_name) ].

(** The four strings added for one affix. *)
Definition affix_variations (clean affix : string) : list string :=
  [ clean ++ affix; affix ++ clean;
    clean ++ "_" ++ affix; affix ++ "_" ++ clean ].

(** The strings [generate_business_usernames] adds to the set [usernames],
    in the order of the [add] calls. *)
Definition usernames_added (business_name : string) : list string :=
  let clean := clean_name business_name in
  ([clean]
   ++ filter (fun v => negb (v =? "")%string)
        (map (Py.keep_chars Py.re_alnum_sep) (base_variations business_name))
   ++ flat_map (affix_variations clean) business_affixes)%list.

(** [username_score], in half points: the source subtracts
    [len(username) * 0.5] from an integer, so every score is a multiple of
    0.5, exactly representable as a float; the embedding holds twice the
    score, which orders the candidates as the float does. *)
Definition username_score (username original_name : string) : Z :=
  let original_clean := clean_name original_name in
  let score := 0%Z in
  let score :=
    if (username =? original_clean)%string then (score + 200)%Z else score in
  let score :=
    if String.length username =? String.length original_clean
    then (score + 40)%Z else score in
  let score :=
    if Py.contains original_clean username then (score + 100)%Z else score in
  let score := (score - Z.of_nat (String.length username))%Z in
  let score :=
    if negb (existsb (fun affix => Py.contains affix username)
               ["official"; "real"; "team"])
    then (score + 20)%Z else score in
  score.

(** The length filter of [valid_usernames]. *)
Definition valid_length (u : string) : bool :=
  (3 <=? String.length u) && (String.length u <=? 30).

(** [generate_business_usernames]; [order] is the order in which the list
    comprehension iterates over the set [usernames]. *)
Definition generate_business_usernames (order : list string -> list string)
    (business_name : string) : list string :=
  let usernames := order (usernames_added business_name) in
  let valid_usernames := filter valid_length usernames in
  firstn 10
    (Py.sorted (fun x => username_score x business_name) valid_usernames).

(** *** Probing one username: [sherlock_search] *)

(** One hit, the value stored under a platform in the dictionary the
    parsers return. *)
Record ProfileData := {
  pd_url : string;
  pd_username : string;
  pd_platform : string;
  pd_verified : bool;
  pd_source : string
}.

(** [{platform: profile_data}] *)
Definition Hits := list (string * ProfileData).

(** What [subprocess.run] does for one username: it returns (the output
    file may or may not have been written), or raises. *)
Inductive SubprocessRun :=
| Completed (output_file : option string) (stdout : string)
| TimeoutExpired
| Raised (message : string).

Section Prober.
(** The two parsers read the scanner's output and check the URLs over the
    network; both catch every exception and return the dictionary built
    so far, so they are total functions of the text and the username. *)
Variable parse_sherlock_output : string -> string -> Hits.
Variable parse_sherlock_stdout : string -> string -> Hits.

Definition sherlock_search (run : SubprocessRun) (username : string) : Hits :=
  match run with
  | Completed (Some content) _ => parse_sherlock_output content username
  | Completed None stdout => parse_sherlock_stdout stdout username
  | TimeoutExpired => []
  | Raised _ => []
  end.
End Prober.

(** The probe of a username failed: the subprocess raised. *)
Definition failed (run : SubprocessRun) : bool :=
  match run with
  | Completed _ _ => false
  | TimeoutExpired | Raised _ => true
  end.

(** *** Ranking: [calculate_relevance] and [process_results] *)

Definition platform_priority (platform : string) : Z :=
  if (platform =? "linkedin")%string then 30
  else if (platform =? "instagram")%string then 25
  else if (platform =? "facebook")%string then 20
  else if (platform =? "twitter")%string then 15
  else if (platform =? "youtube")%string then 10
  else if (platform =? "tiktok")%string then 5
  else 0.

Definition calculate_relevance (username business_name platform : string) : Z :=
  let business_clean := clean_name business_name in
  let score := 0%Z in
  let score :=
    if (username =? business_clean)%string then (score + 100)%Z
    else if Py.contains business_clean username then (score + 70)%Z
    else if existsb (fun word => Py.contains word username)
              (Py.split_ws business_clean)
         then (score + 40)%Z
    else score in
  let score := (score + platform_priority platform)%Z in
  let score :=
    if 20 <? String.length username then (score - 10)%Z else score in
  Z.max 0 score.

(** [min(0.9, relevance / 100)] *)
Definition confidence_of (relevance : Z) : Q :=
  if Qle_bool (9 # 10) (relevance # 100) then 9 # 10 else relevance # 100.

Record Profile := {
  id : string;
  name : string;
  platform : string;
  profile_url : string;
  username : string;
  verified : bool;
  source : string;
  relevance_score : Z;
  confidence : Q;
  search_method : string
}.

(** [{username: {platform: profile_data}}] *)
Definition AllResults := list (string * Hits).

(** [all_results[username] = results] *)
Fixpoint dict_set (d : AllResults) (k : string) (v : Hits) : AllResults :=
  match d with
  | [] => [(k, v)]
  | (k', v') :: r =>
      if (k =? k')%string then (k, v) :: r else (k', v') :: dict_set r k v
  end.

Definition decimal (z : Z) : string :=
  NilZero.string_of_uint (N.to_uint (Z.to_N z)).

(** The end of [process_results]: sort by relevance score, highest first,
    and return the first twenty. *)
Definition top_ranked (processed : list Profile) : list Profile :=
  firstn 20 (Py.sort_reverse relevance_score processed).

Section Ranking.
(** Python's built-in [hash] on strings. *)
Variable py_hash : string -> Z.

Definition processed_profile (business_name username platform : string)
    (profile_data : ProfileData) : Profile :=
  let url := pd_url profile_data in
  let relevance := calculate_relevance username business_name platform in
  {| id := "sherlock_" ++ platform ++ "_" ++ decimal (py_hash url mod 100000);
     name := business_name;
     platform := platform;
     profile_url := url;
     username := username;
     verified := pd_verified profile_data;
     source := "sherlock_osint";
     relevance_score := relevance;
     confidence := confidence_of relevance;
     search_method := "osint" |}.

(** The two nested loops visit the hits username by username. *)
Definition hits_in_order (all_results : AllResults)
    : list (string * string * ProfileData) :=
  flat_map (fun up =>
    map (fun pp => (fst up, fst pp, snd pp)) (snd up)) all_results.

(** One turn of the inner loop on the state [(processed, seen_urls)]. *)
Definition process_hit (business_name : string)
    (st : list Profile * list string)
    (hit : string * string * ProfileData) : list Profile * list string :=
  let '(processed, seen_urls) := st in
  let '(username, platform, profile_data) := hit in
  let url := pd_url profile_data in
  if Py.mem url seen_urls then st
  else ((processed ++ [processed_profile business_name username platform
                         profile_data])%list,
        url :: seen_urls).

(** The list [processed] when the loops end. *)
Definition materialize (all_results : AllResults) (business_name : string)
    : list Profile :=
  fst (fold_left (process_hit business_name)
         (hits_in_order all_results) ([], [])).

Definition process_results (all_results : AllResults)
    (business_name : string) : list Profile :=
  top_ranked (materialize all_results business_name).
End Ranking.

(** *** The whole search: [search_business_profiles] *)

Record SearchResult := {
  sr_success : bool;
  sr_business_name : string;
  sr_searched_usernames : list string;
  sr_total_profiles_found : nat;
  sr_profiles : list Profile;
  sr_search_method : string
}.

Section Search.
Variable parse_sherlock_output : string -> string -> Hits.
Variable parse_sherlock_stdout : string -> string -> Hits.
Variable py_hash : string -> Z.

(** The loop over the usernames, on the dictionary [all_results];
    [run u] is what the subprocess does for username [u]. *)
Definition search_step (run : string -> SubprocessRun)
    (all_results : AllResults) (username : string) : AllResults :=
  match sherlock_search parse_sherlock_output parse_sherlock_stdout
          (run username) username with
  | [] => all_results
  | results => dict_set all_results username results
  end.

(** No statement of the [try] block raises, so the [except] branch, which
    would answer [success: False], is never taken. *)
Definition search_business_profiles (order : list string -> list string)
    (run : string -> SubprocessRun) (business_name : string) : SearchResult :=
  let usernames := generate_business_usernames order business_name in
  let all_results := fold_left (search_step run) usernames [] in
  let processed_results := process_results py_hash all_results business_name in
  {| sr_success := true;
     sr_business_name := business_name;
     sr_searched_usernames := usernames;
     sr_total_profiles_found := List.length processed_results;
     sr_profiles := processed_results;
     sr_search_method := "sherlock_osint" |}.
End Search.

(** *** Reading the scanner's output: [identify_platform] and the parsers *)

Definition domain_to_platform : list (string * string) :=
  [ ("instagram.com", "instagram");
    ("facebook.com", "facebook");
    ("linkedin.com", "linkedin");
    ("twitter.com", "twitter");
    ("x.com", "twitter");
    ("tiktok.com", "tiktok");
    ("youtube.com", "youtube");
    ("pinterest.com", "pinterest");
    ("snapchat.com", "snapchat");
    ("reddit.com", "reddit");
    ("medium.com", "medium");
    ("behance.net", "behance");
    ("dribbble.com", "dribbble");
    ("github.com", "github");
    ("gitlab.com", "gitlab") ].

(** [identify_platform]; an exception raised by [urlparse] gives [None],
    as does a domain that is not in the table. *)
Definition identify_platform (url : string) : option string :=
  let domain := Py.lower (Py.netloc url) in
  let domain := Py.replace "www." "" domain in
  Py.dict_get domain_to_platform domain.

(** The dictionary entry both parsers write for a URL they keep. *)
Definition found_profile (url username platform : string) (verified : bool)
    : ProfileData :=
  {| pd_url := url;
     pd_username := username;
     pd_platform := platform;
     pd_verified := verified;
     pd_source := "sherlock" |}.

(** [profiles[platform] = {...}] when the platform of [url] is known;
    [verified] tells what the parser writes under ['verified']. *)
Definition record_url (verified : string -> bool) (username : string)
    (profiles : Hits) (url : string) : Hits :=
  match identify_platform url with
  | Some platform =>
      Py.dict_put profiles platform
        (found_profile url username platform (verified url))
  | None => profiles
  end.

(** One turn of the loop of [parse_sherlock_stdout]. *)
Definition stdout_line (username : string) (profiles : Hits) (line : string)
    : Hits :=
  if Py.contains "https://" line || Py.contains "http://" line
  then match Py.re_search_url line with
       | Some url => record_url (fun _ => true) username profiles url
       | None => profiles
       end
  else profiles.

(** [parse_sherlock_stdout] *)
Definition parse_sherlock_stdout (stdout username : string) : Hits :=
  fold_left (stdout_line username) (Py.split Py.line_feed stdout) [].

(** [parse_sherlock_output], on the text read from the output file;
    [check_profile_exists] answers for the network, and catches every
    exception itself. *)
Definition parse_sherlock_output (check_profile_exists : string -> bool)
    (content username : string) : Hits :=
  fold_left (record_url check_profile_exists username)
    (Py.re_findall_urls content) [].

(** *** The command line of the scanner, in [sherlock_search] *)

Definition business_platforms : list string :=
  [ "Instagram"; "Facebook"; "LinkedIn"; "Twitter"; "TikTok";
    "YouTube"; "Pinterest"; "Snapchat"; "Reddit"; "Medium";
    "Behance"; "Dribbble"; "GitHub"; "GitLab"; "Crunchbase" ].

(** [cmd]; a list of platforms that is [None] or empty counts as absent. *)
Definition sherlock_command (username output_file : string)
    (target_platforms : option (list string)) : list string :=
  let sites :=
    match target_platforms with
    | Some (platform :: rest) => platform :: rest
    | _ => business_platforms
    end in
  (["sherlock"; username; "--output"; output_file; "--timeout"; "10"]
   ++ flat_map (fun platform => ["--site"; Py.lower platform]) sites)%list.

End Cli.

(* ------------------------------------------------------------------ *)
(** ** [netlify/functions/sherlock-search/main.py]: the handler *)
(* ------------------------------------------------------------------ *)

Module Handler.

(** *** Username generation *)

Definition business_words : list string :=
  ["inc"; "llc"; "ltd"; "corp"; "company"; "co"; "group"; "agency"].

(** The loop [clean_name = clean_name.replace(word, '').strip()]. *)
Definition remove_business_words (clean_name : string) : string :=
  fold_left (fun acc word => Py.strip (Py.replace word "" acc))
    business_words clean_name.

(** The value of [clean_name] after the loop. *)
Definition clean_name (business_name : string) : string :=
  remove_business_words (Py.strip (Py.lower business_name)).

(** [base] *)
Definition base (business_name : string) : string :=
  Py.keep_chars Py.isalnum (clean_name business_name).

(** The list [usernames]. *)
Definition usernames_listed (business_name : string) : list string :=
  let clean := clean_name business_name in
  let base := base business_name in
  [ base;
    Py.replace " " "" clean;
    Py.replace " " "_" clean;
    Py.replace " " "-" clean;
    base ++ "official";
    "official" ++ base;
    base ++ "inc";
    base ++ "co" ].

(** [u and len(u) >= 2] *)
Definition kept (u : string) : bool :=
  negb (u =? "")%string && (2 <=? String.length u).

(** The strings the generator expression puts in the set. *)
Definition usernames_added (business_name : string) : list string :=
  filter kept (usernames_listed business_name).

(** [generate_business_usernames]: [list(set(...))[:5]], where [order] is
    the order in which [list] iterates over the set. *)
Definition generate_business_usernames (order : list string -> list string)
    (business_name : string) : list string :=
  firstn 5 (order (usernames_added business_name)).

(** *** Profiles *)

Record Profile := {
  id : string;
  name : string;
  platform : string;
  profile_url : string;
  username : string;
  verified : bool;
  confidence : Q;
  relevance_score : Z
}.

Definition newline : string := String (ascii_of_nat 10) "".

(** The body of the loop of [parse_sherlock_output] for one line. *)
Definition parse_line (username business_name line : string) : list Profile :=
  let line := Py.strip line in
  if negb (line =? "")%string && Py.contains "http" line
     && Py.contains "[+]" line
  then
    match Py.split ": " line with
    | part0 :: part1 :: _ =>
        let platform := Py.lower (Py.strip (Py.replace "[+]" "" part0)) in
        let url := Py.strip part1 in
        [ {| id := platform ++ "_" ++ username;
             name := business_name;
             platform := platform;
             profile_url := url;
             username := username;
             verified := false;
             confidence := 9 # 10;
             relevance_score := 85 |} ]
    | _ => []
    end
  else [].

Definition parse_sherlock_output (output username business_name : string)
    : list Profile :=
  flat_map (parse_line username business_name) (Py.split newline output).

(** The dictionary [platforms] of [generate_fallback_profiles], in
    insertion order. *)
Definition fallback_platforms (username : string) : list (string * string) :=
  [ ("instagram", "https://instagram.com/" ++ username);
    ("facebook", "https://facebook.com/" ++ username);
    ("linkedin", "https://www.linkedin.com/company/" ++ username);
    ("twitter", "https://x.com/" ++ username);
    ("tiktok", "https://www.tiktok.com/@" ++ username);
    ("youtube", "https://www.youtube.com/@" ++ username) ].

Definition generate_fallback_profiles (username business_name : string)
    : list Profile :=
  map (fun pu =>
    {| id := fst pu ++ "_" ++ username;
       name := business_name;
       platform := fst pu;
       profile_url := snd pu;
       username := username;
       verified := false;
       confidence := 7 # 10;
       relevance_score := 75 |}) (fallback_platforms username).

Record SearchOutcome := {
  profiles : list Profile;
  total_profiles_found : nat;
  searched_usernames : list string
}.

Definition generate_fallback_search (business_name : string) : SearchOutcome :=
  let username := Py.keep_chars Py.isalnum (Py.lower business_name) in
  let profiles := generate_fallback_profiles username business_name in
  {| profiles := profiles;
     total_profiles_found := List.length profiles;
     searched_usernames := [username] |}.

(** *** The search loop: [execute_sherlock_search] *)

(** What [subprocess.run] does for one username. *)
Inductive SubprocessRun :=
| Completed (returncode : Z) (stdout : string)
| TimeoutExpired
| FileNotFoundError
| OtherException.

(** One turn of the loop on [(all_profiles, searched_usernames)].  The
    inner [try] catches [TimeoutExpired] and [FileNotFoundError] only; any
    other exception leaves the loop ([None]). *)
Definition search_step (run : string -> SubprocessRun) (business_name : string)
    (st : option (list Profile * list string)) (username : string)
    : option (list Profile * list string) :=
  match st with
  | None => None
  | Some (all_profiles, searched) =>
      let searched := (searched ++ [username])%list in
      match run username with
      | Completed returncode stdout =>
          if (returncode =? 0)%Z
          then Some ((all_profiles
                      ++ parse_sherlock_output stdout username
                           business_name)%list,
                     searched)
          else Some (all_profiles, searched)
      | TimeoutExpired | FileNotFoundError =>
          Some ((all_profiles
                 ++ generate_fallback_profiles username business_name)%list,
                searched)
      | OtherException => None
      end
  end.

(** What one turn of the loop appends to [all_profiles] when it does not
    leave the loop. *)
Definition contribution (run : string -> SubprocessRun)
    (business_name username : string) : list Profile :=
  match run username with
  | Completed returncode stdout =>
      if (returncode =? 0)%Z
      then parse_sherlock_output stdout username business_name
      else []
  | TimeoutExpired | FileNotFoundError =>
      generate_fallback_profiles username business_name
  | OtherException => []
  end.

(** The failures the inner [try] recovers from: a time-out, a missing
    tool, a non-zero exit status. *)
Definition recovered_failure (run : SubprocessRun) : bool :=
  match run with
  | Completed returncode _ => negb (returncode =? 0)%Z
  | TimeoutExpired | FileNotFoundError => true
  | OtherException => false
  end.

(** [execute_sherlock_search]; [order] is the iteration order of the set
    in [generate_business_usernames].  An exception that leaves the loop
    is caught by the outer [except], which answers with
    [generate_fallback_search]. *)
Definition execute_sherlock_search (order : list string -> list string)
    (run : string -> SubprocessRun) (business_name : string) : SearchOutcome :=
  let usernames := generate_business_usernames order business_name in
  match fold_left (search_step run business_name) usernames (Some ([], [])) with
  | Some (all_profiles, searched) =>
      {| profiles := firstn 20 all_profiles;
         total_profiles_found := List.length all_profiles;
         searched_usernames := searched |}
  | None => generate_fallback_search business_name
  end.

(** *** The result cache: [get_cached_result] and [cache_result] *)

(** The response the handler builds and stores ([final_result]). *)
Record Response := {
  r_success : bool;
  r_query : string;
  r_platform : string;
  r_results : list Profile;
  r_method : string;
  r_totalFound : nat;
  r_searchedUsernames : list string;
  r_source : string
}.

(** A row of the table [api_cache].  Times are seconds on the UTC clock. *)
Record CacheRow := {
  row_id : Z;
  query_hash : string;
  query_text : string;
  row_platform : string;
  response_data : Response;
  expires_at : Z;
  hit_count : Z;
  last_accessed_at : option Z
}.

Definition Table := list CacheRow.

(** What [get_cached_result] returns on a hit. *)
Record CachedResult := {
  c_success : bool;
  c_results : list Profile;
  c_query : string;
  c_platform : string;
  c_hitCount : Z
}.

Definition ninety_days : Z := 90 * 86400.

Section Cache.
(** [hashlib.md5(...).hexdigest()] *)
Variable md5_hexdigest : string -> string.

Definition generate_query_hash (query platform : string) : string :=
  let hash_input := Py.strip (Py.lower query) ++ "_" ++ platform in
  substring 0 16 (md5_hexdigest hash_input).

(** [.select('*').eq('query_hash', h).eq('platform', p)] *)
Definition select_eq (t : Table) (h p : string) : list CacheRow :=
  filter (fun r =>
            (query_hash r =? h)%string && (row_platform r =? p)%string) t.

(** What a chain of calls on the client gives: a request, which nothing
    has sent yet, or the response [.execute()] returns for one. *)
Inductive ClientValue :=
| RequestBuilder (selected : list CacheRow)
| APIResponse (data : option CacheRow).

(** [.single()]: still a request. *)
Definition single (rows : list CacheRow) : ClientValue :=
  RequestBuilder rows.

(** [value.data]; a request has no such attribute, and the access raises
    ([None]). *)
Definition attr_data (value : ClientValue) : option (option CacheRow) :=
  match value with
  | RequestBuilder _ => None
  | APIResponse data => Some data
  end.

(** [.update({...}).eq('id', i)] *)
Definition update_hit (t : Table) (i : Z) (count : Z) (now : Z) : Table :=
  map (fun r =>
    if (row_id r =? i)%Z
    then {| row_id := row_id r; query_hash := query_hash r;
            query_text := query_text r; row_platform := row_platform r;
            response_data := response_data r; expires_at := expires_at r;
            hit_count := count; last_accessed_at := Some now |}
    else r) t.

(** [get_cached_result]: the answer and the table afterwards.  [supabase]
    is [None] when no client is configured; [now] is
    [datetime.utcnow()].  The request for the row is built and never
    executed; the exception that reading [result.data] raises is caught
    by the [except] of the function, which answers [None]. *)
Definition get_cached_result (supabase : option Table) (now : Z)
    (query platform : string) : option CachedResult * option Table :=
  match supabase with
  | None => (None, None)
  | Some t =>
      let query_hash := generate_query_hash query platform in
      let result := single (select_eq t query_hash platform) in
      match attr_data result with
      | Some (Some data) =>
          (Some {| c_success := true;
                   c_results := r_results (response_data data);
                   c_query := query_text data;
                   c_platform := row_platform data;
                   c_hitCount := hit_count data + 1 |},
           Some (update_hit t (row_id data) (hit_count data + 1) now))
      | Some None => (None, Some t)
      | None => (None, Some t)
      end
  end.

(** The identifier the table gives a new row. *)
Definition fresh_id (t : Table) : Z :=
  fold_right (fun r m => Z.max (row_id r + 1) m) 1%Z t.

(** [cache_result]: the table afterwards.  The insert is executed, and is
    taken to succeed. *)
Definition cache_result (supabase : option Table) (now : Z)
    (query platform : string) (api_response : Response) : option Table :=
  match supabase with
  | None => None
  | Some t =>
      let cache_data :=
        {| row_id := fresh_id t;
           query_hash := generate_query_hash query platform;
           query_text := query;
           row_platform := platform;
           response_data := api_response;
           expires_at := now + ninety_days;
           hit_count := 1;
           last_accessed_at := None |} in
      Some (t ++ [cache_data])%list
  end.
End Cache.

(** *** The HTTP entry point: [handler] *)

(** What [json.loads(event['body'])] and the two [get] calls give: an
    exception (the text is no JSON, or no object, or ['query'] is no
    string), or the query, absent or a string, and the platforms. *)
Inductive ParsedBody :=
| BodyError (message : string)
| BodyObject (query : option string) (platforms : option (list string)).

Record Event := {
  httpMethod : string;
  body : ParsedBody
}.

(** The body of a response, before [json.dumps]. *)
Inductive ResponseBody :=
| NoBody
| ErrorBody (error : string)
| CachedBody (cached : CachedResult) (message : string)
| ResultBody (result : Response) (message : string)
| FailureBody (error message : string).

Record HttpResponse := {
  statusCode : Z;
  headers : list (string * string);
  response_body : ResponseBody
}.

Definition cors_headers : list (string * string) :=
  [ ("Content-Type", "application/json");
    ("Access-Control-Allow-Origin", "*");
    ("Access-Control-Allow-Methods", "POST, OPTIONS");
    ("Access-Control-Allow-Headers", "Content-Type") ].

Definition respond (status : Z) (b : ResponseBody) : HttpResponse :=
  {| statusCode := status; headers := cors_headers; response_body := b |}.

(** [final_result] *)
Definition final_result (query : string) (sherlock_results : SearchOutcome)
    : Response :=
  {| r_success := true;
     r_query := query;
     r_platform := "sherlock_osint";
     r_results := profiles sherlock_results;
     r_method := "osint";
     r_totalFound := total_profiles_found sherlock_results;
     r_searchedUsernames := searched_usernames sherlock_results;
     r_source := "sherlock" |}.

(** What [create_client] does when the two variables of the environment
    are set: it returns a client or raises. *)
Inductive ClientInit :=
| NotConfigured
| Connected
| ClientError (message : string).

Section Handler.
Variable md5_hexdigest : string -> string.
Variable order : list string -> list string.

(** [handler]: the response and the table afterwards.  [print_error] is
    [None] when standard output takes the progress lines, which hold
    characters outside ASCII and the query, and otherwise the message of
    the exception the first [print] raises (the line the [except] branch
    prints holds the message of the exception only); [client] tells what
    building the client does; [table] is the table of the service; [run]
    is what the subprocess does for each username; [now] is the time of
    the request.  Both exceptions are caught by the [except] of the
    handler, which answers 500. *)
Definition handler (print_error : option string) (client : ClientInit)
    (table : Table) (run : string -> SubprocessRun) (now : Z)
    (event : Event) : HttpResponse * Table :=
  if (httpMethod event =? "OPTIONS")%string
  then (respond 200 NoBody, table)
  else if negb (httpMethod event =? "POST")%string
  then (respond 405 (ErrorBody "Method not allowed"), table)
  else
    match body event with
    | BodyError message =>
        (respond 500 (FailureBody "Sherlock OSINT search failed" message),
         table)
    | BodyObject query platforms =>
        let query :=
          Py.strip (match query with Some q => q | None => "" end) in
        if (query =? "")%string || (String.length query <? 2)
        then (respond 400 (ErrorBody "Query must be at least 2 characters"),
              table)
        else
          match print_error, client with
          | Some message, _ =>
              (respond 500
                 (FailureBody "Sherlock OSINT search failed" message),
               table)
          | None, ClientError message =>
              (respond 500
                 (FailureBody "Sherlock OSINT search failed" message),
               table)
          | None, _ =>
              let supabase :=
                match client with
                | Connected => Some table
                | _ => None
                end in
              match get_cached_result md5_hexdigest supabase now query
                      "sherlock_osint" with
              | (Some cached_result, supabase') =>
                  (respond 200
                     (CachedBody cached_result "Cached OSINT results"),
                   match supabase' with Some t => t | None => table end)
              | (None, supabase') =>
                  let sherlock_results :=
                    execute_sherlock_search order run query in
                  let result := final_result query sherlock_results in
                  (respond 200 (ResultBody result "OSINT search completed"),
                   match cache_result md5_hexdigest supabase' now query
                           "sherlock_osint" result with
                   | Some t => t
                   | None => table
                   end)
              end
          end
    end.
End Handler.

End Handler.

(* ------------------------------------------------------------------ *)
(** ** The specification's own words *)
(* ------------------------------------------------------------------ *)

Module Spec.

(** The canonical token as the specification words it (sections 3 and
    4.1): the name in lower case, the business-entity words stripped, every
    character outside [a-z0-9] removed. *)
Definition strip_business_words (s : string) : string :=
  fold_left (fun acc word => Py.replace word "" acc) Handler.business_words s.

Definition canonical_token (business_name : string) : string :=
  Py.keep_chars Py.is_az09 (strip_business_words (Py.lower business_name)).

(** Deduplication of the hits by URL, first occurrence wins (section 4.5),
    the URLs compared as the strings they are. *)
Fixpoint first_by_url (seen : list string)
    (hits : list (string * string * Cli.ProfileData))
    : list (string * string * Cli.ProfileData) :=
  match hits with
  | [] => []
  | h :: r =>
      if Py.mem (Cli.pd_url (snd h)) seen then first_by_url seen r
      else h :: first_by_url (Cli.pd_url (snd h) :: seen) r
  end.

(** The six platforms of the fallback generator (section 4.4). *)
Definition fallback_six : list string :=
  ["instagram"; "facebook"; "linkedin"; "twitter"; "tiktok"; "youtube"].

(** The thirteen tails that, put after a cleaned name of at most 21
    characters, give thirteen candidates of the class of valid length. *)
Definition affix_tails : list string :=
  [ "_official"; "_real"; "_team"; "_hq"; "_inc"; "_corp"; "_company";
    "official"; "real"; "team"; "inc"; "corp"; "company" ].

(** [url] is a URL of [platform]. *)
Definition is_platform (platform url : string) : bool :=
  match Cli.identify_platform url with
  | Some p => (p =? platform)%string
  | None => false
  end.

(** The last URL of [platform] in a sequence of URLs. *)
Fixpoint last_url_of (platform : string) (urls : list string)
    : option string :=
  match urls with
  | [] => None
  | url :: rest =>
      match last_url_of platform rest with
      | Some later => Some later
      | None => if is_platform platform url then Some url else None
      end
  end.

(** The URL the parser of the standard output takes from a line. *)
Definition urls_of_lines (lines : list string) : list string :=
  flat_map (fun line =>
    match Py.re_search_url line with
    | Some url => [url]
    | None => []
    end) lines.

(** The row [cache_result] writes for the response the handler has
    built. *)
Definition new_row (md5 : string -> string) (t : Handler.Table) (now : Z)
    (query : string) (response : Handler.Response) : Handler.CacheRow :=
  {| Handler.row_id := Handler.fresh_id t;
     Handler.query_hash :=
       Handler.generate_query_hash md5 query "sherlock_osint";
     Handler.query_text := query;
     Handler.row_platform := "sherlock_osint";
     Handler.response_data := response;
     Handler.expires_at := now + Handler.ninety_days;
     Handler.hit_count := 1;
     Handler.last_accessed_at := None |}.


(** The query of a body: [body.get('query', '')]. *)
Definition default_query (query : option string) : string :=
  match query with Some q => q | None => "" end.

(** What holds of every profile the search of the handler returns for the
    username [username]: it is read from a line of the tool, or it is one
    of the fallback profiles. *)
Definition profile_ok (business_name username : string)
    (p : Handler.Profile) : Prop :=
  Handler.name p = business_name
  /\ Handler.verified p = false
  /\ Handler.id p = Handler.platform p ++ "_" ++ Handler.username p
  /\ Handler.username p = username
  /\ ((Handler.confidence p = 9 # 10
       /\ Handler.relevance_score p = 85%Z
       /\ Py.lower (Handler.platform p) = Handler.platform p
       /\ Py.strip (Handler.profile_url p) = Handler.profile_url p)
      \/ (Handler.confidence p = 7 # 10
          /\ Handler.relevance_score p = 75%Z
          /\ In (Handler.platform p, Handler.profile_url p)
               (Handler.fallback_platforms username))).

(** The output of the tool, line by line: a line for a profile found on
    a site, or any other line. *)
Inductive OutputLine :=
| Found (site url : string)
| Other (text : string).

Definition line_text (l : OutputLine) : string :=
  match l with
  | Found site url => "[+] " ++ site ++ ": " ++ url
  | Other text => text
  end.

(** The lines joined by line feeds. *)
Fixpoint join_lines (lines : list string) : string :=
  match lines with
  | [] => ""
  | line :: rest =>
      match rest with
      | [] => line
      | _ => line ++ Handler.newline ++ join_lines rest
      end
  end.

Definition no_space (c : ascii) : bool := negb (Py.isspace c).

Definition no_line_feed (c : ascii) : bool := negb (Py.code c =? 10).

(** A line as the tool prints it: a site name without whitespace, colon
    or bracket and a URL without whitespace that has [http] in it; or a
    line without the mark.  No line has a line feed in it. *)
Definition well_formed (l : OutputLine) : Prop :=
  match l with
  | Found site url =>
      Py.all_chars Py.site_char site = true
      /\ Py.all_chars no_space url = true
      /\ Py.contains "http" url = true
  | Other text =>
      Py.contains "[+]" text = false
      /\ Py.all_chars no_line_feed text = true
  end.

(** The profiles a line stands for. *)
Definition line_profiles (username business_name : string) (l : OutputLine)
    : list Handler.Profile :=
  match l with
  | Found site url =>
      [ {| Handler.id := Py.lower site ++ "_" ++ username;
           Handler.name := business_name;
           Handler.platform := Py.lower site;
           Handler.profile_url := url;
           Handler.username := username;
           Handler.verified := false;
           Handler.confidence := 9 # 10;
           Handler.relevance_score := 85 |} ]
  | Other _ => []
  end.

End Spec.

(* ------------------------------------------------------------------ *)
(** ** Concrete inputs *)
(* ------------------------------------------------------------------ *)

Module Examples.

(** Two ways of iterating over a set: the elements as they were first
    added, and the other way round. *)
Definition first_order (added : list string) : list string :=
  Py.first_added [] added.

Definition last_order (added : list string) : list string :=
  rev (Py.first_added [] added).

(** A business name with a letter outside ASCII: C, a, f and the letter
    of code 233 (e with an acute accent). *)
Definition cafe : string := "Caf" ++ String (ascii_of_nat 233) "".

(** The tool is missing for every username. *)
Definition tool_not_found (username : string) : Handler.SubprocessRun :=
  Handler.FileNotFoundError.

(** The probe of ["officialtest"] times out; the other probes find an
    Instagram profile. *)
Definition one_timeout (username : string) : Handler.SubprocessRun :=
  if (username =? "officialtest")%string then Handler.TimeoutExpired
  else Handler.Completed 0
         ("[+] Instagram: https://instagram.com/" ++ username).

(** A digest for the cache keys. *)
Definition toy_digest (s : string) : string := s.

(** A response without profiles for the query ["Acme"]. *)
Definition empty_response : Handler.Response :=
  {| Handler.r_success := true; Handler.r_query := "Acme";
     Handler.r_platform := "sherlock_osint"; Handler.r_results := [];
     Handler.r_method := "osint"; Handler.r_totalFound := 0;
     Handler.r_searchedUsernames := []; Handler.r_source := "sherlock" |}.

(** A hash for the profile identifiers. *)
Definition zero_hash (s : string) : Z := 0.

Definition hit (url username platform : string) : Cli.ProfileData :=
  {| Cli.pd_url := url; Cli.pd_username := username;
     Cli.pd_platform := platform; Cli.pd_verified := true;
     Cli.pd_source := "sherlock" |}.

(** Two usernames whose hits differ by the letter case of the domain. *)
Definition case_variants : Cli.AllResults :=
  [ ("acme",
     [("instagram", hit "https://instagram.com/acme" "acme" "instagram")]);
    ("acmehq",
     [("instagram", hit "https://Instagram.com/acme" "acmehq" "instagram")]) ].

(** Two usernames with the very same URL. *)
Definition same_url : Cli.AllResults :=
  [ ("acme",
     [("instagram", hit "https://instagram.com/acme" "acme" "instagram")]);
    ("acmehq",
     [("instagram", hit "https://instagram.com/acme" "acmehq" "instagram")]) ].

(** A business name of 21 letters, and a hit on LinkedIn for it. *)
Definition long_name : string := "abcdefghijklmnopqrstu".

Definition long_linkedin : Cli.AllResults :=
  [ (long_name,
     [("linkedin", hit "https://linkedin.com/company/abcdefghijklmnopqrstu"
                       long_name "linkedin")]) ].

(** A hit on LinkedIn for the business name ["Acme"]. *)
Definition acme_linkedin : Cli.AllResults :=
  [ ("acme",
     [("linkedin",
       hit "https://linkedin.com/company/acme" "acme" "linkedin")]) ].

(** Output of the scanner for the username ["acme"]: two lines for
    Twitter, under its two domains, and one for a site that is not in the
    table. *)
Definition scanner_stdout : string :=
  "[+] Twitter: https://twitter.com/acme" ++ Py.line_feed
  ++ "[+] Foo: https://foo.example/acme" ++ Py.line_feed
  ++ "[+] X: https://www.X.com/acme".

(** The network answers for no URL. *)
Definition offline (url : string) : bool := false.

(** What the tool prints for a username with a profile on two sites. *)
Definition two_found : list Spec.OutputLine :=
  [ Spec.Other "[*] Checking username acme on:";
    Spec.Found "Instagram" "https://instagram.com/acme";
    Spec.Found "GitHub" "https://github.com/acme";
    Spec.Other "[*] Search completed with 2 results" ].

(** A host name with a tab in it and a capital letter. *)
Definition tabbed_host : string :=
  "Insta" ++ String (ascii_of_nat 9) "gram.com".

(** The output for ["officialtest"] cannot be decoded, which raises an
    exception of another kind; the other probes find an Instagram
    profile. *)
Definition one_garbled (username : string) : Handler.SubprocessRun :=
  if (username =? "officialtest")%string then Handler.OtherException
  else Handler.Completed 0
         ("[+] Instagram: https://instagram.com/" ++ username).

(** Every probe times out but the one of ["testco"], which finds an
    Instagram profile. *)
Definition late_hit (username : string) : Handler.SubprocessRun :=
  if (username =? "testco")%string
  then Handler.Completed 0 "[+] Instagram: https://instagram.com/testco"
  else Handler.TimeoutExpired.

(** The profile the handler reads from the line of the tool for a
    username found on Instagram. *)
Definition instagram_profile (username business_name : string)
    : Handler.Profile :=
  {| Handler.id := "instagram_" ++ username;
     Handler.name := business_name;
     Handler.platform := "instagram";
     Handler.profile_url := "https://instagram.com/" ++ username;
     Handler.username := username;
     Handler.verified := false;
     Handler.confidence := 9 # 10;
     Handler.relevance_score := 85 |}.

End Examples.

(* ------------------------------------------------------------------ *)
(** ** Facts about the Python primitives *)
(* ------------------------------------------------------------------ *)

Module PyFacts.
Import Py.

(** *** Membership and sets *)

Lemma mem_In (x : string) (l : list string) : mem x l = true <-> In x l.
Proof.
  unfold mem. rewrite existsb_exists. split.
  - intros [y [Hy He]]. apply String.eqb_eq in He. now subst.
  - intros H. exists x. split; [assumption | apply String.eqb_refl].
Qed.

Lemma mem_false (x : string) (l : list string) : mem x l = false <-> ~ In x l.
Proof.
  rewrite <- mem_In. destruct (mem x l); split; intros; congruence.
Qed.

Lemma nodupb_NoDup (l : list string) : nodupb l = true -> NoDup l.
Proof.
  induction l as [|x r IH]; simpl; intros H.
  - constructor.
  - apply andb_prop in H as [Hx Hr]. constructor.
    + apply mem_false. now apply negb_true_iff.
    + auto.
Qed.

Lemma set_iterb_sound (added it : list string) :
  set_iterb added it = true -> set_iter added it.
Proof.
  unfold set_iterb, set_iter. intros H.
  apply andb_prop in H as [H H3]. apply andb_prop in H as [H1 H2].
  rewrite forallb_forall in H2, H3. split.
  - now apply nodupb_NoDup.
  - intros x. split; intros Hx.
    + apply mem_In. now apply H2.
    + apply mem_In. now apply H3.
Qed.

Lemma first_added_spec (added seen : list string) :
  NoDup (first_added seen added) /\
  forall x, In x (first_added seen added) <-> In x added /\ ~ In x seen.
Proof.
  revert seen. induction added as [|a r IH]; intros seen; simpl.
  - split; [constructor | intros x; tauto].
  - destruct (mem a seen) eqn:Hm.
    + destruct (IH seen) as [Hn Hi]. split; [assumption|].
      intros x. rewrite Hi. apply mem_In in Hm. split.
      * tauto.
      * intros [[->|Hx] Hs]; [contradiction | tauto].
    + destruct (IH (a :: seen)) as [Hn Hi]. apply mem_false in Hm. split.
      * constructor; [|assumption]. rewrite Hi. simpl. tauto.
      * intros x. simpl. rewrite Hi. simpl.
        destruct (string_dec a x) as [->|Hne]; tauto.
Qed.

(** Every sequence of additions has an iteration order. *)
Lemma first_added_set_iter (added : list string) :
  set_iter added (first_added [] added).
Proof.
  destruct (first_added_spec added []) as [Hn Hi]. split; [assumption|].
  intros x. rewrite Hi. simpl. tauto.
Qed.

Lemma first_order_is_set_order : is_set_order Examples.first_order.
Proof. intros added. apply first_added_set_iter. Qed.

Lemma last_order_is_set_order : is_set_order Examples.last_order.
Proof.
  intros added. destruct (first_added_set_iter added) as [N H].
  unfold Examples.last_order. split.
  - now apply NoDup_rev.
  - intros x. now rewrite <- in_rev.
Qed.

(** Two iteration orders of one set are permutations of each other. *)
Lemma set_iter_Permutation (added it1 it2 : list string) :
  set_iter added it1 -> set_iter added it2 -> Permutation it1 it2.
Proof.
  intros [N1 H1] [N2 H2]. apply NoDup_Permutation; try assumption.
  intros x. now rewrite H1, H2.
Qed.

(** The number of elements of the set does not depend on the order. *)
Lemma set_iter_length (added it1 it2 : list string) :
  set_iter added it1 -> set_iter added it2 ->
  List.length it1 = List.length it2.
Proof.
  intros H1 H2. apply Permutation_length. eapply set_iter_Permutation; eauto.
Qed.

(** *** Prefixes of lists *)

Lemma firstn_incl {A} (n : nat) (l : list A) : incl (firstn n l) l.
Proof.
  revert l. induction n as [|n IH]; intros [|x l]; simpl; intros y Hy;
    try contradiction.
  destruct Hy as [->|Hy]; [now left | right; now apply IH].
Qed.

Lemma firstn_NoDup {A} (n : nat) (l : list A) : NoDup l -> NoDup (firstn n l).
Proof.
  revert l. induction n as [|n IH]; intros [|x l] H; simpl; try constructor.
  - inversion H; subst. intros Hin. now apply firstn_incl in Hin.
  - inversion H; subst. auto.
Qed.

Lemma firstn_StronglySorted {A} (R : A -> A -> Prop) (n : nat) (l : list A) :
  StronglySorted R l -> StronglySorted R (firstn n l).
Proof.
  revert l. induction n as [|n IH]; intros [|x l] H; simpl; try constructor.
  - apply IH. now inversion H.
  - inversion H; subst. rewrite Forall_forall in *.
    intros y Hy. apply firstn_incl in Hy. auto.
Qed.

(** *** The stable sort *)

Section SortFacts.
Context {A : Type}.
Variable before : A -> A -> bool.

Lemma insert_Permutation (x : A) (l : list A) :
  Permutation (insert before x l) (x :: l).
Proof.
  induction l as [|y r IH]; simpl.
  - apply Permutation_refl.
  - destruct (before x y).
    + apply Permutation_refl.
    + eapply perm_trans; [apply perm_skip, IH | apply perm_swap].
Qed.

Lemma stable_sort_Permutation (l : list A) :
  Permutation (stable_sort before l) l.
Proof.
  induction l as [|x r IH]; simpl.
  - constructor.
  - eapply perm_trans; [apply insert_Permutation | now apply perm_skip].
Qed.

Lemma stable_sort_In (l : list A) (x : A) :
  In x (stable_sort before l) <-> In x l.
Proof.
  split; apply Permutation_in;
    [| apply Permutation_sym]; apply stable_sort_Permutation.
Qed.

Lemma stable_sort_length (l : list A) :
  List.length (stable_sort before l) = List.length l.
Proof. apply Permutation_length, stable_sort_Permutation. Qed.

Lemma stable_sort_NoDup (l : list A) : NoDup l -> NoDup (stable_sort before l).
Proof.
  apply Permutation_NoDup, Permutation_sym, stable_sort_Permutation.
Qed.

Hypothesis before_total : forall x y, before x y = true \/ before y x = true.
Hypothesis before_trans :
  forall x y z, before x y = true -> before y z = true -> before x z = true.

Lemma insert_sorted (x : A) (l : list A) :
  StronglySorted (fun a b => before a b = true) l ->
  StronglySorted (fun a b => before a b = true) (insert before x l).
Proof.
  induction l as [|y r IH]; simpl; intros H.
  - repeat constructor.
  - inversion H as [|? ? Hr Hy]; subst. destruct (before x y) eqn:E.
    + constructor; [assumption|]. constructor; [assumption|].
      rewrite Forall_forall in *. intros z Hz. eauto.
    + constructor; [auto|]. rewrite Forall_forall in *. intros z Hz.
      apply (Permutation_in _ (insert_Permutation x r)) in Hz.
      destruct Hz as [<-|Hz]; [|auto].
      destruct (before_total x y); congruence.
Qed.

Lemma stable_sort_sorted (l : list A) :
  StronglySorted (fun a b => before a b = true) (stable_sort before l).
Proof.
  induction l as [|x r IH]; simpl; [constructor | now apply insert_sorted].
Qed.
End SortFacts.

End PyFacts.

(* ------------------------------------------------------------------ *)
(** ** Facts about strings *)
(* ------------------------------------------------------------------ *)

Module StringFacts.
Import Py.

Lemma append_nil_r (s : string) : s ++ "" = s.
Proof. induction s as [|c r IH]; simpl; [reflexivity | now rewrite IH]. Qed.

Lemma append_assoc (a b c : string) : (a ++ b) ++ c = a ++ (b ++ c).
Proof. induction a as [|x r IH]; simpl; [reflexivity | now rewrite IH]. Qed.

Lemma length_append (a b : string) :
  String.length (a ++ b) = String.length a + String.length b.
Proof. induction a as [|x r IH]; simpl; [reflexivity | now rewrite IH]. Qed.

(** *** Character classes *)

Lemma all_chars_app (p : ascii -> bool) (a b : string) :
  all_chars p (a ++ b) = all_chars p a && all_chars p b.
Proof.
  induction a as [|x r IH]; simpl; [reflexivity|].
  now rewrite IH, andb_assoc.
Qed.

Lemma all_chars_impl (p q : ascii -> bool) (s : string) :
  (forall c, p c = true -> q c = true) ->
  all_chars p s = true -> all_chars q s = true.
Proof.
  intros Hpq. induction s as [|c r IH]; simpl; [reflexivity|].
  intros H. apply andb_prop in H as [Hc Hr]. now rewrite (Hpq c Hc), IH.
Qed.

Lemma keep_chars_app (f : ascii -> bool) (a b : string) :
  keep_chars f (a ++ b) = keep_chars f a ++ keep_chars f b.
Proof.
  induction a as [|x r IH]; simpl; [reflexivity|].
  destruct (f x); simpl; now rewrite IH.
Qed.

Lemma keep_chars_all (f : ascii -> bool) (s : string) :
  all_chars f (keep_chars f s) = true.
Proof.
  induction s as [|c r IH]; simpl; [reflexivity|].
  destruct (f c) eqn:E; simpl; [now rewrite E|assumption].
Qed.

Lemma keep_chars_none (f p : ascii -> bool) (s : string) :
  (forall c, p c = true -> f c = false) ->
  all_chars p s = true -> keep_chars f s = "".
Proof.
  intros Hpf. induction s as [|c r IH]; simpl; [reflexivity|].
  intros H. apply andb_prop in H as [Hc Hr]. now rewrite (Hpf c Hc), IH.
Qed.

(** Two classes that agree on the characters of [s] keep the same
    characters. *)
Lemma keep_chars_ext (f g p : ascii -> bool) (s : string) :
  (forall c, p c = true -> f c = g c) ->
  all_chars p s = true -> keep_chars f s = keep_chars g s.
Proof.
  intros Hfg. induction s as [|c r IH]; simpl; [reflexivity|].
  intros H. apply andb_prop in H as [Hc Hr].
  now rewrite (Hfg c Hc), IH.
Qed.

Lemma all_chars_keep (p f : ascii -> bool) (s : string) :
  all_chars p s = true -> all_chars p (keep_chars f s) = true.
Proof.
  induction s as [|c r IH]; simpl; [reflexivity|].
  intros H. apply andb_prop in H as [Hc Hr].
  destruct (f c); simpl; [rewrite Hc|]; auto.
Qed.

(** *** [strip] *)

Lemma lstrip_decomp (s : string) :
  exists L, all_chars isspace L = true /\ s = L ++ lstrip s.
Proof.
  induction s as [|c r [L [HL E]]]; simpl.
  - exists "". auto.
  - destruct (isspace c) eqn:Ec.
    + exists (String c L). simpl. rewrite Ec, HL. split; [reflexivity|].
      now rewrite <- E.
    + exists "". auto.
Qed.

Lemma rstrip_decomp (s : string) :
  exists R, all_chars isspace R = true /\ s = rstrip s ++ R.
Proof.
  induction s as [|c r [R [HR E]]]; simpl.
  - exists "". auto.
  - destruct (rstrip r) as [|d r'] eqn:Er.
    + simpl in E. subst r. destruct (isspace c) eqn:Ec.
      * exists (String c R). simpl. now rewrite Ec, HR.
      * exists R. auto.
    + exists R. split; [assumption|]. simpl. now rewrite E at 1.
Qed.

Lemma strip_decomp (s : string) :
  exists L R, all_chars isspace L = true /\ all_chars isspace R = true /\
              s = L ++ strip s ++ R.
Proof.
  destruct (lstrip_decomp s) as [L [HL EL]].
  destruct (rstrip_decomp (lstrip s)) as [R [HR ER]].
  exists L, R. repeat split; try assumption.
  unfold strip. now rewrite <- ER.
Qed.

Lemma lstrip_ws (L : string) : all_chars isspace L = true -> lstrip L = "".
Proof.
  induction L as [|c r IH]; simpl; [reflexivity|].
  intros H. apply andb_prop in H as [Hc Hr]. rewrite Hc. auto.
Qed.

Lemma rstrip_ws (R : string) : all_chars isspace R = true -> rstrip R = "".
Proof.
  induction R as [|c r IH]; simpl; [reflexivity|].
  intros H. apply andb_prop in H as [Hc Hr]. now rewrite IH, Hc.
Qed.

Lemma lstrip_app_ws (L z : string) :
  all_chars isspace L = true -> lstrip (L ++ z) = lstrip z.
Proof.
  induction L as [|c r IH]; simpl; [reflexivity|].
  intros H. apply andb_prop in H as [Hc Hr]. rewrite Hc. auto.
Qed.

Lemma rstrip_app_ws (z R : string) :
  all_chars isspace R = true -> rstrip (z ++ R) = rstrip z.
Proof.
  intros HR. induction z as [|c r IH]; simpl.
  - now apply rstrip_ws.
  - now rewrite IH.
Qed.

Lemma strip_app_ws_r (y R : string) :
  all_chars isspace R = true -> strip (y ++ R) = strip y.
Proof.
  intros HR. unfold strip. induction y as [|c r IH]; simpl.
  - now rewrite (lstrip_ws R HR).
  - destruct (isspace c); [assumption|].
    change (String c (r ++ R)) with (String c r ++ R).
    now apply rstrip_app_ws.
Qed.

(** Whitespace around a string does not change what [strip] returns. *)
Lemma strip_app_ws (L y R : string) :
  all_chars isspace L = true -> all_chars isspace R = true ->
  strip (L ++ y ++ R) = strip y.
Proof.
  intros HL HR. unfold strip at 1. rewrite lstrip_app_ws by assumption.
  now apply strip_app_ws_r.
Qed.

Lemma keep_chars_strip (f : ascii -> bool) (s : string) :
  (forall c, isspace c = true -> f c = false) ->
  keep_chars f (strip s) = keep_chars f s.
Proof.
  intros Hf. destruct (strip_decomp s) as [L [R [HL [HR E]]]].
  rewrite E at 2. rewrite !keep_chars_app.
  rewrite (keep_chars_none f isspace L), (keep_chars_none f isspace R) by auto.
  simpl. now rewrite append_nil_r.
Qed.

Lemma all_chars_strip (p : ascii -> bool) (s : string) :
  all_chars p s = true -> all_chars p (strip s) = true.
Proof.
  destruct (strip_decomp s) as [L [R [_ [_ E]]]]. intros H.
  rewrite E, !all_chars_app in H.
  apply andb_prop in H as [_ H]. now apply andb_prop in H as [H _].
Qed.

(** *** [replace] *)

Lemma prefix_length (w s : string) :
  prefix w s = true -> String.length w <= String.length s.
Proof.
  revert w. induction s as [|c r IH]; intros [|a w]; simpl; intros H;
    try lia; try discriminate.
  destruct (ascii_dec a c); [|discriminate]. apply IH in H. lia.
Qed.

(** A word without whitespace does not start in a run of whitespace. *)
Lemma prefix_ws_head (a c : ascii) (w s : string) :
  isspace a = false -> isspace c = true ->
  prefix (String a w) (String c s) = false.
Proof.
  intros Ha Hc. simpl. destruct (ascii_dec a c); [congruence | reflexivity].
Qed.

(** ... nor does it reach into one. *)
Lemma prefix_app_ws (w x R : string) :
  all_chars (fun c => negb (isspace c)) w = true ->
  all_chars isspace R = true ->
  prefix w (x ++ R) = prefix w x.
Proof.
  intros Hw HR. revert w Hw. induction x as [|c r IH]; intros [|a w] Hw.
  - now destruct R.
  - simpl in Hw. apply andb_prop in Hw as [Ha _].
    apply negb_true_iff in Ha.
    destruct R as [|b R']; [reflexivity|].
    simpl in HR. apply andb_prop in HR as [Hb _].
    simpl append. now rewrite prefix_ws_head.
  - reflexivity.
  - simpl in Hw. apply andb_prop in Hw as [_ Hw].
    simpl. destruct (ascii_dec a c); [now apply IH | reflexivity].
Qed.

Section Replace.
(** The word replaced: not empty, and without whitespace. *)
Variables (a : ascii) (w new : string).
Let old := String a w.
Hypothesis old_no_ws : all_chars (fun c => negb (isspace c)) old = true.

Lemma replace_from_0 (c : ascii) (r : string) :
  replace_from 0 old new (String c r) =
  if prefix old (String c r)
  then new ++ replace_from (String.length old - 1) old new r
  else String c (replace_from 0 old new r).
Proof. reflexivity. Qed.

Lemma replace_from_ws_l (L x : string) :
  all_chars isspace L = true ->
  replace_from 0 old new (L ++ x) = L ++ replace_from 0 old new x.
Proof.
  assert (Ha : isspace a = false).
  { unfold old in old_no_ws. simpl in old_no_ws.
    apply andb_prop in old_no_ws as [Ha _]. now apply negb_true_iff. }
  induction L as [|c r IH]; [reflexivity|].
  intros H. simpl in H. apply andb_prop in H as [Hc Hr].
  simpl append. rewrite replace_from_0. unfold old at 1.
  rewrite prefix_ws_head by assumption. now rewrite IH.
Qed.

Lemma replace_from_ws_r (k : nat) (x R : string) :
  all_chars isspace R = true -> k <= String.length x ->
  replace_from k old new (x ++ R) = replace_from k old new x ++ R.
Proof.
  intros HR. revert k. induction x as [|c r IH]; intros k Hk.
  - simpl in Hk. assert (k = 0) by lia. subst k. simpl append.
    rewrite <- (append_nil_r R) at 1. rewrite replace_from_ws_l by assumption.
    simpl. now rewrite append_nil_r.
  - destruct k as [|k].
    + change (String c r ++ R) with (String c (r ++ R)).
      rewrite (replace_from_0 c (r ++ R)), (replace_from_0 c r).
      assert (Ep' : prefix old (String c (r ++ R)) = prefix old (String c r)).
      { change (String c (r ++ R)) with (String c r ++ R).
        now apply prefix_app_ws. }
      rewrite Ep'. destruct (prefix old (String c r)) eqn:Ep.
      * apply prefix_length in Ep. simpl in Ep.
        rewrite IH by (unfold old; simpl; lia).
        now rewrite append_assoc.
      * simpl. now rewrite IH by lia.
    + simpl. apply IH. simpl in Hk. lia.
Qed.

(** Replacing in a string and in the same string without the
    whitespace around it gives the same, up to that whitespace. *)
Lemma replace_strip_commute (t : string) :
  strip (replace old new (strip t)) = strip (replace old new t).
Proof.
  destruct (strip_decomp t) as [L [R [HL [HR E]]]].
  rewrite E at 2. unfold replace, old.
  fold old. rewrite replace_from_ws_l by assumption.
  rewrite replace_from_ws_r by (assumption || lia).
  now rewrite strip_app_ws.
Qed.

Lemma all_chars_replace_from (p : ascii -> bool) (k : nat) (s : string) :
  all_chars p new = true ->
  all_chars p s = true -> all_chars p (replace_from k old new s) = true.
Proof.
  intros Hn. revert k. induction s as [|c r IH]; intros k H;
    [reflexivity|].
  simpl in H. apply andb_prop in H as [Hc Hr]. destruct k as [|k].
  - rewrite replace_from_0.
    destruct (prefix old (String c r)).
    + rewrite all_chars_app, Hn. simpl. auto.
    + simpl. rewrite Hc. simpl. auto.
  - simpl. auto.
Qed.
End Replace.

End StringFacts.

(* ------------------------------------------------------------------ *)
(** ** Facts about characters *)
(* ------------------------------------------------------------------ *)

Module CharFacts.
Import Py.

(** Settle a statement about one character by trying the 256 of them. *)
Ltac each_char c :=
  destruct c as [[] [] [] [] [] [] [] []]; vm_compute;
  try reflexivity; try discriminate; auto.

Lemma lower_char_not_upper (c : ascii) : is_upper_az (lower_char c) = false.
Proof. each_char c. Qed.

Lemma lower_char_ascii (c : ascii) :
  is_ascii c = true -> ascii_not_upper (lower_char c) = true.
Proof. each_char c. Qed.

Lemma re_alnum_not_upper (c : ascii) :
  negb (is_upper_az c) = true -> re_alnum c = is_az09 c.
Proof. each_char c. Qed.

Lemma isalnum_ascii_not_upper (c : ascii) :
  ascii_not_upper c = true -> isalnum c = is_az09 c.
Proof. each_char c. Qed.

Lemma isspace_not_isalnum (c : ascii) : isspace c = true -> isalnum c = false.
Proof. each_char c. Qed.

Lemma isspace_not_az09 (c : ascii) : isspace c = true -> is_az09 c = false.
Proof. each_char c. Qed.

Lemma lower_not_upper (s : string) :
  all_chars (fun c => negb (is_upper_az c)) (lower s) = true.
Proof.
  induction s as [|c r IH]; simpl; [reflexivity|].
  now rewrite lower_char_not_upper, IH.
Qed.

Lemma lower_ascii (s : string) :
  all_chars is_ascii s = true -> all_chars ascii_not_upper (lower s) = true.
Proof.
  induction s as [|c r IH]; simpl; [reflexivity|].
  intros H. apply andb_prop in H as [Hc Hr].
  now rewrite lower_char_ascii, IH.
Qed.

End CharFacts.

(* ------------------------------------------------------------------ *)
(** ** Facts about the two normalizers *)
(* ------------------------------------------------------------------ *)

Module NormalizerFacts.
Import Py StringFacts CharFacts.

(** The cleaned name of the class is the lower-cased name restricted to
    [a-z0-9]: no upper-case letter is left for [A-Z] to keep. *)
Lemma cli_clean_name_az09 (business_name : string) :
  Cli.clean_name business_name = keep_chars is_az09 (lower business_name).
Proof.
  unfold Cli.clean_name.
  apply keep_chars_ext with (p := fun c => negb (is_upper_az c)).
  - apply re_alnum_not_upper.
  - apply lower_not_upper.
Qed.

Lemma business_words_solid : Forall solid Handler.business_words.
Proof. repeat constructor; discriminate. Qed.

(** The [strip] after each [replace] can be done once, at the end. *)
Lemma fold_replace_strip (words : list string) (t : string) :
  Forall solid words ->
  fold_left (fun acc word => strip (replace word "" acc)) words (strip t)
  = strip (fold_left (fun acc word => replace word "" acc) words t).
Proof.
  intros H. revert t. induction H as [|w ws [Hne Hws] _ IH]; intros t; simpl.
  - reflexivity.
  - destruct w as [|a w]; [congruence|].
    rewrite replace_strip_commute by assumption. apply IH.
Qed.

Lemma handler_clean_name_strip (business_name : string) :
  Handler.clean_name business_name
  = strip (Spec.strip_business_words (lower business_name)).
Proof.
  unfold Handler.clean_name, Handler.remove_business_words,
    Spec.strip_business_words.
  apply fold_replace_strip, business_words_solid.
Qed.

Lemma fold_replace_all_chars (p : ascii -> bool) (words : list string)
    (t : string) :
  all_chars p t = true ->
  all_chars p (fold_left (fun acc word => replace word "" acc) words t) = true.
Proof.
  revert t. induction words as [|w ws IH]; intros t H; simpl; [assumption|].
  apply IH. destruct w as [|a w]; simpl.
  - clear IH. induction t as [|c r IHr]; [reflexivity|].
    simpl in *. apply andb_prop in H as [Hc Hr]. rewrite Hc. auto.
  - now apply all_chars_replace_from.
Qed.

(** The handler's [base] is the lower-cased name without the business
    words, restricted to what [isalnum] accepts. *)
Lemma handler_base_isalnum (business_name : string) :
  Handler.base business_name
  = keep_chars isalnum (Spec.strip_business_words (lower business_name)).
Proof.
  unfold Handler.base. rewrite handler_clean_name_strip.
  apply keep_chars_strip, isspace_not_isalnum.
Qed.

(** On a name of ASCII characters the handler's [base] is the canonical
    token of the specification. *)
Lemma handler_base_canonical (business_name : string) :
  all_chars is_ascii business_name = true ->
  Handler.base business_name = Spec.canonical_token business_name.
Proof.
  intros Hascii. rewrite handler_base_isalnum. unfold Spec.canonical_token.
  apply keep_chars_ext with (p := ascii_not_upper).
  - apply isalnum_ascii_not_upper.
  - apply fold_replace_all_chars. now apply lower_ascii.
Qed.

End NormalizerFacts.

(* ------------------------------------------------------------------ *)
(** ** Facts about sorting by a key and about the generators *)
(* ------------------------------------------------------------------ *)

Module GeneratorFacts.
Import Py PyFacts.

Lemma filter_Permutation {A} (f : A -> bool) (l1 l2 : list A) :
  Permutation l1 l2 -> Permutation (filter f l1) (filter f l2).
Proof.
  induction 1 as [|x l l' _ IH|x y l|l l' l'' _ IH1 _ IH2]; simpl.
  - constructor.
  - destruct (f x); [now constructor | assumption].
  - destruct (f x), (f y); try apply Permutation_refl. apply perm_swap.
  - eapply perm_trans; eauto.
Qed.

(** *** Ascending and descending order of the keys *)

Lemma sorted_keys {A} (key : A -> Z) (l : list A) :
  StronglySorted Z.le (map key (sorted key l)).
Proof.
  unfold sorted.
  assert (H : StronglySorted
                (fun a b => (key a <=? key b)%Z = true)
                (stable_sort (fun x y => (key x <=? key y)%Z) l)).
  { apply stable_sort_sorted.
    - intros x y. rewrite !Z.leb_le. lia.
    - intros x y z. rewrite !Z.leb_le. lia. }
  induction H as [|a r _ IH Ha]; simpl; constructor; [assumption|].
  rewrite Forall_forall in *. intros k Hk.
  apply in_map_iff in Hk as [b [<- Hb]].
  apply Z.leb_le. auto.
Qed.

Lemma sort_reverse_keys {A} (key : A -> Z) (l : list A) :
  StronglySorted (fun a b => (key b <= key a)%Z) (sort_reverse key l).
Proof.
  unfold sort_reverse.
  assert (H : StronglySorted
                (fun a b => (key b <=? key a)%Z = true)
                (stable_sort (fun x y => (key y <=? key x)%Z) l)).
  { apply stable_sort_sorted.
    - intros x y. rewrite !Z.leb_le. lia.
    - intros x y z. rewrite !Z.leb_le. lia. }
  induction H as [|a r _ IH Ha]; constructor; [assumption|].
  rewrite Forall_forall in *. intros b Hb. apply Z.leb_le. auto.
Qed.

(** Equal keys keep the order they had in the input. *)
Lemma sorted_stable {A} (key : A -> Z) (k : Z) (l : list A) :
  filter (fun x => (key x =? k)%Z) (sorted key l)
  = filter (fun x => (key x =? k)%Z) l.
Proof.
  unfold sorted. induction l as [|x r IH]; simpl; [reflexivity|].
  rewrite <- IH. clear IH.
  induction (stable_sort (fun x y => (key x <=? key y)%Z) r) as [|y t IHt];
    simpl; [reflexivity|].
  destruct (key x <=? key y)%Z eqn:E; simpl; [reflexivity|].
  rewrite IHt. destruct (key x =? k)%Z eqn:Ex, (key y =? k)%Z eqn:Ey;
    try reflexivity.
  apply Z.eqb_eq in Ex, Ey. apply Z.leb_gt in E. lia.
Qed.

Lemma sort_reverse_stable {A} (key : A -> Z) (k : Z) (l : list A) :
  filter (fun x => (key x =? k)%Z) (sort_reverse key l)
  = filter (fun x => (key x =? k)%Z) l.
Proof.
  unfold sort_reverse. induction l as [|x r IH]; simpl; [reflexivity|].
  rewrite <- IH. clear IH.
  induction (stable_sort (fun x y => (key y <=? key x)%Z) r) as [|y t IHt];
    simpl; [reflexivity|].
  destruct (key y <=? key x)%Z eqn:E; simpl; [reflexivity|].
  rewrite IHt. destruct (key x =? k)%Z eqn:Ex, (key y =? k)%Z eqn:Ey;
    try reflexivity.
  apply Z.eqb_eq in Ex, Ey. apply Z.leb_gt in E. lia.
Qed.

(** Two ascending lists with the same elements are the same list. *)
Lemma ascending_unique (l1 l2 : list Z) :
  StronglySorted Z.le l1 -> StronglySorted Z.le l2 ->
  Permutation l1 l2 -> l1 = l2.
Proof.
  intros H1. revert l2. induction H1 as [|a r1 Hr1 IH Ha]; intros l2 H2 HP.
  - apply Permutation_nil in HP. now subst.
  - destruct H2 as [|b r2 Hr2 Hb].
    + apply Permutation_sym, Permutation_nil in HP. discriminate.
    + rewrite Forall_forall in Ha, Hb.
      assert (a = b).
      { assert (In a (b :: r2)) as [->|Hab]
          by (eapply Permutation_in; [exact HP | now left]);
          [reflexivity|].
        assert (In b (a :: r1)) as [->|Hba]
          by (eapply Permutation_in;
              [apply Permutation_sym; exact HP | now left]);
          [reflexivity|].
        apply Ha in Hba. apply Hb in Hab. lia. }
      subst b. f_equal. apply IH; [assumption|].
      now apply Permutation_cons_inv in HP.
Qed.

(** The keys of a sorted list do not depend on the order of the input. *)
Lemma sorted_keys_Permutation {A} (key : A -> Z) (l1 l2 : list A) :
  Permutation l1 l2 ->
  map key (sorted key l1) = map key (sorted key l2).
Proof.
  intros HP. apply ascending_unique; try apply sorted_keys.
  apply Permutation_map. unfold sorted.
  eapply perm_trans; [apply stable_sort_Permutation|].
  eapply perm_trans; [exact HP|].
  apply Permutation_sym, stable_sort_Permutation.
Qed.

(** *** The generator of the class *)

Lemma cli_generate_incl (order : list string -> list string)
    (business_name : string) :
  incl (Cli.generate_business_usernames order business_name)
       (filter Cli.valid_length (order (Cli.usernames_added business_name))).
Proof.
  unfold Cli.generate_business_usernames, sorted. intros u Hu.
  apply firstn_incl in Hu. now apply stable_sort_In in Hu.
Qed.

Lemma cli_generate_In (order : list string -> list string)
    (business_name u : string) :
  is_set_order order ->
  In u (Cli.generate_business_usernames order business_name) ->
  In u (Cli.usernames_added business_name) /\ Cli.valid_length u = true.
Proof.
  intros Ho Hu. apply cli_generate_incl, filter_In in Hu as [Hu Hv].
  split; [|assumption].
  now apply (proj2 (Ho (Cli.usernames_added business_name)) u).
Qed.

Lemma cli_generate_NoDup (order : list string -> list string)
    (business_name : string) :
  is_set_order order ->
  NoDup (Cli.generate_business_usernames order business_name).
Proof.
  intros Ho. unfold Cli.generate_business_usernames, sorted.
  apply firstn_NoDup, stable_sort_NoDup, NoDup_filter.
  exact (proj1 (Ho (Cli.usernames_added business_name))).
Qed.

Lemma cli_generate_length (order : list string -> list string)
    (business_name : string) :
  List.length (Cli.generate_business_usernames order business_name) <= 10.
Proof. unfold Cli.generate_business_usernames. apply firstn_le_length. Qed.

Lemma cli_generate_scores (order1 order2 : list string -> list string)
    (business_name : string) :
  is_set_order order1 -> is_set_order order2 ->
  map (fun u => Cli.username_score u business_name)
      (Cli.generate_business_usernames order1 business_name)
  = map (fun u => Cli.username_score u business_name)
      (Cli.generate_business_usernames order2 business_name).
Proof.
  intros H1 H2. unfold Cli.generate_business_usernames.
  rewrite <- !firstn_map. f_equal.
  apply sorted_keys_Permutation, filter_Permutation.
  eapply set_iter_Permutation; [apply H1 | apply H2].
Qed.

(** *** The generator of the handler *)

Lemma handler_kept_length (u : string) :
  Handler.kept u = true -> 2 <= String.length u.
Proof.
  unfold Handler.kept. intros H. apply andb_prop in H as [_ H].
  now apply Nat.leb_le.
Qed.

Lemma handler_generate_In (order : list string -> list string)
    (business_name u : string) :
  is_set_order order ->
  In u (Handler.generate_business_usernames order business_name) ->
  In u (Handler.usernames_added business_name).
Proof.
  intros Ho Hu. apply firstn_incl in Hu.
  now apply (proj2 (Ho (Handler.usernames_added business_name)) u).
Qed.

(** A set of at most five elements is returned whole. *)
Lemma handler_generate_all (order : list string -> list string)
    (business_name : string) :
  is_set_order order ->
  List.length (first_added [] (Handler.usernames_added business_name)) <= 5 ->
  Handler.generate_business_usernames order business_name
  = order (Handler.usernames_added business_name).
Proof.
  intros Ho Hlen. unfold Handler.generate_business_usernames.
  apply firstn_all2.
  now rewrite (set_iter_length _ _ _ (Ho _) (first_added_set_iter _)).
Qed.

End GeneratorFacts.

(* ------------------------------------------------------------------ *)
(** ** Username generation *)
(* ------------------------------------------------------------------ *)

Import Py PyFacts StringFacts CharFacts NormalizerFacts GeneratorFacts.

(** C1, as stated, fails on ["Acme Inc"].  The generator of the class
    cleans the name to ["acmeinc"] (it strips no business word), so
    ["acme"] is not among its candidates.  The generator of the handler
    does return ["acme"], at the place the iteration over the set gives
    it: iterating last additions first, ["acmeco"] comes first. *)
Lemma acme_not_generated_by_class :
  is_set_order Examples.first_order /\
  ~ In "acme"
      (Cli.generate_business_usernames Examples.first_order "Acme Inc") /\
  is_set_order Examples.last_order /\
  hd_error (Handler.generate_business_usernames Examples.last_order "Acme Inc")
  = Some "acmeco".
Proof.
  split; [|split; [|split]].
  - exact first_order_is_set_order.
  - intros H. apply mem_In in H. vm_compute in H. discriminate.
  - exact last_order_is_set_order.
  - reflexivity.
Qed.

(** C1 (amended).  For every business name the generator of the class
    returns at most 10 and the generator of the handler at most 5 of the
    candidates they built (the class: of those of length 3 to 30).  For
    ["Acme Inc"] the handler's list is made of acme, acmeofficial,
    officialacme, acmeinc and acmeco, so it includes ["acme"], at the place
    the iteration over the set gives it, no score being computed there;
    the class's list never includes ["acme"]. *)
Theorem generators_return_bounded_candidates :
  forall order,
    is_set_order order ->
    (forall business_name,
       (List.length (Cli.generate_business_usernames order business_name)
          <= 10
        /\ forall u,
             In u (Cli.generate_business_usernames order business_name) ->
             In u (Cli.usernames_added business_name)
             /\ Cli.valid_length u = true)
       /\
       (List.length (Handler.generate_business_usernames order business_name)
          <= 5
        /\ forall u,
             In u (Handler.generate_business_usernames order business_name) ->
             In u (Handler.usernames_added business_name)))
    /\
    (In "acme" (Handler.generate_business_usernames order "Acme Inc")
     /\ Permutation (Handler.generate_business_usernames order "Acme Inc")
          ["acme"; "acmeofficial"; "officialacme"; "acmeinc"; "acmeco"])
    /\
    ~ In "acme" (Cli.generate_business_usernames order "Acme Inc").
Proof.
  intros order Ho. split; [|split].
  - intros business_name. split; split.
    + apply cli_generate_length.
    + intros u. now apply cli_generate_In.
    + apply firstn_le_length.
    + intros u. now apply handler_generate_In.
  - rewrite (handler_generate_all order "Acme Inc" Ho) by (vm_compute; lia).
    split.
    + apply (proj2 (Ho (Handler.usernames_added "Acme Inc")) "acme").
      apply mem_In. vm_compute. reflexivity.
    + eapply set_iter_Permutation; [apply Ho|].
      apply set_iterb_sound. vm_compute. reflexivity.
  - intros Hu. apply cli_generate_In in Hu as [Hu _]; [|assumption].
    apply mem_In in Hu. vm_compute in Hu. discriminate.
Qed.

Lemma generators_return_bounded_candidates_witness :
  In "acme"
     (Handler.generate_business_usernames Examples.first_order "Acme Inc")
  /\ ~ In "acme"
       (Cli.generate_business_usernames Examples.first_order "Acme Inc").
Proof.
  destruct (generators_return_bounded_candidates Examples.first_order
              first_order_is_set_order) as [_ [[H _] C]].
  split; [exact H | exact C].
Defined.

(** The class sorts its candidates by ascending score and keeps the first
    ten: for ["Acme Inc"] these are the ten lowest scores (in half points),
    and the best candidate, ["acmeinc"] with 353, is not returned. *)
Lemma class_generator_sorts_ascending :
  map (fun u => Cli.username_score u "Acme Inc")
      (Cli.generate_business_usernames Examples.first_order "Acme Inc")
  = [12; 12; 12; 84; 84; 85; 85; 88; 88; 88]%Z
  /\ Cli.username_score "acmeinc" "Acme Inc" = 353%Z
  /\ ~ In "acmeinc"
       (Cli.generate_business_usernames Examples.first_order "Acme Inc").
Proof.
  split; [reflexivity|]. split; [reflexivity|].
  intros H. apply mem_In in H. vm_compute in H. discriminate.
Qed.

(** C4, as stated, fails on the business name ["ab"]: the handler's
    generator keeps every non-empty candidate of at least 2 characters, and
    returns ["ab"], which has 2. *)
Lemma handler_generates_two_letter_username :
  is_set_order Examples.first_order /\
  In "ab" (Handler.generate_business_usernames Examples.first_order "ab") /\
  String.length "ab" = 2.
Proof.
  split; [|split].
  - exact first_order_is_set_order.
  - vm_compute. auto.
  - reflexivity.
Qed.

(** C4 (amended).  For every business name, the candidates the generator
    of the class returns have a length in [3, 30] and are pairwise
    distinct; those the generator of the handler returns are pairwise
    distinct and have at least 2 characters, with no upper bound. *)
Theorem generated_usernames_lengths_and_no_duplicates :
  forall order business_name,
    is_set_order order ->
    (NoDup (Cli.generate_business_usernames order business_name)
     /\ Forall (fun u => 3 <= String.length u <= 30)
          (Cli.generate_business_usernames order business_name))
    /\
    (NoDup (Handler.generate_business_usernames order business_name)
     /\ Forall (fun u => 2 <= String.length u)
          (Handler.generate_business_usernames order business_name)).
Proof.
  intros order business_name Ho. split; split.
  - now apply cli_generate_NoDup.
  - apply Forall_forall. intros u Hu.
    apply cli_generate_In in Hu as [_ Hv]; [|assumption].
    unfold Cli.valid_length in Hv. apply andb_prop in Hv as [H3 H30].
    apply Nat.leb_le in H3, H30. lia.
  - apply firstn_NoDup.
    exact (proj1 (Ho (Handler.usernames_added business_name))).
  - apply Forall_forall. intros u Hu.
    apply handler_generate_In in Hu; [|assumption].
    unfold Handler.usernames_added in Hu. apply filter_In in Hu as [_ Hk].
    now apply handler_kept_length.
Qed.

Lemma generated_usernames_lengths_and_no_duplicates_witness :
  NoDup (Cli.generate_business_usernames Examples.first_order "Acme Inc")
  /\ NoDup
       (Handler.generate_business_usernames Examples.first_order "Acme Inc").
Proof.
  destruct (generated_usernames_lengths_and_no_duplicates Examples.first_order
              "Acme Inc" first_order_is_set_order) as [[H1 _] [H2 _]].
  split; assumption.
Defined.

(** C5, as stated, fails.  On ["Acme Inc"] the specification's canonical
    token is ["acme"] and the cleaned name of the class is ["acmeinc"], the
    class stripping no business word.  On a name with an accented letter
    the handler's [base] keeps that letter, which [isalnum] accepts and
    which is outside [a-z0-9]. *)
Lemma normalizers_differ_from_canonical_token :
  (Spec.canonical_token "Acme Inc" = "acme" /\
   Cli.clean_name "Acme Inc" = "acmeinc" /\
   Cli.clean_name "Acme Inc" <> Spec.canonical_token "Acme Inc") /\
  (Handler.base Examples.cafe = "caf" ++ String (ascii_of_nat 233) "" /\
   all_chars is_az09 (Handler.base Examples.cafe) = false /\
   Handler.base Examples.cafe <> Spec.canonical_token Examples.cafe).
Proof. repeat split; vm_compute; discriminate. Qed.

(** C5 (amended).  For every raw business name, the cleaned name of the
    class is the name in lower case with every character outside [a-z0-9]
    removed, no business word being stripped, and holds only characters
    a-z and 0-9.  For every raw business name, the handler's [base] is the
    name in lower case, with each occurrence of inc, llc, ltd, corp,
    company, co, group, agency removed in that order, and every character
    that [str.isalnum] rejects removed; when the name is made of ASCII
    characters these are the characters outside [a-z0-9], and [base] holds
    only characters a-z and 0-9. *)
Theorem canonical_token_of_each_normalizer :
  forall business_name,
    (Cli.clean_name business_name
       = keep_chars is_az09 (lower business_name)
     /\ all_chars is_az09 (Cli.clean_name business_name) = true)
    /\
    Handler.base business_name
      = keep_chars isalnum (Spec.strip_business_words (lower business_name))
    /\
    (all_chars is_ascii business_name = true ->
     Handler.base business_name = Spec.canonical_token business_name
     /\ all_chars is_az09 (Handler.base business_name) = true).
Proof.
  intros business_name. split; [|split].
  - rewrite cli_clean_name_az09. split; [reflexivity | apply keep_chars_all].
  - apply handler_base_isalnum.
  - intros Hascii. rewrite handler_base_canonical by assumption.
    split; [reflexivity | apply keep_chars_all].
Qed.

Lemma canonical_token_of_each_normalizer_witness :
  Handler.base "Acme Inc" = Spec.canonical_token "Acme Inc"
  /\ all_chars is_az09 (Handler.base "Acme Inc") = true.
Proof.
  apply (proj2 (proj2 (canonical_token_of_each_normalizer "Acme Inc"))).
  reflexivity.
Defined.

(** The handler removes the business words wherever they occur, inside
    other words too. *)
Lemma handler_base_coca_cola : Handler.base "Coca Cola" = "cala".
Proof. reflexivity. Qed.

(** C9, as stated, fails on ["Acme Inc"]: with two iteration orders of
    the set of candidates the class generator gives two different lists
    (four candidates tie on the score at the cut after the tenth), and so
    does the handler generator (the same five candidates, in another
    order). *)
Lemma generator_depends_on_set_order :
  is_set_order Examples.first_order /\
  is_set_order Examples.last_order /\
  Cli.generate_business_usernames Examples.first_order "Acme Inc"
  <> Cli.generate_business_usernames Examples.last_order "Acme Inc" /\
  Handler.generate_business_usernames Examples.first_order "Acme Inc"
  <> Handler.generate_business_usernames Examples.last_order "Acme Inc".
Proof.
  split; [|split; [|split]].
  - exact first_order_is_set_order.
  - exact last_order_is_set_order.
  - vm_compute. discriminate.
  - vm_compute. discriminate.
Qed.

(** C9 (amended).  The candidate list is determined by the input string
    together with the iteration order of the set of candidates.  Whatever
    the two iteration orders, the lists of the class generator have the
    same length and the same scores place by place; the lists of the
    handler generator have the same length, and the same elements when the
    set has at most five. *)
Theorem generator_determined_up_to_set_order :
  forall order1 order2 business_name,
    is_set_order order1 -> is_set_order order2 ->
    (map (fun u => Cli.username_score u business_name)
         (Cli.generate_business_usernames order1 business_name)
     = map (fun u => Cli.username_score u business_name)
         (Cli.generate_business_usernames order2 business_name)
     /\ List.length (Cli.generate_business_usernames order1 business_name)
        = List.length (Cli.generate_business_usernames order2 business_name))
    /\
    (List.length (Handler.generate_business_usernames order1 business_name)
     = List.length (Handler.generate_business_usernames order2 business_name)
     /\ (List.length (order1 (Handler.usernames_added business_name)) <= 5 ->
         Permutation
           (Handler.generate_business_usernames order1 business_name)
           (Handler.generate_business_usernames order2 business_name))).
Proof.
  intros order1 order2 business_name H1 H2. split.
  - pose proof (cli_generate_scores order1 order2 business_name H1 H2) as E.
    split; [exact E|].
    apply (f_equal (@List.length Z)) in E. now rewrite !length_map in E.
  - assert (HP : Permutation (order1 (Handler.usernames_added business_name))
                   (order2 (Handler.usernames_added business_name)))
      by (eapply set_iter_Permutation; [apply H1 | apply H2]).
    unfold Handler.generate_business_usernames. split.
    + now rewrite !length_firstn, (Permutation_length HP).
    + intros Hlen. rewrite !firstn_all2; [assumption | |assumption].
      now rewrite <- (Permutation_length HP).
Qed.

Lemma generator_determined_up_to_set_order_witness :
  map (fun u => Cli.username_score u "Acme Inc")
      (Cli.generate_business_usernames Examples.first_order "Acme Inc")
  = map (fun u => Cli.username_score u "Acme Inc")
      (Cli.generate_business_usernames Examples.last_order "Acme Inc").
Proof.
  apply (generator_determined_up_to_set_order Examples.first_order
           Examples.last_order "Acme Inc" first_order_is_set_order
           last_order_is_set_order).
Defined.

(* ------------------------------------------------------------------ *)
(** ** Materializing and ranking the hits *)
(* ------------------------------------------------------------------ *)

Module RankingFacts.
Import Py PyFacts GeneratorFacts.

Section WithHash.
Variable py_hash : string -> Z.
Variable business_name : string.

(** The profile made of one hit. *)
Let profile_of (h : string * string * Cli.ProfileData) : Cli.Profile :=
  Cli.processed_profile py_hash business_name (fst (fst h)) (snd (fst h))
    (snd h).

(** The loop with its set [seen_urls] keeps the first hit of each URL. *)
Lemma process_hits_first_by_url
    (hits : list (string * string * Cli.ProfileData))
    (processed : list Cli.Profile) (seen : list string) :
  fst (fold_left (Cli.process_hit py_hash business_name) hits
         (processed, seen))
  = (processed ++ map profile_of (Spec.first_by_url seen hits))%list.
Proof.
  revert processed seen. induction hits as [|[[u pl] d] r IH];
    intros processed seen; simpl.
  - now rewrite app_nil_r.
  - destruct (mem (Cli.pd_url d) seen) eqn:E.
    + apply IH.
    + rewrite IH. simpl. now rewrite <- app_assoc.
Qed.

Lemma materialize_first_by_url (all_results : Cli.AllResults) :
  Cli.materialize py_hash all_results business_name
  = map profile_of (Spec.first_by_url [] (Cli.hits_in_order all_results)).
Proof. unfold Cli.materialize. now rewrite process_hits_first_by_url. Qed.

Lemma profile_of_url (hits : list (string * string * Cli.ProfileData)) :
  map Cli.profile_url (map profile_of hits)
  = map (fun h => Cli.pd_url (snd h)) hits.
Proof. rewrite map_map. apply map_ext. now intros [[u pl] d]. Qed.

(** Every materialized profile carries the relevance the class computes
    for its username and platform, and the confidence derived from it. *)
Lemma materialize_scores (all_results : Cli.AllResults) (p : Cli.Profile) :
  In p (Cli.materialize py_hash all_results business_name) ->
  Cli.relevance_score p
    = Cli.calculate_relevance (Cli.username p) business_name (Cli.platform p)
  /\ Cli.confidence p = Cli.confidence_of (Cli.relevance_score p).
Proof.
  rewrite materialize_first_by_url. intros H.
  apply in_map_iff in H as [[[u pl] d] [<- _]]. split; reflexivity.
Qed.
End WithHash.

Lemma first_by_url_urls (seen : list string)
    (hits : list (string * string * Cli.ProfileData)) :
  NoDup (map (fun h => Cli.pd_url (snd h)) (Spec.first_by_url seen hits))
  /\ forall h, In h (Spec.first_by_url seen hits) ->
               In h hits /\ ~ In (Cli.pd_url (snd h)) seen.
Proof.
  revert seen. induction hits as [|h r IH]; intros seen; simpl.
  - split; [constructor | contradiction].
  - destruct (mem (Cli.pd_url (snd h)) seen) eqn:E.
    + destruct (IH seen) as [N I]. split; [assumption|].
      intros h' Hh'. destruct (I h' Hh'). auto.
    + destruct (IH (Cli.pd_url (snd h) :: seen)) as [N I].
      apply mem_false in E. split.
      * simpl. constructor; [|assumption]. intros Hin.
        apply in_map_iff in Hin as [h' [Eu Hh']].
        destruct (I h' Hh') as [_ Hn]. apply Hn. left. now symmetry.
      * intros h' [<-|Hh']; [auto|].
        destruct (I h' Hh') as [Hin Hn]. split; [auto|].
        intros Hs. apply Hn. now right.
Qed.

(** The URL of every hit is the URL of a hit that was kept. *)
Lemma first_by_url_complete (seen : list string)
    (hits : list (string * string * Cli.ProfileData)) (h : _) :
  In h hits -> ~ In (Cli.pd_url (snd h)) seen ->
  In (Cli.pd_url (snd h))
     (map (fun h => Cli.pd_url (snd h)) (Spec.first_by_url seen hits)).
Proof.
  revert seen. induction hits as [|x r IH]; intros seen; simpl;
    [contradiction|].
  intros [->|Hin] Hs.
  - apply mem_false in Hs. rewrite Hs. now left.
  - destruct (mem (Cli.pd_url (snd x)) seen) eqn:E; [now apply IH|].
    simpl. destruct (string_dec (Cli.pd_url (snd x)) (Cli.pd_url (snd h)))
      as [Eq|Ne]; [now left | right].
    apply IH; [assumption|]. intros [?|?]; contradiction.
Qed.

Lemma top_ranked_incl (processed : list Cli.Profile) :
  incl (Cli.top_ranked processed) processed.
Proof.
  unfold Cli.top_ranked, sort_reverse. intros p Hp.
  apply firstn_incl in Hp. now apply stable_sort_In in Hp.
Qed.

Lemma top_ranked_length (processed : list Cli.Profile) :
  List.length (Cli.top_ranked processed) = Nat.min 20 (List.length processed).
Proof.
  unfold Cli.top_ranked, sort_reverse.
  now rewrite length_firstn, stable_sort_length.
Qed.

Lemma top_ranked_sorted (processed : list Cli.Profile) :
  StronglySorted
    (fun p q => (Cli.relevance_score q <= Cli.relevance_score p)%Z)
    (Cli.top_ranked processed).
Proof. apply firstn_StronglySorted, sort_reverse_keys. Qed.

Lemma top_ranked_NoDup_urls (processed : list Cli.Profile) :
  NoDup (map Cli.profile_url processed) ->
  NoDup (map Cli.profile_url (Cli.top_ranked processed)).
Proof.
  intros H. unfold Cli.top_ranked, sort_reverse. rewrite <- firstn_map.
  apply firstn_NoDup.
  eapply Permutation_NoDup; [|exact H].
  apply Permutation_map, Permutation_sym, stable_sort_Permutation.
Qed.

(** The relevance of an exact match on LinkedIn. *)
Lemma exact_linkedin_relevance (business_name : string) :
  Cli.calculate_relevance (Cli.clean_name business_name) business_name
    "linkedin"
  = if 20 <? String.length (Cli.clean_name business_name)
    then 120%Z else 130%Z.
Proof.
  unfold Cli.calculate_relevance. rewrite String.eqb_refl.
  destruct (20 <? String.length (Cli.clean_name business_name)); reflexivity.
Qed.

End RankingFacts.

Import RankingFacts.

(** C3, as stated, fails on two hits whose URLs differ by the case of the
    domain only: [seen_urls] holds the URLs as they are, so both hits
    become profiles. *)
Lemma case_variant_urls_both_kept :
  lower "https://Instagram.com/acme" = lower "https://instagram.com/acme" /\
  List.length
    (Cli.process_results Examples.zero_hash Examples.case_variants "Acme") = 2.
Proof. split; reflexivity. Qed.

(** C3 (amended).  For every sequence of probe hits, deduplication is by
    the profile URL compared as an exact, case-sensitive string: the
    profiles are those of the first hit of each URL, so no two profiles
    share a URL; two hits with the same URL yield exactly one Profile, that
    of the first, and two hits whose URLs differ, be it by letter case
    only, yield two. *)
Theorem materialize_dedups_by_exact_url :
  forall py_hash all_results business_name,
    Cli.materialize py_hash all_results business_name
    = map (fun h => Cli.processed_profile py_hash business_name
                      (fst (fst h)) (snd (fst h)) (snd h))
        (Spec.first_by_url [] (Cli.hits_in_order all_results))
    /\ NoDup (map Cli.profile_url
                (Cli.process_results py_hash all_results business_name))
    /\ (forall h, In h (Cli.hits_in_order all_results) ->
          In (Cli.pd_url (snd h))
             (map Cli.profile_url
                (Cli.materialize py_hash all_results business_name)))
    /\ forall u1 p1 d1 u2 p2 d2,
         all_results = [(u1, [(p1, d1)]); (u2, [(p2, d2)])] ->
         (Cli.pd_url d1 = Cli.pd_url d2 ->
          Cli.process_results py_hash all_results business_name
          = [Cli.processed_profile py_hash business_name u1 p1 d1])
         /\ (Cli.pd_url d1 <> Cli.pd_url d2 ->
             List.length
               (Cli.process_results py_hash all_results business_name) = 2).
Proof.
  intros py_hash all_results business_name.
  pose proof (materialize_first_by_url py_hash business_name all_results) as E.
  split; [exact E|]. split; [|split].
  - unfold Cli.process_results. apply top_ranked_NoDup_urls.
    rewrite E, profile_of_url. apply first_by_url_urls.
  - intros h Hh. rewrite E, profile_of_url.
    apply first_by_url_complete; auto.
  - intros u1 p1 d1 u2 p2 d2 ->. unfold Cli.process_results.
    rewrite (materialize_first_by_url py_hash business_name). simpl. split.
    + intros <-. now rewrite String.eqb_refl.
    + intros Hne. apply not_eq_sym, String.eqb_neq in Hne. rewrite Hne.
      simpl. now rewrite top_ranked_length.
Qed.

Lemma materialize_dedups_by_exact_url_witness :
  Cli.process_results Examples.zero_hash Examples.same_url "Acme"
  = [Cli.processed_profile Examples.zero_hash "Acme" "acme" "instagram"
       (Examples.hit "https://instagram.com/acme" "acme" "instagram")].
Proof.
  destruct (materialize_dedups_by_exact_url Examples.zero_hash
              Examples.same_url "Acme") as [_ [_ [_ H]]].
  apply (H "acme" "instagram" _ "acmehq" "instagram" _ eq_refl).
  reflexivity.
Defined.

(** C6, as stated, fails on a business name of 21 letters: the username
    equal to its cleaned name, on LinkedIn, scores 100 + 30 - 10 = 120,
    the username being longer than 20 characters. *)
Lemma long_exact_linkedin_match_scores_120 :
  Cli.clean_name Examples.long_name = Examples.long_name /\
  map (fun p => (Cli.username p, Cli.platform p, Cli.relevance_score p))
      (Cli.process_results Examples.zero_hash Examples.long_linkedin
         Examples.long_name)
  = [(Examples.long_name, "linkedin", 120%Z)] /\
  (120 < 130)%Z.
Proof. repeat split. Qed.

(** C6 (amended).  For every profile whose source username equals the
    cleaned business name exactly and whose platform is linkedin, the
    relevance score is 130 when the username has at most 20 characters and
    120 when it is longer, and the derived confidence,
    min(0.9, score/100), is 0.9 in both cases. *)
Theorem exact_linkedin_match_score_and_confidence :
  forall py_hash all_results business_name p,
    In p (Cli.process_results py_hash all_results business_name) ->
    Cli.username p = Cli.clean_name business_name ->
    Cli.platform p = "linkedin" ->
    Cli.relevance_score p
      = (if 20 <? String.length (Cli.username p) then 120%Z else 130%Z)
    /\ Cli.confidence p = 9 # 10.
Proof.
  intros py_hash all_results business_name p Hp Hu Hl.
  apply top_ranked_incl, materialize_scores in Hp as [Hr Hc].
  rewrite Hc, Hr, Hu, Hl, exact_linkedin_relevance.
  destruct (20 <? String.length (Cli.clean_name business_name)); split;
    reflexivity.
Qed.

Lemma exact_linkedin_match_score_and_confidence_witness :
  Cli.relevance_score
    (Cli.processed_profile Examples.zero_hash "Acme" "acme" "linkedin"
       (Examples.hit "https://linkedin.com/company/acme" "acme" "linkedin"))
  = 130%Z
  /\ Cli.confidence
       (Cli.processed_profile Examples.zero_hash "Acme" "acme" "linkedin"
          (Examples.hit "https://linkedin.com/company/acme" "acme" "linkedin"))
     = 9 # 10.
Proof.
  apply (exact_linkedin_match_score_and_confidence Examples.zero_hash
           Examples.acme_linkedin "Acme").
  - left. reflexivity.
  - reflexivity.
  - reflexivity.
Defined.

(** C7.  For every input sequence of profiles, the ranker's output has at
    most 20 elements and is sorted non-increasing by relevance score; so
    is, then, what [process_results] returns. *)
Theorem ranked_profiles_bounded_and_sorted :
  (forall processed : list Cli.Profile,
     List.length (Cli.top_ranked processed) <= 20
     /\ StronglySorted
          (fun p q => (Cli.relevance_score q <= Cli.relevance_score p)%Z)
          (Cli.top_ranked processed))
  /\
  (forall py_hash all_results business_name,
     List.length (Cli.process_results py_hash all_results business_name) <= 20
     /\ StronglySorted
          (fun p q => (Cli.relevance_score q <= Cli.relevance_score p)%Z)
          (Cli.process_results py_hash all_results business_name)).
Proof.
  assert (H : forall processed : list Cli.Profile,
     List.length (Cli.top_ranked processed) <= 20
     /\ StronglySorted
          (fun p q => (Cli.relevance_score q <= Cli.relevance_score p)%Z)
          (Cli.top_ranked processed)).
  { intros processed. split; [|apply top_ranked_sorted].
    rewrite top_ranked_length. apply Nat.le_min_l. }
  split; [exact H|]. intros. apply H.
Qed.

(* ------------------------------------------------------------------ *)
(** ** The search loops *)
(* ------------------------------------------------------------------ *)

Module SearchFacts.
Import Py PyFacts StringFacts.

(** *** Substrings and the pieces of [split] *)

Lemma prefix_app (w s t : string) :
  prefix w s = true -> prefix w (s ++ t) = true.
Proof.
  revert w. induction s as [|c r IH]; intros [|a w]; simpl; intros H;
    try reflexivity; try discriminate.
  - now destruct t.
  - destruct (ascii_dec a c); [now apply IH | discriminate].
Qed.

Lemma contains_cons (w : string) (c : ascii) (r : string) :
  contains w (String c r) = prefix w (String c r) || contains w r.
Proof. reflexivity. Qed.

Lemma contains_app_r (w s t : string) :
  contains w s = true -> contains w (s ++ t) = true.
Proof.
  induction s as [|c r IH]; intros H.
  - destruct w; [|discriminate]. now destruct t.
  - change (String c r ++ t) with (String c (r ++ t)).
    rewrite contains_cons in *. apply orb_prop in H as [H|H].
    + change (String c (r ++ t)) with (String c r ++ t).
      now rewrite prefix_app.
    + rewrite IH by assumption. apply orb_true_r.
Qed.

Lemma contains_app_l (w s t : string) :
  contains w t = true -> contains w (s ++ t) = true.
Proof.
  induction s as [|c r IH]; intros H; [assumption|].
  change (String c r ++ t) with (String c (r ++ t)).
  rewrite contains_cons, IH by assumption. apply orb_true_r.
Qed.

Lemma contains_strip (w s : string) :
  contains w (strip s) = true -> contains w s = true.
Proof.
  destruct (strip_decomp s) as [L [R [_ [_ E]]]]. intros H.
  rewrite E. now apply contains_app_l, contains_app_r.
Qed.

Lemma rev_string_acc (acc s : string) :
  rev_string acc s = rev_string "" s ++ acc.
Proof.
  revert acc. induction s as [|c r IH]; intros acc; simpl; [reflexivity|].
  rewrite (IH (String c acc)), (IH (String c "")).
  now rewrite append_assoc.
Qed.

Lemma split_from_0 (sep cur : string) (ch : ascii) (r : string) :
  split_from 0 sep cur (String ch r)
  = if prefix sep (String ch r)
    then rev_string "" cur :: split_from (String.length sep - 1) sep "" r
    else split_from 0 sep (String ch cur) r.
Proof. reflexivity. Qed.

(** Every piece [split] returns lies in the string that is split. *)
Lemma split_from_piece (sep : string) (skip : nat) (cur s line : string) :
  skip = 0 \/ cur = "" ->
  In line (split_from skip sep cur s) ->
  exists a c, rev_string "" cur ++ s = a ++ line ++ c.
Proof.
  revert skip cur. induction s as [|ch r IH]; intros skip cur Hsk Hin.
  - simpl in Hin. destruct Hin as [<-|[]]. exists "", "". simpl.
    now rewrite !append_nil_r.
  - destruct skip as [|k].
    + rewrite split_from_0 in Hin. destruct (prefix sep (String ch r)).
      * destruct Hin as [<-|Hin].
        -- exists "", (String ch r). reflexivity.
        -- apply IH in Hin as [a [c E]]; [|now right]. simpl in E.
           exists (rev_string "" cur ++ String ch a), c.
           rewrite E, !append_assoc. reflexivity.
      * apply IH in Hin as [a [c E]]; [|now left].
        exists a, c. rewrite <- E. simpl.
        rewrite (rev_string_acc (String ch "") cur), append_assoc.
        reflexivity.
    + destruct Hsk as [Hsk| ->]; [discriminate|].
      simpl in Hin. apply IH in Hin as [a [c E]]; [|now right].
      simpl in E. exists (String ch a), c. simpl. now rewrite E.
Qed.

Lemma split_piece_contains (sep w s line : string) :
  In line (split sep s) -> contains w line = true -> contains w s = true.
Proof.
  intros Hin Hw. apply split_from_piece in Hin as [a [c E]]; [|now left].
  simpl in E. rewrite E. now apply contains_app_l, contains_app_r.
Qed.

(** *** The handler *)

(** Output in which no line is marked [[+]] yields no profile. *)
Lemma parse_without_marker (output username business_name : string) :
  contains "[+]" output = false ->
  Handler.parse_sherlock_output output username business_name = [].
Proof.
  intros H. unfold Handler.parse_sherlock_output.
  induction (split Handler.newline output) as [|line rest IH] eqn:E.
  - reflexivity.
  - assert (Hall : forall l, In l (line :: rest) ->
                             Handler.parse_line username business_name l = []).
    { intros l Hl. unfold Handler.parse_line.
      destruct (contains "[+]" (strip l)) eqn:Em.
      - apply contains_strip in Em. rewrite <- E in Hl.
        rewrite (split_piece_contains _ _ _ _ Hl Em) in H. discriminate.
      - now rewrite andb_false_r. }
    clear IH E. induction (line :: rest) as [|l r IHr]; [reflexivity|].
    simpl. rewrite (Hall l) by now left. apply IHr.
    intros l' Hl'. apply Hall. now right.
Qed.

Lemma flat_map_ext_on {A B} (f g : A -> list B) (l : list A) :
  (forall x, In x l -> f x = g x) -> flat_map f l = flat_map g l.
Proof.
  induction l as [|x r IH]; intros H; simpl; [reflexivity|].
  rewrite H by now left. rewrite IH; [reflexivity|].
  intros y Hy. apply H. now right.
Qed.

(** One turn of the loop that raises nothing unexpected. *)
Lemma search_step_no_abort (run : string -> Handler.SubprocessRun)
    (business_name u : string)
    (all_profiles : list Handler.Profile) (searched : list string) :
  run u <> Handler.OtherException ->
  Handler.search_step run business_name (Some (all_profiles, searched)) u
  = Some ((all_profiles ++ Handler.contribution run business_name u)%list,
          (searched ++ [u])%list).
Proof.
  intros Hu. unfold Handler.search_step, Handler.contribution.
  destruct (run u) as [rc out| | |]; try congruence.
  destruct (rc =? 0)%Z; [reflexivity | now rewrite app_nil_r].
Qed.

(** As long as no unexpected exception is raised, each username adds its
    own contribution and the loop goes on. *)
Lemma search_loop_no_abort (run : string -> Handler.SubprocessRun)
    (business_name : string) (usernames : list string)
    (all_profiles : list Handler.Profile) (searched : list string) :
  (forall u, In u usernames -> run u <> Handler.OtherException) ->
  fold_left (Handler.search_step run business_name) usernames
    (Some (all_profiles, searched))
  = Some ((all_profiles
           ++ flat_map (Handler.contribution run business_name) usernames)%list,
          (searched ++ usernames)%list).
Proof.
  revert all_profiles searched.
  induction usernames as [|u us IH]; intros all_profiles searched Hrun.
  - simpl. now rewrite !app_nil_r.
  - change (fold_left (Handler.search_step run business_name) (u :: us)
              (Some (all_profiles, searched)))
      with (fold_left (Handler.search_step run business_name) us
              (Handler.search_step run business_name
                 (Some (all_profiles, searched)) u)).
    rewrite search_step_no_abort by (apply Hrun; now left).
    rewrite IH by (intros v Hv; apply Hrun; now right).
    simpl. now rewrite <- !app_assoc.
Qed.

Lemma fallback_profiles_shape (username business_name : string) :
  map Handler.platform
      (Handler.generate_fallback_profiles username business_name)
    = Spec.fallback_six
  /\ Forall (fun p => Handler.confidence p = 7 # 10
                      /\ Handler.relevance_score p = 75%Z
                      /\ Handler.verified p = false
                      /\ Handler.username p = username)
       (Handler.generate_fallback_profiles username business_name).
Proof. split; [reflexivity | repeat constructor]. Qed.

Lemma fallback_profiles_length (username business_name : string) :
  List.length (Handler.generate_fallback_profiles username business_name) = 6.
Proof. reflexivity. Qed.

(** *** The class *)

Section ClassLoop.
Variable parse_sherlock_output : string -> string -> Cli.Hits.
Variable parse_sherlock_stdout : string -> string -> Cli.Hits.
Variable run : string -> Cli.SubprocessRun.

Lemma failed_probe_no_hits (u : string) :
  Cli.failed (run u) = true ->
  Cli.sherlock_search parse_sherlock_output parse_sherlock_stdout (run u) u
  = [].
Proof. destruct (run u) as [[?|] ?| |]; simpl; congruence. Qed.

(** The usernames whose probe failed leave [all_results] as it is. *)
Lemma search_loop_skips_failures (usernames : list string)
    (all_results : Cli.AllResults) :
  fold_left (Cli.search_step parse_sherlock_output parse_sherlock_stdout run)
    usernames all_results
  = fold_left (Cli.search_step parse_sherlock_output parse_sherlock_stdout run)
      (filter (fun u => negb (Cli.failed (run u))) usernames) all_results.
Proof.
  revert all_results. induction usernames as [|u us IH]; intros all_results;
    simpl; [reflexivity|].
  destruct (Cli.failed (run u)) eqn:E; simpl.
  - rewrite <- IH. f_equal. unfold Cli.search_step.
    now rewrite failed_probe_no_hits.
  - apply IH.
Qed.
End ClassLoop.

End SearchFacts.

(* ------------------------------------------------------------------ *)
(** ** Failures of the prober, fallback profiles, cache *)
(* ------------------------------------------------------------------ *)

Import SearchFacts.

(** An exception the inner [try] does not catch ends the loop: the
    outer handler answers with the fallback search, and what the loop had
    gathered is dropped. *)
Lemma unexpected_exception_gives_fallback_search :
  forall order run business_name u,
    In u (Handler.generate_business_usernames order business_name) ->
    run u = Handler.OtherException ->
    Handler.execute_sherlock_search order run business_name
    = Handler.generate_fallback_search business_name.
Proof.
  intros order run business_name u Hu Hr.
  unfold Handler.execute_sherlock_search.
  assert (H : forall us st,
             In u us ->
             fold_left (Handler.search_step run business_name) us st = None).
  { induction us as [|v vs IH]; intros st Hin; [contradiction|]. simpl.
    assert (Hnone : forall ws,
               fold_left (Handler.search_step run business_name) ws None = None)
      by (induction ws; simpl; auto).
    destruct Hin as [->|Hin]; [|now apply IH].
    destruct st as [[a b]|]; simpl; [rewrite Hr|]; apply Hnone. }
  now rewrite H.
Qed.

(** C2, as stated, fails: for the query ["test company"] five usernames
    are generated, each gets the six fallback profiles, and the first 20 of
    the 30 are returned, not six. *)
Lemma test_company_returns_twenty_profiles :
  is_set_order Examples.first_order /\
  List.length
    (Handler.profiles
       (Handler.execute_sherlock_search Examples.first_order
          Examples.tool_not_found "test company")) = 20 /\
  20 <> 6.
Proof.
  split; [|split].
  - exact first_order_is_set_order.
  - reflexivity.
  - discriminate.
Qed.

(** C2 (amended).  For the query ["test company"], when the tool is not
    found for every probed username, the search probes the five usernames
    test, testofficial, officialtest, testinc, testco and builds 30
    fallback profiles, six per username, one for each of the platforms
    instagram, facebook, linkedin, twitter, tiktok, youtube; it returns
    the first 20 of them and counts 30.  Each has confidence 0.7,
    relevance score 75 and verified = false. *)
Theorem test_company_fallback_profiles :
  forall order run,
    is_set_order order ->
    (forall u,
       In u (Handler.generate_business_usernames order "test company") ->
       run u = Handler.FileNotFoundError) ->
    let usernames := Handler.generate_business_usernames order "test company" in
    let out := Handler.execute_sherlock_search order run "test company" in
    Permutation usernames
      ["test"; "testofficial"; "officialtest"; "testinc"; "testco"]
    /\ Handler.searched_usernames out = usernames
    /\ Handler.total_profiles_found out = 30
    /\ List.length (Handler.profiles out) = 20
    /\ Handler.profiles out
       = firstn 20
           (flat_map
              (fun u => Handler.generate_fallback_profiles u "test company")
              usernames)
    /\ (forall u,
          map Handler.platform
            (Handler.generate_fallback_profiles u "test company")
          = Spec.fallback_six)
    /\ Forall (fun p => Handler.confidence p = 7 # 10
                        /\ Handler.relevance_score p = 75%Z
                        /\ Handler.verified p = false
                        /\ In (Handler.platform p) Spec.fallback_six)
         (Handler.profiles out).
Proof.
  intros order run Ho Hrun usernames out.
  assert (HP : Permutation usernames
                 ["test"; "testofficial"; "officialtest"; "testinc"; "testco"]).
  { unfold usernames.
    rewrite (handler_generate_all order "test company" Ho)
      by (vm_compute; lia).
    eapply set_iter_Permutation; [apply Ho|].
    apply set_iterb_sound. vm_compute. reflexivity. }
  assert (Hlen : List.length usernames = 5)
    by (now rewrite (Permutation_length HP)).
  assert (Hall : flat_map (Handler.contribution run "test company") usernames
                 = flat_map
                     (fun u => Handler.generate_fallback_profiles u
                                 "test company") usernames).
  { apply flat_map_ext_on. intros u Hu. unfold Handler.contribution.
    now rewrite (Hrun u Hu). }
  assert (Hout : out
                 = {| Handler.profiles :=
                        firstn 20
                          (flat_map
                             (fun u => Handler.generate_fallback_profiles u
                                         "test company") usernames);
                      Handler.total_profiles_found :=
                        List.length
                          (flat_map
                             (fun u => Handler.generate_fallback_profiles u
                                         "test company") usernames);
                      Handler.searched_usernames := usernames |}).
  { unfold out, Handler.execute_sherlock_search. fold usernames.
    rewrite search_loop_no_abort
      by (intros u Hu; rewrite (Hrun u Hu); discriminate).
    simpl app. now rewrite Hall. }
  assert (Htotal : List.length
                     (flat_map
                        (fun u => Handler.generate_fallback_profiles u
                                    "test company") usernames) = 30).
  { rewrite flat_map_constant_length with (c := 6)
      by (intros; apply fallback_profiles_length).
    now rewrite Hlen. }
  rewrite Hout.
  cbn [Handler.profiles Handler.total_profiles_found
       Handler.searched_usernames].
  split; [exact HP|]. split; [reflexivity|]. split; [exact Htotal|].
  split; [now rewrite length_firstn, Htotal|]. split; [reflexivity|].
  split; [reflexivity|].
  apply Forall_forall. intros p Hp.
  apply firstn_incl, in_flat_map in Hp as [u [_ Hp]].
  destruct (fallback_profiles_shape u "test company") as [Hsix Hall'].
  rewrite Forall_forall in Hall'. destruct (Hall' p Hp) as [? [? [? _]]].
  repeat split; try assumption.
  rewrite <- Hsix. now apply in_map.
Qed.

Lemma test_company_fallback_profiles_witness :
  Handler.total_profiles_found
    (Handler.execute_sherlock_search Examples.first_order
       Examples.tool_not_found "test company") = 30
  /\ List.length
       (Handler.profiles
          (Handler.execute_sherlock_search Examples.first_order
             Examples.tool_not_found "test company")) = 20.
Proof.
  destruct (test_company_fallback_profiles Examples.first_order
              Examples.tool_not_found first_order_is_set_order)
    as [_ [_ [H30 [H20 _]]]].
  - reflexivity.
  - split; assumption.
Defined.

(** C10.  The read of the cache serves no record at all, expired or
    not: [get_cached_result] builds the request for the row and never
    executes it, reading [result.data] raises, and the function answers
    [None] and leaves the table as it is, whatever the table holds.  So a
    record [cache_result] has just written for a query is not returned by
    a read for the same query and platform, at any time, although the
    lookup by query hash and platform selects it. *)
Theorem stored_record_is_never_served :
  (forall md5 table now query platform,
     Handler.get_cached_result md5 (Some table) now query platform
     = (None, Some table))
  /\
  (exists row,
     Handler.cache_result Examples.toy_digest (Some []) 0 "Acme"
       "sherlock_osint" Examples.empty_response = Some [row]
     /\ Handler.select_eq [row]
          (Handler.generate_query_hash Examples.toy_digest "Acme"
             "sherlock_osint") "sherlock_osint" = [row]
     /\ forall now,
          Handler.get_cached_result Examples.toy_digest (Some [row]) now
            "Acme" "sherlock_osint" = (None, Some [row])).
Proof.
  split.
  - intros md5 table now query platform. reflexivity.
  - eexists. split; [reflexivity|]. split; reflexivity.
Qed.

(* ------------------------------------------------------------------ *)
(** ** More about the candidates of the class *)
(* ------------------------------------------------------------------ *)

Module CandidateFacts.
Import Py PyFacts StringFacts CharFacts NormalizerFacts GeneratorFacts.
Import SearchFacts.

Lemma prefix_refl (s : string) : prefix s s = true.
Proof.
  induction s as [|c r IH]; simpl; [reflexivity|].
  destruct (ascii_dec c c); [assumption | congruence].
Qed.

Lemma contains_refl (s : string) : contains s s = true.
Proof.
  destruct s as [|c r]; [reflexivity|].
  now rewrite contains_cons, prefix_refl.
Qed.

Lemma all_chars_and (p q : ascii -> bool) (s : string) :
  all_chars p s = true -> all_chars q s = true ->
  all_chars (fun c => p c && q c) s = true.
Proof.
  induction s as [|c r IH]; simpl; [reflexivity|].
  intros Hp Hq. apply andb_prop in Hp as [Hp1 Hp2].
  apply andb_prop in Hq as [Hq1 Hq2]. now rewrite Hp1, Hq1, IH.
Qed.

Lemma az09_username_char (c : ascii) :
  is_az09 c = true -> username_char c = true.
Proof. unfold username_char. intros ->. reflexivity. Qed.

Lemma sep_not_upper_username_char (c : ascii) :
  re_alnum_sep c && negb (is_upper_az c) = true -> username_char c = true.
Proof. each_char c. Qed.

Lemma re_alnum_sep_of_alnum (c : ascii) :
  re_alnum c = true -> re_alnum_sep c = true.
Proof. unfold re_alnum_sep. intros ->. reflexivity. Qed.

Lemma space_not_re_alnum_sep : re_alnum " "%char = false.
Proof. reflexivity. Qed.

(** *** The strings added to the set *)

(** Membership in the set of candidates, case by case. *)
Lemma usernames_added_cases (business_name u : string) :
  In u (Cli.usernames_added business_name) <->
  u = Cli.clean_name business_name
  \/ (u <> "" /\ exists x, In x [""; "_"; "."; "-"]
                 /\ u = keep_chars re_alnum_sep
                          (replace " " x (lower business_name)))
  \/ (exists affix, In affix Cli.business_affixes
       /\ In u (Cli.affix_variations (Cli.clean_name business_name) affix)).
Proof.
  unfold Cli.usernames_added. rewrite !in_app_iff, filter_In, in_map_iff,
    in_flat_map. split.
  - intros [[<-|[]]|[[[v [<- Hv]] Hne]|H]]; [now left | | now right; right].
    right; left. apply negb_true_iff, String.eqb_neq in Hne.
    split; [assumption|]. unfold Cli.base_variations in Hv. simpl in Hv.
    destruct Hv as [<-|[<-|[<-|[<-|[]]]]];
      [exists "" | exists "_" | exists "." | exists "-"];
      simpl; auto 6.
  - intros [->|[[Hne [x [Hx ->]]]|H]]; [left; now left | | now right; right].
    right; left. split.
    + eexists. split; [reflexivity|]. unfold Cli.base_variations. simpl.
      destruct Hx as [<-|[<-|[<-|[<-|[]]]]]; auto 6.
    + now apply negb_true_iff, String.eqb_neq.
Qed.

(** Every candidate is written with lower-case letters, digits, dots,
    underscores and hyphens only. *)
Lemma usernames_added_chars (business_name u : string) :
  In u (Cli.usernames_added business_name) ->
  all_chars username_char u = true.
Proof.
  assert (Hclean : all_chars username_char (Cli.clean_name business_name)
                   = true).
  { apply all_chars_impl with (p := is_az09); [apply az09_username_char|].
    rewrite cli_clean_name_az09. apply keep_chars_all. }
  rewrite usernames_added_cases.
  intros [->|[[_ [x [Hx ->]]]|[affix [Ha Hu]]]].
  - exact Hclean.
  - apply all_chars_impl
      with (p := fun c => re_alnum_sep c && negb (is_upper_az c));
      [apply sep_not_upper_username_char|].
    apply all_chars_and; [apply keep_chars_all|].
    apply all_chars_keep. unfold replace.
    apply all_chars_replace_from; [|apply lower_not_upper].
    destruct Hx as [<-|[<-|[<-|[<-|[]]]]]; reflexivity.
  - assert (Haffix : all_chars username_char affix = true).
    { unfold Cli.business_affixes in Ha. simpl in Ha.
      repeat (destruct Ha as [<-|Ha]; [reflexivity|]). contradiction. }
    unfold Cli.affix_variations in Hu. simpl in Hu.
    destruct Hu as [<-|[<-|[<-|[<-|[]]]]];
      rewrite ?all_chars_app; cbn [all_chars append];
      rewrite ?all_chars_app, ?Hclean, ?Haffix; reflexivity.
Qed.

(** *** Lengths *)

Lemma prefix_one (a c : ascii) (r : string) :
  prefix (String a "") (String c r) = if ascii_dec a c then true else false.
Proof.
  simpl. destruct (ascii_dec a c); [now destruct r | reflexivity].
Qed.

Lemma keep_chars_replace_space (x s : string) :
  keep_chars re_alnum x = "" ->
  keep_chars re_alnum (replace " " x s) = keep_chars re_alnum s.
Proof.
  intros Hx. unfold replace. induction s as [|c r IH]; [reflexivity|].
  rewrite replace_from_0, prefix_one.
  destruct (ascii_dec " " c) as [<-|Hc].
  - change (String.length " " - 1) with 0.
    rewrite keep_chars_app, Hx, IH. reflexivity.
  - change (keep_chars re_alnum (String c (replace_from 0 " " x r)))
      with (if re_alnum c
            then String c (keep_chars re_alnum (replace_from 0 " " x r))
            else keep_chars re_alnum (replace_from 0 " " x r)).
    now rewrite IH.
Qed.

Lemma keep_chars_length_mono (p q : ascii -> bool) (s : string) :
  (forall c, p c = true -> q c = true) ->
  String.length (keep_chars p s) <= String.length (keep_chars q s).
Proof.
  intros Hpq. induction s as [|c r IH]; simpl; [lia|].
  destruct (p c) eqn:E.
  - rewrite (Hpq c E). simpl. lia.
  - destruct (q c); simpl; lia.
Qed.

(** No candidate is shorter than the cleaned name. *)
Lemma usernames_added_length (business_name u : string) :
  In u (Cli.usernames_added business_name) ->
  String.length (Cli.clean_name business_name) <= String.length u.
Proof.
  rewrite usernames_added_cases.
  intros [->|[[_ [x [Hx ->]]]|[affix [Ha Hu]]]].
  - lia.
  - unfold Cli.clean_name.
    rewrite <- (keep_chars_replace_space x (lower business_name))
      by (destruct Hx as [<-|[<-|[<-|[<-|[]]]]]; reflexivity).
    apply keep_chars_length_mono, re_alnum_sep_of_alnum.
  - unfold Cli.affix_variations in Hu. simpl in Hu.
    destruct Hu as [<-|[<-|[<-|[<-|[]]]]];
      rewrite ?length_append; cbn [String.length append];
      rewrite ?length_append; lia.
Qed.

Lemma affix_tail_candidates (business_name t : string) :
  In t Spec.affix_tails ->
  In (Cli.clean_name business_name ++ t) (Cli.usernames_added business_name).
Proof.
  intros Ht. apply usernames_added_cases. right; right.
  unfold Spec.affix_tails in Ht. simpl in Ht.
  unfold Cli.business_affixes, Cli.affix_variations.
  destruct Ht as [<-|[<-|[<-|[<-|[<-|[<-|[<-|Ht]]]]]]];
    [exists "official" | exists "real" | exists "team" | exists "hq"
     | exists "inc" | exists "corp" | exists "company" |];
    try (simpl; auto 15).
  destruct Ht as [<-|[<-|[<-|[<-|[<-|[<-|[]]]]]]];
    [exists "official" | exists "real" | exists "team"
     | exists "inc" | exists "corp" | exists "company"];
    simpl; auto 15.
Qed.

Lemma append_inj_l (c a b : string) : c ++ a = c ++ b -> a = b.
Proof.
  induction c as [|x r IH]; simpl; intros H; [assumption|].
  injection H as H. auto.
Qed.

Lemma NoDup_map_append (c : string) (l : list string) :
  NoDup l -> NoDup (map (append c) l).
Proof.
  induction 1 as [|x l Hx _ IH]; simpl; constructor; [|assumption].
  intros Hin. apply in_map_iff in Hin as [y [E Hy]].
  apply append_inj_l in E. now subst.
Qed.

(** *** Scores *)

(** The cleaned name, when it has at most 30 characters, scores strictly
    higher than any other string. *)
Lemma username_score_exact_highest (business_name u : string) :
  String.length (Cli.clean_name business_name) <= 30 ->
  u <> Cli.clean_name business_name ->
  (Cli.username_score u business_name
   < Cli.username_score (Cli.clean_name business_name) business_name)%Z.
Proof.
  intros Hlen Hne. unfold Cli.username_score.
  rewrite String.eqb_refl, Nat.eqb_refl, contains_refl.
  apply String.eqb_neq in Hne. rewrite Hne.
  destruct (String.length u =? String.length (Cli.clean_name business_name));
  destruct (contains (Cli.clean_name business_name) u);
  destruct (negb (existsb (fun affix => contains affix u)
                    ["official"; "real"; "team"]));
  destruct (negb (existsb
                    (fun affix => contains affix
                                    (Cli.clean_name business_name))
                    ["official"; "real"; "team"])); lia.
Qed.

End CandidateFacts.

Module SortedFacts.
Import Py PyFacts.

Lemma NoDup_app_disjoint {A} (l1 l2 : list A) (x : A) :
  NoDup (l1 ++ l2) -> In x l1 -> In x l2 -> False.
Proof.
  induction l1 as [|a r IH]; simpl; intros N H1 H2; [contradiction|].
  inversion N as [|? ? Ha Nr]; subst. destruct H1 as [->|H1].
  - apply Ha, in_or_app. now right.
  - now apply IH.
Qed.

(** In a sorted list every element of a prefix stands before every
    element of the rest. *)
Lemma StronglySorted_app_le {A} (R : A -> A -> Prop) (l1 l2 : list A) :
  StronglySorted R (l1 ++ l2) ->
  forall x y, In x l1 -> In y l2 -> R x y.
Proof.
  induction l1 as [|a r IH]; simpl; intros S x y Hx Hy; [contradiction|].
  inversion S as [|? ? Sr Fa]; subst. destruct Hx as [->|Hx].
  - rewrite Forall_forall in Fa. apply Fa, in_or_app. now right.
  - now apply IH.
Qed.

Lemma firstn_nil_inv {A} (n : nat) (l : list A) :
  firstn (S n) l = [] -> l = [].
Proof. destruct l; [reflexivity | discriminate]. Qed.

Lemma filter_none {A} (f : A -> bool) (l : list A) :
  (forall x, In x l -> f x = false) -> filter f l = [].
Proof.
  induction l as [|x r IH]; intros H; simpl; [reflexivity|].
  rewrite (H x) by now left. apply IH. intros y Hy. apply H. now right.
Qed.

End SortedFacts.

Import CandidateFacts SortedFacts.

(* ------------------------------------------------------------------ *)
(** ** Further properties of the class *)
(* ------------------------------------------------------------------ *)

(** X1.  [username_score]: while the cleaned business name has at most 30
    characters, it scores strictly higher than every other username. *)
Theorem cleaned_name_scores_highest :
  forall business_name username,
    String.length (Cli.clean_name business_name) <= 30 ->
    username <> Cli.clean_name business_name ->
    (Cli.username_score username business_name
     < Cli.username_score (Cli.clean_name business_name) business_name)%Z.
Proof. intros. now apply username_score_exact_highest. Qed.

Lemma cleaned_name_scores_highest_witness :
  (Cli.username_score "acme_inc" "Acme Inc"
   < Cli.username_score (Cli.clean_name "Acme Inc") "Acme Inc")%Z.
Proof.
  apply (cleaned_name_scores_highest "Acme Inc" "acme_inc").
  - vm_compute. lia.
  - discriminate.
Defined.

(** X2.  [generate_business_usernames] of the class: for a business name
    with at most 21 letters and digits, the cleaned name itself is never
    among the usernames returned.  It is the highest-scoring of at least
    thirteen candidates, the list is sorted by ascending score, and the
    first ten are kept. *)
Theorem class_generator_omits_cleaned_name :
  forall order business_name,
    is_set_order order ->
    String.length (Cli.clean_name business_name) <= 21 ->
    ~ In (Cli.clean_name business_name)
        (Cli.generate_business_usernames order business_name).
Proof.
  intros order business_name Ho Hlen Hin.
  set (clean := Cli.clean_name business_name) in *.
  set (key := fun x => Cli.username_score x business_name).
  set (valid := filter Cli.valid_length
                  (order (Cli.usernames_added business_name))).
  set (l := sorted key valid).
  assert (Hgen : Cli.generate_business_usernames order business_name
                 = firstn 10 l) by reflexivity.
  rewrite Hgen in Hin.
  assert (Nv : NoDup valid)
    by (apply NoDup_filter; exact (proj1 (Ho _))).
  assert (Nl : NoDup l) by (apply stable_sort_NoDup; exact Nv).
  (* thirteen candidates of valid length *)
  assert (Hmany : 13 <= List.length l).
  { unfold l, sorted. rewrite stable_sort_length.
    change 13 with (List.length (map (append clean) Spec.affix_tails)).
    apply NoDup_incl_length.
    - apply NoDup_map_append. apply nodupb_NoDup. reflexivity.
    - intros u Hu. apply in_map_iff in Hu as [t [<- Ht]].
      apply filter_In. split.
      + apply (proj2 (Ho _)). now apply affix_tail_candidates.
      + assert (Ht' : 3 <= String.length t <= 9).
        { unfold Spec.affix_tails in Ht. simpl in Ht.
          repeat (destruct Ht as [<-|Ht]; [simpl; lia|]). contradiction. }
        unfold Cli.valid_length. rewrite length_append. fold clean.
        apply andb_true_intro. split; apply Nat.leb_le; lia. }
  (* an element after the tenth *)
  destruct (skipn 10 l) as [|y rest] eqn:Es.
  { apply (f_equal (@List.length string)) in Es.
    rewrite length_skipn in Es. simpl in Es. lia. }
  assert (Hy : In y (skipn 10 l)) by (rewrite Es; now left).
  assert (Hsplit : l = (firstn 10 l ++ skipn 10 l)%list)
    by (symmetry; apply firstn_skipn).
  assert (Hle : (key clean <= key y)%Z).
  { apply (StronglySorted_app_le (fun a b => (key a <= key b)%Z)
             (firstn 10 l) (skipn 10 l)); try assumption.
    rewrite <- Hsplit. unfold l, sorted.
    pose proof (stable_sort_sorted (fun x y => (key x <=? key y)%Z)) as S.
    specialize (S ltac:(intros a b; rewrite !Z.leb_le; lia)
                  ltac:(intros a b c; rewrite !Z.leb_le; lia) valid).
    induction S as [|a r _ IH Fa]; constructor; [assumption|].
    rewrite Forall_forall in *. intros b Hb. apply Z.leb_le. auto. }
  assert (Hne : y <> clean).
  { intros ->. rewrite Hsplit in Nl.
    exact (NoDup_app_disjoint _ _ _ Nl Hin Hy). }
  pose proof (username_score_exact_highest business_name y
                ltac:(fold clean; lia) Hne) as Hlt.
  unfold key in Hle. fold clean in Hlt. lia.
Qed.

Lemma class_generator_omits_cleaned_name_witness :
  ~ In (Cli.clean_name "Acme Inc")
      (Cli.generate_business_usernames Examples.first_order "Acme Inc").
Proof.
  apply (class_generator_omits_cleaned_name Examples.first_order "Acme Inc").
  - exact first_order_is_set_order.
  - vm_compute. lia.
Defined.

(** X3.  [generate_business_usernames] of the class returns no username
    at all exactly when the business name has more than 30 letters and
    digits. *)
Theorem class_generator_empty_iff_long_name :
  forall order business_name,
    is_set_order order ->
    (Cli.generate_business_usernames order business_name = []
     <-> 30 < String.length (Cli.clean_name business_name)).
Proof.
  intros order business_name Ho.
  set (clean := Cli.clean_name business_name).
  set (added := Cli.usernames_added business_name).
  split.
  - intros Hempty.
    destruct (Nat.lt_ge_cases 30 (String.length clean)) as [H|H];
      [assumption | exfalso].
    assert (Hex : exists u, In u added /\ Cli.valid_length u = true).
    { destruct (Nat.eq_dec (String.length clean) 0) as [H0|H0].
      - exists (clean ++ "real"). split.
        + apply (affix_tail_candidates business_name "real").
          unfold Spec.affix_tails. simpl. auto 15.
        + unfold Cli.valid_length. rewrite length_append, H0. reflexivity.
      - destruct (Nat.le_gt_cases (String.length clean) 27) as [H27|H27].
        + exists (clean ++ "_hq"). split.
          * apply (affix_tail_candidates business_name "_hq").
            unfold Spec.affix_tails. simpl. auto 15.
          * unfold Cli.valid_length. rewrite length_append.
            change (String.length "_hq") with 3.
            apply andb_true_intro. split; apply Nat.leb_le; lia.
        + exists clean. split.
          * apply usernames_added_cases. now left.
          * unfold Cli.valid_length.
            apply andb_true_intro. split; apply Nat.leb_le; lia. }
    destruct Hex as [u [Hu Hv]].
    unfold Cli.generate_business_usernames in Hempty.
    apply firstn_nil_inv in Hempty.
    assert (Hin : In u (sorted (fun x => Cli.username_score x business_name)
                          (filter Cli.valid_length (order added)))).
    { apply stable_sort_In, filter_In. split; [|assumption].
      now apply (proj2 (Ho added)). }
    fold added in Hempty. rewrite Hempty in Hin. contradiction.
  - intros Hlong. unfold Cli.generate_business_usernames.
    fold added. rewrite filter_none; [reflexivity|].
    intros u Hu. apply (proj2 (Ho added)) in Hu.
    apply usernames_added_length in Hu. fold clean in Hu.
    unfold Cli.valid_length. apply andb_false_iff. right.
    apply Nat.leb_gt. lia.
Qed.

(** X4.  Every username the generator of the class returns is written
    with lower-case letters, digits, dots, underscores and hyphens
    only. *)
Theorem class_usernames_alphabet :
  forall order business_name username,
    is_set_order order ->
    In username (Cli.generate_business_usernames order business_name) ->
    all_chars username_char username = true.
Proof.
  intros order business_name username Ho Hin.
  apply cli_generate_In in Hin as [Hin _]; [|assumption].
  now apply usernames_added_chars in Hin.
Qed.

Lemma class_usernames_alphabet_witness :
  all_chars username_char "acme_inc" = true.
Proof.
  apply (class_usernames_alphabet Examples.first_order "Acme Inc" "acme_inc").
  - exact first_order_is_set_order.
  - vm_compute. auto.
Defined.

Lemma class_generator_empty_iff_long_name_witness :
  Cli.generate_business_usernames Examples.first_order "Acme Inc" = []
  <-> 30 < String.length (Cli.clean_name "Acme Inc").
Proof.
  apply (class_generator_empty_iff_long_name Examples.first_order "Acme Inc").
  exact first_order_is_set_order.
Defined.

Module RelevanceFacts.
Import Py PyFacts StringFacts CharFacts SearchFacts.

Lemma re_alnum_not_space (c : ascii) :
  re_alnum c = true -> negb (isspace c) = true.
Proof. each_char c. Qed.

Lemma clean_name_no_space (business_name : string) :
  all_chars (fun c => negb (isspace c)) (Cli.clean_name business_name) = true.
Proof.
  apply all_chars_impl with (p := re_alnum); [apply re_alnum_not_space|].
  apply keep_chars_all.
Qed.

(** [split()] on a string without whitespace: the string itself, or
    nothing when it is empty. *)
Lemma split_ws_from_solid (cur s : string) :
  all_chars (fun c => negb (isspace c)) s = true ->
  split_ws_from cur s
  = match rev_string "" cur ++ s with
    | EmptyString => []
    | word => [word]
    end.
Proof.
  revert cur. induction s as [|c r IH]; intros cur H.
  - simpl. rewrite append_nil_r. destruct cur as [|d cur']; [reflexivity|].
    simpl. rewrite rev_string_acc.
    destruct (rev_string "" cur'); reflexivity.
  - simpl in H. apply andb_prop in H as [Hc Hr].
    apply negb_true_iff in Hc. simpl. rewrite Hc, IH by assumption.
    simpl. rewrite (rev_string_acc (String c "") cur), append_assoc.
    reflexivity.
Qed.

Lemma split_ws_solid (s : string) :
  all_chars (fun c => negb (isspace c)) s = true ->
  split_ws s = match s with EmptyString => [] | _ => [s] end.
Proof.
  intros H. unfold split_ws. rewrite split_ws_from_solid by assumption.
  now destruct s.
Qed.

Lemma platform_priority_bounds (platform : string) :
  (0 <= Cli.platform_priority platform <= 30)%Z.
Proof.
  unfold Cli.platform_priority.
  repeat match goal with
         | |- context [if ?b then _ else _] => destruct b
         end; lia.
Qed.

(** The third tier of [calculate_relevance], 40 points for a word of the
    cleaned name found in the username, is never reached: the cleaned
    name holds no whitespace, so its only word is itself, and the second
    tier has already looked for it. *)
Lemma calculate_relevance_tiers (username business_name platform : string) :
  Cli.calculate_relevance username business_name platform
  = Z.max 0
      ((if (username =? Cli.clean_name business_name)%string then 100
        else if contains (Cli.clean_name business_name) username then 70
        else 0)
       + Cli.platform_priority platform
       - (if (20 <? String.length username)%nat then 10 else 0))%Z.
Proof.
  unfold Cli.calculate_relevance.
  rewrite (split_ws_solid _ (clean_name_no_space business_name)).
  destruct (username =? Cli.clean_name business_name)%string;
    [destruct (20 <? String.length username); f_equal; lia|].
  destruct (contains (Cli.clean_name business_name) username) eqn:E;
    [destruct (20 <? String.length username); f_equal; lia|].
  assert (Hno : existsb (fun word => contains word username)
                  match Cli.clean_name business_name with
                  | EmptyString => []
                  | _ => [Cli.clean_name business_name]
                  end = false).
  { destruct (Cli.clean_name business_name) as [|c r] eqn:Ec; [reflexivity|].
    simpl existsb. rewrite orb_false_r. exact E. }
  rewrite Hno. destruct (20 <? String.length username); f_equal; lia.
Qed.

Lemma calculate_relevance_bounds (username business_name platform : string) :
  (0 <= Cli.calculate_relevance username business_name platform <= 130)%Z.
Proof.
  rewrite calculate_relevance_tiers.
  pose proof (platform_priority_bounds platform).
  destruct (username =? Cli.clean_name business_name)%string;
    [|destruct (contains (Cli.clean_name business_name) username)];
    destruct (20 <? String.length username); lia.
Qed.

Lemma confidence_of_bounds (relevance : Z) :
  (0 <= relevance)%Z ->
  (0 <= Cli.confidence_of relevance)%Q
  /\ (Cli.confidence_of relevance <= 9 # 10)%Q.
Proof.
  intros H. unfold Cli.confidence_of.
  destruct (Qle_bool (9 # 10) (relevance # 100)) eqn:E.
  - split; [discriminate | apply Qle_refl].
  - split.
    + unfold Qle. simpl. lia.
    + destruct (Qlt_le_dec (relevance # 100) (9 # 10)) as [Hlt|Hle].
      * now apply Qlt_le_weak.
      * apply Qle_bool_iff in Hle. congruence.
Qed.

Lemma confidence_of_capped (relevance : Z) :
  Cli.confidence_of relevance = 9 # 10 <-> (90 <= relevance)%Z.
Proof.
  unfold Cli.confidence_of.
  destruct (Qle_bool (9 # 10) (relevance # 100)) eqn:E.
  - apply Qle_bool_iff in E. unfold Qle in E. simpl in E.
    split; [lia | reflexivity].
  - assert (H : ~ (9 # 10 <= relevance # 100)%Q)
      by (intros H; apply Qle_bool_iff in H; congruence).
    unfold Qle in H. simpl in H. split; [|lia].
    intros Heq. injection Heq as Hr. lia.
Qed.

End RelevanceFacts.

Import RelevanceFacts.

(** X5.  [calculate_relevance]: the relevance is the greater of 0 and the
    sum of 100 for a username equal to the cleaned business name, or else
    70 for a username that contains it, of the bonus of the platform, and
    of -10 for a username of more than 20 characters.  The 40 points for a
    word of the cleaned name found in the username are never given.  The
    relevance is therefore between 0 and 130. *)
Theorem relevance_has_two_tiers :
  forall username business_name platform,
    Cli.calculate_relevance username business_name platform
    = Z.max 0
        ((if (username =? Cli.clean_name business_name)%string then 100
          else if contains (Cli.clean_name business_name) username then 70
          else 0)
         + Cli.platform_priority platform
         - (if (20 <? String.length username)%nat then 10 else 0))%Z
    /\ (0 <= Cli.calculate_relevance username business_name platform
        <= 130)%Z.
Proof.
  intros. split; [apply calculate_relevance_tiers
                 | apply calculate_relevance_bounds].
Qed.

(** X6.  [process_results]: every profile returned bears the business
    name, the source [sherlock_osint], a relevance between 0 and 130 and
    a confidence between 0 and 0.9, which is 0.9 exactly when the
    relevance is at least 90; its username, platform and URL are those of
    a hit of the search. *)
Theorem returned_profiles_well_formed :
  forall py_hash all_results business_name p,
    In p (Cli.process_results py_hash all_results business_name) ->
    Cli.name p = business_name
    /\ Cli.source p = "sherlock_osint"
    /\ (0 <= Cli.relevance_score p <= 130)%Z
    /\ ((0 <= Cli.confidence p)%Q /\ (Cli.confidence p <= 9 # 10)%Q)
    /\ (Cli.confidence p = 9 # 10 <-> (90 <= Cli.relevance_score p)%Z)
    /\ exists profile_data,
         In (Cli.username p, Cli.platform p, profile_data)
            (Cli.hits_in_order all_results)
         /\ Cli.pd_url profile_data = Cli.profile_url p
         /\ Cli.pd_verified profile_data = Cli.verified p.
Proof.
  intros py_hash all_results business_name p Hp.
  apply top_ranked_incl in Hp.
  pose proof (materialize_scores py_hash business_name all_results p Hp)
    as [Hr Hc].
  rewrite (materialize_first_by_url py_hash business_name) in Hp.
  apply in_map_iff in Hp as [[[u pl] d] [Ep Hh]].
  apply first_by_url_urls in Hh as [Hh _].
  assert (Hb : (0 <= Cli.relevance_score p <= 130)%Z)
    by (rewrite Hr; apply calculate_relevance_bounds).
  subst p. simpl in *.
  split; [reflexivity|]. split; [reflexivity|]. split; [exact Hb|].
  split; [apply confidence_of_bounds; lia|].
  split; [apply confidence_of_capped|].
  exists d. auto.
Qed.

Lemma returned_profiles_well_formed_witness :
  Cli.name
    (Cli.processed_profile Examples.zero_hash "Acme" "acme" "linkedin"
       (Examples.hit "https://linkedin.com/company/acme" "acme" "linkedin"))
  = "Acme".
Proof.
  apply (returned_profiles_well_formed Examples.zero_hash
           Examples.acme_linkedin "Acme").
  left. reflexivity.
Defined.

(** X7.  The ranking at the end of [process_results] keeps the best: no
    profile that was cut off has a higher relevance than a profile that
    was kept.  With at most 20 profiles nothing is cut off, and profiles
    of equal relevance stay in the order in which they were found. *)
Theorem ranking_keeps_the_best :
  forall processed : list Cli.Profile,
    (forall kept cut,
       In kept (Cli.top_ranked processed) ->
       In cut processed -> ~ In cut (Cli.top_ranked processed) ->
       (Cli.relevance_score cut <= Cli.relevance_score kept)%Z)
    /\ (List.length processed <= 20 ->
        Permutation (Cli.top_ranked processed) processed
        /\ forall k,
             filter (fun p => (Cli.relevance_score p =? k)%Z)
               (Cli.top_ranked processed)
             = filter (fun p => (Cli.relevance_score p =? k)%Z) processed).
Proof.
  intros processed.
  set (l := sort_reverse Cli.relevance_score processed).
  assert (HP : Permutation l processed)
    by (apply stable_sort_Permutation).
  split.
  - intros kept cut Hk Hc Hn. unfold Cli.top_ranked in *. fold l in Hk, Hn.
    assert (Hcl : In cut l)
      by (eapply Permutation_in; [apply Permutation_sym; exact HP | exact Hc]).
    rewrite <- (firstn_skipn 20 l) in Hcl.
    apply in_app_or in Hcl as [Hcl|Hcl]; [contradiction|].
    apply (StronglySorted_app_le
             (fun p q => (Cli.relevance_score q <= Cli.relevance_score p)%Z)
             (firstn 20 l) (skipn 20 l)); try assumption.
    rewrite firstn_skipn. apply GeneratorFacts.sort_reverse_keys.
  - intros Hlen. unfold Cli.top_ranked. fold l.
    rewrite firstn_all2 by (now rewrite (Permutation_length HP)).
    split; [exact HP|].
    intros k. apply GeneratorFacts.sort_reverse_stable.
Qed.

Lemma ranking_keeps_the_best_witness :
  Permutation
    (Cli.top_ranked
       (Cli.materialize Examples.zero_hash Examples.case_variants "Acme"))
    (Cli.materialize Examples.zero_hash Examples.case_variants "Acme").
Proof.
  apply (proj2 (ranking_keeps_the_best
                  (Cli.materialize Examples.zero_hash Examples.case_variants
                     "Acme"))).
  vm_compute. lia.
Defined.

(* ------------------------------------------------------------------ *)
(** ** Reading the output of the scanner *)
(* ------------------------------------------------------------------ *)

Module ParserFacts.
Import Py PyFacts StringFacts CharFacts SearchFacts CandidateFacts.

(** *** Dictionaries *)

Lemma dict_get_put {V} (d : list (string * V)) (k k' : string) (v : V) :
  dict_get (dict_put d k v) k'
  = if (k' =? k)%string then Some v else dict_get d k'.
Proof.
  induction d as [|[k0 v0] r IH]; simpl.
  - reflexivity.
  - destruct (k =? k0)%string eqn:E; simpl.
    + apply String.eqb_eq in E. subst k0.
      now destruct (k' =? k)%string.
    + rewrite IH. destruct (k' =? k0)%string eqn:E0; [|reflexivity].
      apply String.eqb_eq in E0. subst k0.
      rewrite String.eqb_sym, E. reflexivity.
Qed.

Lemma dict_put_In {V} (d : list (string * V)) (k : string) (v : V)
    (k' : string) (v' : V) :
  In (k', v') (dict_put d k v) -> (k' = k /\ v' = v) \/ In (k', v') d.
Proof.
  induction d as [|[k0 v0] r IH]; simpl.
  - intros [E|[]]. injection E as <- <-. now left.
  - destruct (k =? k0)%string; simpl.
    + intros [E|H]; [injection E as <- <-; now left | auto].
    + intros [E|H]; [auto|]. apply IH in H. tauto.
Qed.

Lemma dict_put_keys {V} (d : list (string * V)) (k : string) (v : V) :
  map fst (dict_put d k v)
  = if mem k (map fst d) then map fst d else (map fst d ++ [k])%list.
Proof.
  induction d as [|[k0 v0] r IH]; simpl; [reflexivity|].
  destruct (k =? k0)%string eqn:E; simpl.
  - apply String.eqb_eq in E. now subst.
  - rewrite IH. now destruct (mem k (map fst r)).
Qed.

Lemma dict_put_NoDup {V} (d : list (string * V)) (k : string) (v : V) :
  NoDup (map fst d) -> NoDup (map fst (dict_put d k v)).
Proof.
  intros N. rewrite dict_put_keys. destruct (mem k (map fst d)) eqn:E;
    [assumption|].
  apply mem_false in E. apply NoDup_app; auto.
  - repeat constructor. intros [].
  - intros x Hx [<-|[]]. contradiction.
Qed.

Lemma dict_get_In {V} (d : list (string * V)) (k : string) (v : V) :
  dict_get d k = Some v -> In (k, v) d.
Proof.
  induction d as [|[k0 v0] r IH]; simpl; [discriminate|].
  destruct (k =? k0)%string eqn:E.
  - apply String.eqb_eq in E. intros H. injection H as <-. subst. now left.
  - auto.
Qed.

(** *** The network location *)

Lemma take_while_app (p : ascii -> bool) (host rest : string) :
  all_chars p host = true ->
  match rest with EmptyString => true | String c _ => negb (p c) end = true ->
  take_while p (host ++ rest) = host.
Proof.
  intros Hh Hr. induction host as [|c r IH]; simpl in *.
  - destruct rest as [|c r]; [reflexivity|]. simpl.
    apply negb_true_iff in Hr. now rewrite Hr.
  - apply andb_prop in Hh as [Hc Hh]. rewrite Hc. now rewrite IH.
Qed.

Lemma remove_unsafe_app (a b : string) :
  remove_unsafe (a ++ b) = remove_unsafe a ++ remove_unsafe b.
Proof. apply keep_chars_app. Qed.

Lemma delim_not_unsafe (c : ascii) :
  is_delim c = true -> unsafe_url_byte c = false.
Proof. each_char c. Qed.

Lemma unsafe_lower_char (c : ascii) :
  unsafe_url_byte (lower_char c) = unsafe_url_byte c.
Proof. each_char c. Qed.

(** Deleting the unsafe characters and taking the lower case commute. *)
Lemma remove_unsafe_lower (s : string) :
  remove_unsafe (lower s) = lower (remove_unsafe s).
Proof.
  unfold remove_unsafe. induction s as [|c r IH]; simpl; [reflexivity|].
  rewrite unsafe_lower_char. destruct (unsafe_url_byte c); simpl;
    now rewrite IH.
Qed.

(** The network location of a URL with one of the two schemes: the host
    without its tabs, carriage returns and line feeds. *)
Lemma netloc_of_url (scheme host rest : string) :
  In scheme ["http"; "https"] ->
  all_chars (fun c => negb (is_delim c)) host = true ->
  ends_netloc rest = true ->
  netloc (scheme ++ "://" ++ host ++ rest) = remove_unsafe host.
Proof.
  intros Hs Hh Hr.
  assert (Htw : take_while (fun c => negb (is_delim c))
                  (remove_unsafe host ++ remove_unsafe rest)
                = remove_unsafe host).
  { apply take_while_app.
    - unfold remove_unsafe. now apply all_chars_keep.
    - destruct rest as [|c r]; [reflexivity|]. simpl in Hr.
      unfold remove_unsafe. simpl. rewrite (delim_not_unsafe c Hr). simpl.
      now rewrite Hr. }
  destruct Hs as [<-|[<-|[]]]; unfold netloc.
  - change (lstrip_c0 ("http" ++ "://" ++ host ++ rest))
      with ("http://" ++ (host ++ rest)).
    rewrite (remove_unsafe_app "http://" (host ++ rest)), remove_unsafe_app.
    simpl. exact Htw.
  - change (lstrip_c0 ("https" ++ "://" ++ host ++ rest))
      with ("https://" ++ (host ++ rest)).
    rewrite (remove_unsafe_app "https://" (host ++ rest)), remove_unsafe_app.
    simpl. exact Htw.
Qed.

Lemma dict_get_range (d : list (string * string)) (k v : string) :
  dict_get d k = Some v -> In v (map snd d).
Proof.
  intros H. apply dict_get_In in H. now apply (in_map snd) in H.
Qed.

Lemma lower_app (a b : string) : lower (a ++ b) = lower a ++ lower b.
Proof. induction a as [|c r IH]; simpl; [reflexivity | now rewrite IH]. Qed.

(** A leading [www.] is removed. *)
Lemma replace_www (s : string) :
  replace "www." "" ("www." ++ s) = replace "www." "" s.
Proof.
  unfold replace.
  change ("www." ++ s) with (String "w" ("ww." ++ s)) at 1.
  rewrite replace_from_0.
  change (String "w" ("ww." ++ s)) with ("www." ++ s).
  rewrite (prefix_app "www." "www." s) by reflexivity.
  reflexivity.
Qed.

End ParserFacts.

Module ScannerFacts.
Import Py PyFacts StringFacts CharFacts SearchFacts CandidateFacts ParserFacts.

(** *** The URLs the regular expressions find *)

Lemma take_while_all (p : ascii -> bool) (s : string) :
  all_chars p (take_while p s) = true.
Proof.
  induction s as [|c r IH]; simpl; [reflexivity|].
  destruct (p c) eqn:E; simpl; [now rewrite E | reflexivity].
Qed.

Lemma url_char_not_space (c : ascii) :
  url_char c = true -> negb (isspace c) = true.
Proof. each_char c. Qed.

Lemma after_http_cases (s scheme rest : string) :
  after_http s = Some (scheme, rest) ->
  (scheme = "https://" \/ scheme = "http://")
  /\ (prefix "https://" s || prefix "http://" s = true).
Proof.
  unfold after_http. destruct (prefix "https://" s) eqn:E1.
  - intros H. injection H as <- <-. auto.
  - destruct (prefix "http://" s) eqn:E2; [|discriminate].
    intros H. injection H as <- <-. auto.
Qed.

(** A URL in the shape both expressions give: it starts with [http://]
    or [https://] and holds no whitespace. *)
Lemma scheme_and_tail_shape (scheme tail : string) :
  scheme = "https://" \/ scheme = "http://" ->
  all_chars (fun c => negb (isspace c)) tail = true ->
  (prefix "https://" (scheme ++ tail) || prefix "http://" (scheme ++ tail)
   = true)
  /\ all_chars (fun c => negb (isspace c)) (scheme ++ tail) = true.
Proof.
  intros [->| ->] Ht; split.
  - now rewrite (prefix_app "https://" "https://" tail).
  - now rewrite all_chars_app, Ht.
  - rewrite (prefix_app "http://" "http://" tail) by reflexivity.
    apply orb_true_r.
  - now rewrite all_chars_app, Ht.
Qed.

Lemma url_plus_here_shape (s url : string) :
  url_plus_here s = Some url ->
  (prefix "https://" url || prefix "http://" url = true)
  /\ all_chars (fun c => negb (isspace c)) url = true.
Proof.
  unfold url_plus_here. destruct (after_http s) as [[scheme rest]|] eqn:E;
    [|discriminate].
  apply after_http_cases in E as [Hs _].
  pose proof (take_while_all (fun c => negb (isspace c)) rest) as Ht.
  destruct (take_while (fun c => negb (isspace c)) rest) as [|c t];
    [discriminate|].
  intros H. injection H as <-. now apply scheme_and_tail_shape.
Qed.

Lemma url_star_here_shape (s url : string) :
  url_star_here s = Some url ->
  (prefix "https://" url || prefix "http://" url = true)
  /\ all_chars (fun c => negb (isspace c)) url = true.
Proof.
  unfold url_star_here. destruct (after_http s) as [[scheme rest]|] eqn:E;
    [|discriminate].
  apply after_http_cases in E as [Hs _].
  intros H. injection H as <-. apply scheme_and_tail_shape; [assumption|].
  apply all_chars_impl with (p := url_char); [apply url_char_not_space|].
  apply take_while_all.
Qed.

Lemma re_search_url_unfold (s : string) :
  re_search_url s
  = match url_plus_here s with
    | Some url => Some url
    | None => match s with
              | EmptyString => None
              | String _ r => re_search_url r
              end
    end.
Proof. destruct s; reflexivity. Qed.

Lemma re_search_url_shape (s url : string) :
  re_search_url s = Some url ->
  (prefix "https://" url || prefix "http://" url = true)
  /\ all_chars (fun c => negb (isspace c)) url = true.
Proof.
  induction s as [|c r IH]; rewrite re_search_url_unfold.
  - destruct (url_plus_here "") eqn:E; [|discriminate].
    intros H. injection H as <-. now apply url_plus_here_shape in E.
  - destruct (url_plus_here (String c r)) eqn:E; [|exact IH].
    intros H. injection H as <-. now apply url_plus_here_shape in E.
Qed.

(** The test of the line for a scheme, before the search, changes
    nothing: a line in which the search finds a URL holds a scheme. *)
Lemma re_search_url_contains (s url : string) :
  re_search_url s = Some url ->
  contains "https://" s || contains "http://" s = true.
Proof.
  induction s as [|c r IH]; rewrite re_search_url_unfold.
  - discriminate.
  - destruct (url_plus_here (String c r)) eqn:E.
    + intros _. unfold url_plus_here in E.
      destruct (after_http (String c r)) as [[scheme rest]|] eqn:Ea;
        [|discriminate].
      apply after_http_cases in Ea as [_ Hp]. rewrite !contains_cons.
      apply orb_prop in Hp as [-> | ->]; simpl;
        rewrite ?orb_true_r; reflexivity.
    + intros H. apply IH in H. rewrite !contains_cons.
      apply orb_prop in H as [-> | ->]; rewrite ?orb_true_r; reflexivity.
Qed.

Lemma re_findall_urls_from_shape (skip : nat) (s url : string) :
  In url (re_findall_urls_from skip s) ->
  (prefix "https://" url || prefix "http://" url = true)
  /\ all_chars (fun c => negb (isspace c)) url = true.
Proof.
  revert skip. induction s as [|c r IH]; intros skip; [contradiction|].
  destruct skip as [|k]; [|apply IH].
  change (re_findall_urls_from 0 (String c r))
    with (match url_star_here (String c r) with
          | Some u => u :: re_findall_urls_from (String.length u - 1) r
          | None => re_findall_urls_from 0 r
          end).
  destruct (url_star_here (String c r)) as [u|] eqn:E; [|apply IH].
  intros [<-|H]; [now apply url_star_here_shape in E | now apply IH in H].
Qed.

(** *** The dictionary the parsers build *)

Section Recording.
Variable verified : string -> bool.
Variable username : string.
Variable P : string -> Prop.

Lemma record_url_invariant (profiles : Cli.Hits) (url : string) :
  P url ->
  (NoDup (map fst profiles)
   /\ forall platform d,
        In (platform, d) profiles ->
        d = Cli.found_profile (Cli.pd_url d) username platform
              (verified (Cli.pd_url d))
        /\ Cli.identify_platform (Cli.pd_url d) = Some platform
        /\ P (Cli.pd_url d)) ->
  NoDup (map fst (Cli.record_url verified username profiles url))
  /\ forall platform d,
       In (platform, d) (Cli.record_url verified username profiles url) ->
       d = Cli.found_profile (Cli.pd_url d) username platform
             (verified (Cli.pd_url d))
       /\ Cli.identify_platform (Cli.pd_url d) = Some platform
       /\ P (Cli.pd_url d).
Proof.
  intros Hurl [N H]. unfold Cli.record_url.
  destruct (Cli.identify_platform url) as [q|] eqn:E; [|auto].
  split; [now apply dict_put_NoDup|].
  intros platform d Hin. apply dict_put_In in Hin as [[-> ->]|Hin]; [|auto].
  simpl. auto.
Qed.

Lemma record_urls_invariant (urls : list string) (profiles : Cli.Hits) :
  (forall url, In url urls -> P url) ->
  (NoDup (map fst profiles)
   /\ forall platform d,
        In (platform, d) profiles ->
        d = Cli.found_profile (Cli.pd_url d) username platform
              (verified (Cli.pd_url d))
        /\ Cli.identify_platform (Cli.pd_url d) = Some platform
        /\ P (Cli.pd_url d)) ->
  NoDup (map fst (fold_left (Cli.record_url verified username) urls profiles))
  /\ forall platform d,
       In (platform, d)
          (fold_left (Cli.record_url verified username) urls profiles) ->
       d = Cli.found_profile (Cli.pd_url d) username platform
             (verified (Cli.pd_url d))
       /\ Cli.identify_platform (Cli.pd_url d) = Some platform
       /\ P (Cli.pd_url d).
Proof.
  revert profiles. induction urls as [|url r IH]; intros profiles HP Hinv;
    simpl; [assumption|].
  apply IH; [intros u Hu; apply HP; now right|].
  apply record_url_invariant; [apply HP; now left | assumption].
Qed.

(** For each platform the last URL is the one that stays. *)
Lemma record_urls_last (platform : string) (urls : list string)
    (profiles : Cli.Hits) :
  dict_get (fold_left (Cli.record_url verified username) urls profiles)
    platform
  = match Spec.last_url_of platform urls with
    | Some url =>
        Some (Cli.found_profile url username platform (verified url))
    | None => dict_get profiles platform
    end.
Proof.
  revert profiles. induction urls as [|url r IH]; intros profiles; simpl;
    [reflexivity|].
  rewrite IH. destruct (Spec.last_url_of platform r); [reflexivity|].
  unfold Cli.record_url, Spec.is_platform.
  destruct (Cli.identify_platform url) as [q|]; [|reflexivity].
  rewrite dict_get_put, String.eqb_sym.
  destruct (q =? platform)%string eqn:E; [|reflexivity].
  apply String.eqb_eq in E. now subst.
Qed.
End Recording.

(** The parser of the standard output records the URL of each line that
    has one. *)
Lemma stdout_line_record (username : string) (profiles : Cli.Hits)
    (line : string) :
  Cli.stdout_line username profiles line
  = match re_search_url line with
    | Some url => Cli.record_url (fun _ => true) username profiles url
    | None => profiles
    end.
Proof.
  unfold Cli.stdout_line. destruct (re_search_url line) as [url|] eqn:E.
  - now rewrite (re_search_url_contains line url E).
  - now destruct (contains "https://" line || contains "http://" line).
Qed.

Lemma stdout_lines_record (username : string) (lines : list string)
    (profiles : Cli.Hits) :
  fold_left (Cli.stdout_line username) lines profiles
  = fold_left (Cli.record_url (fun _ => true) username)
      (Spec.urls_of_lines lines) profiles.
Proof.
  revert profiles. induction lines as [|line r IH]; intros profiles;
    [reflexivity|].
  simpl. rewrite fold_left_app, IH, stdout_line_record.
  now destruct (re_search_url line).
Qed.

Lemma urls_of_lines_In (lines : list string) (url : string) :
  In url (Spec.urls_of_lines lines) ->
  exists line, In line lines /\ re_search_url line = Some url.
Proof.
  unfold Spec.urls_of_lines. intros H.
  apply in_flat_map in H as [line [Hl Hu]]. exists line. split; [assumption|].
  destruct (re_search_url line) as [u|]; [|contradiction].
  destruct Hu as [->|[]]. reflexivity.
Qed.

End ScannerFacts.

Import ParserFacts ScannerFacts.

(** X8.  [identify_platform] looks at the host of the URL only, without
    its tabs, carriage returns and line feeds (which [urlparse] deletes),
    in lower case and without [www.]: for a URL made of [http://] or
    [https://], a host and then nothing or a path, query or fragment, the
    platform is the entry of the table for that host; a leading [www.],
    the letter case of the host, such characters in the host and what
    follows the host change nothing.  Whatever the URL, the answer is a
    platform of the table or none. *)
Theorem platform_depends_on_host_only :
  (forall scheme host rest,
     In scheme ["http"; "https"] ->
     all_chars (fun c => negb (is_delim c)) host = true ->
     ends_netloc rest = true ->
     Cli.identify_platform (scheme ++ "://" ++ host ++ rest)
     = dict_get Cli.domain_to_platform
         (replace "www." "" (lower (remove_unsafe host)))
     /\ Cli.identify_platform (scheme ++ "://" ++ "www." ++ host ++ rest)
        = Cli.identify_platform (scheme ++ "://" ++ host ++ rest)
     /\ forall host' rest',
          lower (remove_unsafe host') = lower (remove_unsafe host) ->
          all_chars (fun c => negb (is_delim c)) host' = true ->
          ends_netloc rest' = true ->
          Cli.identify_platform (scheme ++ "://" ++ host' ++ rest')
          = Cli.identify_platform (scheme ++ "://" ++ host ++ rest))
  /\ (forall url platform,
        Cli.identify_platform url = Some platform ->
        In platform (map snd Cli.domain_to_platform)).
Proof.
  assert (Hid : forall scheme host rest,
            In scheme ["http"; "https"] ->
            all_chars (fun c => negb (is_delim c)) host = true ->
            ends_netloc rest = true ->
            Cli.identify_platform (scheme ++ "://" ++ host ++ rest)
            = dict_get Cli.domain_to_platform
                (replace "www." "" (lower (remove_unsafe host)))).
  { intros scheme host rest Hs Hh Hr. unfold Cli.identify_platform.
    now rewrite netloc_of_url. }
  split.
  - intros scheme host rest Hs Hh Hr. split; [now apply Hid|]. split.
    + assert (Hw : all_chars (fun c => negb (is_delim c)) ("www." ++ host)
                   = true) by (rewrite all_chars_app; now rewrite Hh).
      change ("www." ++ host ++ rest) with (("www." ++ host) ++ rest).
      rewrite (Hid scheme ("www." ++ host) rest Hs Hw Hr).
      rewrite (Hid scheme host rest Hs Hh Hr).
      rewrite remove_unsafe_app, lower_app.
      change (lower (remove_unsafe "www.")) with "www.".
      now rewrite replace_www.
    + intros host' rest' El Hh' Hr'. rewrite !Hid by assumption.
      now rewrite El.
  - intros url platform H. unfold Cli.identify_platform in H.
    now apply dict_get_range in H.
Qed.

Lemma platform_depends_on_host_only_witness :
  Cli.identify_platform ("https" ++ "://" ++ Examples.tabbed_host ++ "/acme")
  = Some "instagram".
Proof.
  destruct (proj1 platform_depends_on_host_only "https" Examples.tabbed_host
              "/acme") as [H _].
  - right. left. reflexivity.
  - reflexivity.
  - reflexivity.
  - exact H.
Defined.

(** X9.  [parse_sherlock_stdout]: the dictionary returned has one entry
    per platform at most; every entry is marked verified, bears the
    username and the source [sherlock], and its platform is the one
    [identify_platform] gives for its URL; the URL is the first one of a
    line of the output, starts with [http://] or [https://] and holds no
    whitespace. *)
Theorem stdout_profiles_well_formed :
  forall stdout username,
    NoDup (map fst (Cli.parse_sherlock_stdout stdout username))
    /\ forall platform d,
         In (platform, d) (Cli.parse_sherlock_stdout stdout username) ->
         d = Cli.found_profile (Cli.pd_url d) username platform true
         /\ Cli.identify_platform (Cli.pd_url d) = Some platform
         /\ (exists line,
               In line (split line_feed stdout)
               /\ re_search_url line = Some (Cli.pd_url d))
         /\ (prefix "https://" (Cli.pd_url d)
             || prefix "http://" (Cli.pd_url d) = true)
         /\ all_chars (fun c => negb (isspace c)) (Cli.pd_url d) = true.
Proof.
  intros stdout username. unfold Cli.parse_sherlock_stdout.
  rewrite stdout_lines_record.
  destruct (record_urls_invariant (fun _ => true) username
              (fun url => exists line,
                 In line (split line_feed stdout)
                 /\ re_search_url line = Some url)
              (Spec.urls_of_lines (split line_feed stdout)) [])
    as [N H].
  - intros url. apply urls_of_lines_In.
  - split; [constructor | contradiction].
  - split; [exact N|]. intros platform d Hin.
    destruct (H platform d Hin) as [Hd [Hi [line [Hl Hs]]]].
    split; [exact Hd|]. split; [exact Hi|].
    split; [now exists line|]. now apply re_search_url_shape in Hs.
Qed.

(** X10.  [parse_sherlock_output]: the dictionary read from the output
    file has one entry per platform at most; every entry bears the
    username and the source [sherlock], its platform is the one
    [identify_platform] gives for its URL, and it is verified exactly
    when [check_profile_exists] says so for that URL; the URL is one the
    expression finds in the file, starts with [http://] or [https://] and
    holds no whitespace. *)
Theorem file_profiles_well_formed :
  forall check_profile_exists content username,
    NoDup (map fst (Cli.parse_sherlock_output check_profile_exists content
                      username))
    /\ forall platform d,
         In (platform, d)
            (Cli.parse_sherlock_output check_profile_exists content username) ->
         d = Cli.found_profile (Cli.pd_url d) username platform
               (check_profile_exists (Cli.pd_url d))
         /\ Cli.identify_platform (Cli.pd_url d) = Some platform
         /\ In (Cli.pd_url d) (re_findall_urls content)
         /\ (prefix "https://" (Cli.pd_url d)
             || prefix "http://" (Cli.pd_url d) = true)
         /\ all_chars (fun c => negb (isspace c)) (Cli.pd_url d) = true.
Proof.
  intros check content username. unfold Cli.parse_sherlock_output.
  destruct (record_urls_invariant check username
              (fun url => In url (re_findall_urls content))
              (re_findall_urls content) []) as [N H].
  - auto.
  - split; [constructor | contradiction].
  - split; [exact N|]. intros platform d Hin.
    destruct (H platform d Hin) as [Hd [Hi Hu]].
    split; [exact Hd|]. split; [exact Hi|]. split; [exact Hu|].
    now apply re_findall_urls_from_shape in Hu.
Qed.

(** X11.  In both parsers a later URL of a platform replaces an earlier
    one: the entry of a platform is that of the last URL of that platform
    in the output, and a platform without URL has no entry. *)
Theorem last_url_of_a_platform_is_kept :
  forall check_profile_exists text username platform,
    dict_get (Cli.parse_sherlock_output check_profile_exists text username)
      platform
    = option_map
        (fun url => Cli.found_profile url username platform
                      (check_profile_exists url))
        (Spec.last_url_of platform (re_findall_urls text))
    /\ dict_get (Cli.parse_sherlock_stdout text username) platform
       = option_map
           (fun url => Cli.found_profile url username platform true)
           (Spec.last_url_of platform
              (Spec.urls_of_lines (split line_feed text))).
Proof.
  intros check text username platform. split.
  - unfold Cli.parse_sherlock_output. rewrite record_urls_last.
    now destruct (Spec.last_url_of platform (re_findall_urls text)).
  - unfold Cli.parse_sherlock_stdout.
    rewrite stdout_lines_record, record_urls_last.
    now destruct (Spec.last_url_of platform
                    (Spec.urls_of_lines (split line_feed text))).
Qed.

(** On the output of the examples the entry for Twitter is the URL of
    the last line, found under the domain [x.com] written in capitals
    behind [www.]; the unknown site has no entry. *)
Lemma scanner_stdout_parsed :
  Cli.parse_sherlock_stdout Examples.scanner_stdout "acme"
  = [("twitter",
      Cli.found_profile "https://www.X.com/acme" "acme" "twitter" true)].
Proof. reflexivity. Qed.

(* ------------------------------------------------------------------ *)
(** ** The search of the class as a whole *)
(* ------------------------------------------------------------------ *)

Module ClassSearchFacts.
Import Py PyFacts GeneratorFacts.

Lemma dict_set_fresh (d : Cli.AllResults) (k : string) (v : Cli.Hits) :
  ~ In k (map fst d) -> Cli.dict_set d k v = (d ++ [(k, v)])%list.
Proof.
  induction d as [|[k0 v0] r IH]; simpl; intros H; [reflexivity|].
  destruct (k =? k0)%string eqn:E.
  - apply String.eqb_eq in E. subst. tauto.
  - rewrite IH; [reflexivity | tauto].
Qed.

Section Loop.
Variable parse_file : string -> string -> Cli.Hits.
Variable parse_stdout : string -> string -> Cli.Hits.
Variable run : string -> Cli.SubprocessRun.

(** The hits of a username, and whether there is one. *)
Let hits (u : string) : Cli.Hits :=
  Cli.sherlock_search parse_file parse_stdout (run u) u.
Let has_hits (u : string) : bool :=
  match hits u with [] => false | _ => true end.

(** With distinct usernames the loop appends, in their order, the
    usernames that have a hit, each with its hits. *)
Lemma search_loop_appends (usernames : list string)
    (all_results : Cli.AllResults) :
  NoDup usernames ->
  (forall u, In u usernames -> ~ In u (map fst all_results)) ->
  fold_left (Cli.search_step parse_file parse_stdout run) usernames
    all_results
  = (all_results
     ++ map (fun u => (u, hits u)) (filter has_hits usernames))%list.
Proof.
  revert all_results.
  induction usernames as [|u us IH]; intros all_results N Hfresh; simpl.
  - now rewrite app_nil_r.
  - inversion N as [|? ? Hu Nus]; subst.
    unfold Cli.search_step at 2. fold (hits u). unfold has_hits at 1.
    destruct (hits u) as [|h hs] eqn:E.
    + apply IH; [assumption|]. intros v Hv. apply Hfresh. now right.
    + rewrite dict_set_fresh by (apply Hfresh; now left).
      rewrite IH; [|assumption|].
      * rewrite <- app_assoc. simpl. now rewrite E.
      * intros v Hv. rewrite map_app, in_app_iff. simpl.
        intros [H|[<-|[]]]; [|contradiction].
        revert H. apply Hfresh. now right.
Qed.
End Loop.

End ClassSearchFacts.

Import ClassSearchFacts.

(** X12.  [search_business_profiles] probes at most ten usernames, all
    different.  The profiles it returns are the ranking of the hits of
    the usernames that have at least one hit, taken in the order of the
    usernames; the total it reports is the number of profiles returned,
    at most 20; and when no username has a hit the search succeeds
    without profiles. *)
Theorem class_search_collects_hits :
  forall parse_file parse_stdout py_hash order run business_name,
    is_set_order order ->
    let hits := fun u =>
      Cli.sherlock_search parse_file parse_stdout (run u) u in
    let result :=
      Cli.search_business_profiles parse_file parse_stdout py_hash order run
        business_name in
    NoDup (Cli.sr_searched_usernames result)
    /\ List.length (Cli.sr_searched_usernames result) <= 10
    /\ Cli.sr_profiles result
       = Cli.process_results py_hash
           (map (fun u => (u, hits u))
              (filter (fun u => match hits u with [] => false | _ => true end)
                 (Cli.sr_searched_usernames result)))
           business_name
    /\ Cli.sr_total_profiles_found result
       = List.length (Cli.sr_profiles result)
    /\ Cli.sr_total_profiles_found result <= 20
    /\ ((forall u, In u (Cli.sr_searched_usernames result) -> hits u = []) ->
        Cli.sr_success result = true /\ Cli.sr_profiles result = []).
Proof.
  intros parse_file parse_stdout py_hash order run business_name Ho hits
    result.
  assert (N : NoDup (Cli.generate_business_usernames order business_name))
    by now apply cli_generate_NoDup.
  assert (Hp : Cli.sr_profiles result
               = Cli.process_results py_hash
                   (map (fun u => (u, hits u))
                      (filter
                         (fun u => match hits u with
                                   | [] => false
                                   | _ => true
                                   end)
                         (Cli.generate_business_usernames order
                            business_name)))
                   business_name).
  { unfold result, Cli.search_business_profiles. cbn [Cli.sr_profiles].
    now rewrite (search_loop_appends parse_file parse_stdout run _ [] N). }
  split; [exact N|]. split; [apply cli_generate_length|].
  split; [exact Hp|]. split; [reflexivity|]. split.
  - unfold result, Cli.search_business_profiles.
    cbn [Cli.sr_total_profiles_found]. unfold Cli.process_results.
    rewrite RankingFacts.top_ranked_length. apply Nat.le_min_l.
  - intros Hnone. split; [reflexivity|]. rewrite Hp.
    cbn [Cli.sr_searched_usernames result Cli.search_business_profiles]
      in Hnone.
    rewrite SortedFacts.filter_none; [reflexivity|].
    intros u Hu. now rewrite (Hnone u Hu).
Qed.

Lemma class_search_collects_hits_witness :
  List.length
    (Cli.sr_searched_usernames
       (Cli.search_business_profiles
          (Cli.parse_sherlock_output Examples.offline)
          Cli.parse_sherlock_stdout Examples.zero_hash Examples.first_order
          (fun _ => Cli.TimeoutExpired) "Acme Inc")) <= 10.
Proof.
  apply (class_search_collects_hits
           (Cli.parse_sherlock_output Examples.offline)
           Cli.parse_sherlock_stdout Examples.zero_hash Examples.first_order
           (fun _ => Cli.TimeoutExpired) "Acme Inc").
  exact first_order_is_set_order.
Defined.

(* ------------------------------------------------------------------ *)
(** ** The cache and the HTTP entry point of the handler *)
(* ------------------------------------------------------------------ *)

Module CacheFacts.
Import Py PyFacts StringFacts CharFacts ParserFacts.

(** *** Lower case and whitespace *)

Lemma lower_char_idem (c : ascii) : lower_char (lower_char c) = lower_char c.
Proof. each_char c. Qed.

Lemma isspace_lower_char (c : ascii) : isspace (lower_char c) = isspace c.
Proof. each_char c. Qed.

Lemma lower_idem (s : string) : lower (lower s) = lower s.
Proof.
  induction s as [|c r IH]; simpl; [reflexivity|].
  now rewrite lower_char_idem, IH.
Qed.

Lemma lower_ws (s : string) :
  all_chars isspace s = true -> all_chars isspace (lower s) = true.
Proof.
  induction s as [|c r IH]; simpl; [reflexivity|].
  intros H. apply andb_prop in H as [Hc Hr].
  now rewrite isspace_lower_char, Hc, IH.
Qed.

Lemma strip_idem (s : string) : strip (strip s) = strip s.
Proof.
  destruct (strip_decomp s) as [L [R [HL [HR E]]]].
  rewrite E at 2. now rewrite strip_app_ws.
Qed.

(** Trimming before or after taking the lower case is the same. *)
Lemma strip_lower_strip (s : string) :
  strip (lower (strip s)) = strip (lower s).
Proof.
  destruct (strip_decomp s) as [L [R [HL [HR E]]]].
  rewrite E at 2. rewrite !lower_app.
  now rewrite strip_app_ws by now apply lower_ws.
Qed.

(** *** Rows *)



End CacheFacts.

Import CacheFacts.

(** X13.  [generate_query_hash]: the cache key does not depend on the
    letter case of the query nor on the whitespace around it. *)
Theorem cache_key_ignores_case_and_padding :
  forall md5 query platform,
    Handler.generate_query_hash md5 (lower query) platform
    = Handler.generate_query_hash md5 query platform
    /\ Handler.generate_query_hash md5 (strip query) platform
       = Handler.generate_query_hash md5 query platform
    /\ forall before after,
         all_chars isspace before = true ->
         all_chars isspace after = true ->
         Handler.generate_query_hash md5 (before ++ query ++ after) platform
         = Handler.generate_query_hash md5 query platform.
Proof.
  intros md5 query platform. unfold Handler.generate_query_hash.
  split; [now rewrite lower_idem|].
  split; [now rewrite strip_lower_strip|].
  intros before after Hb Ha. rewrite !lower_app.
  now rewrite strip_app_ws by now apply lower_ws.
Qed.


Module HandlerFacts.
Import Py PyFacts StringFacts CharFacts GeneratorFacts SearchFacts.
Import ParserFacts CacheFacts.

(** *** Lower case and trimming *)





(** *** The generator never returns an empty list *)

Lemma official_candidate (business_name : string) :
  In ("official" ++ Handler.base business_name)
     (Handler.usernames_added business_name).
Proof.
  unfold Handler.usernames_added. apply filter_In. split.
  - unfold Handler.usernames_listed. cbn [In]. tauto.
  - reflexivity.
Qed.

Lemma handler_generate_nonempty (order : list string -> list string)
    (business_name : string) :
  is_set_order order ->
  Handler.generate_business_usernames order business_name <> [].
Proof.
  intros Ho. unfold Handler.generate_business_usernames.
  pose proof (official_candidate business_name) as Hin.
  apply (proj2 (Ho (Handler.usernames_added business_name))) in Hin.
  destruct (order (Handler.usernames_added business_name)) as [|u us];
    [destruct Hin | discriminate].
Qed.

(** *** The profiles of the loop *)

(** A profile read from a line of the output of the tool. *)
Lemma parse_line_shape (username business_name line : string) :
  Forall (fun p =>
            Handler.name p = business_name
            /\ Handler.verified p = false
            /\ Handler.id p = Handler.platform p ++ "_" ++ Handler.username p
            /\ Handler.username p = username
            /\ Handler.confidence p = 9 # 10
            /\ Handler.relevance_score p = 85%Z
            /\ lower (Handler.platform p) = Handler.platform p
            /\ strip (Handler.profile_url p) = Handler.profile_url p)
    (Handler.parse_line username business_name line).
Proof.
  unfold Handler.parse_line.
  destruct (negb (strip line =? "")%string && contains "http" (strip line)
            && contains "[+]" (strip line)); [|constructor].
  destruct (split ": " (strip line)) as [|part0 [|part1 rest]];
    constructor; [|constructor].
  cbn [Handler.name Handler.verified Handler.id Handler.platform
       Handler.username Handler.confidence Handler.relevance_score
       Handler.profile_url].
  rewrite lower_idem, strip_idem. repeat split; reflexivity.
Qed.

Lemma fallback_profile_shape (username business_name : string) :
  Forall (fun p =>
            Handler.name p = business_name
            /\ Handler.verified p = false
            /\ Handler.id p = Handler.platform p ++ "_" ++ Handler.username p
            /\ Handler.username p = username
            /\ Handler.confidence p = 7 # 10
            /\ Handler.relevance_score p = 75%Z
            /\ In (Handler.platform p, Handler.profile_url p)
                 (Handler.fallback_platforms username))
    (Handler.generate_fallback_profiles username business_name).
Proof.
  unfold Handler.generate_fallback_profiles. apply Forall_forall.
  intros p Hp. apply in_map_iff in Hp as [[pl url] [<- Hin]].
  cbn [Handler.name Handler.verified Handler.id Handler.platform
       Handler.username Handler.confidence Handler.relevance_score
       Handler.profile_url fst snd].
  repeat split; try reflexivity. assumption.
Qed.

Lemma contribution_shape (run : string -> Handler.SubprocessRun)
    (business_name username : string) (p : Handler.Profile) :
  In p (Handler.contribution run business_name username) ->
  Spec.profile_ok business_name username p.
Proof.
  unfold Handler.contribution, Spec.profile_ok.
  destruct (run username) as [rc out| | |].
  - destruct (rc =? 0)%Z; [|intros []].
    unfold Handler.parse_sherlock_output. intros Hp.
    apply in_flat_map in Hp as [line [_ Hp]].
    pose proof (parse_line_shape username business_name line) as H.
    rewrite Forall_forall in H. specialize (H p Hp). tauto.
  - intros Hp.
    pose proof (fallback_profile_shape username business_name) as H.
    rewrite Forall_forall in H. specialize (H p Hp). tauto.
  - intros Hp.
    pose proof (fallback_profile_shape username business_name) as H.
    rewrite Forall_forall in H. specialize (H p Hp). tauto.
  - intros [].
Qed.

Lemma search_loop_aborted (run : string -> Handler.SubprocessRun)
    (business_name : string) (usernames : list string) :
  fold_left (Handler.search_step run business_name) usernames None = None.
Proof. induction usernames as [|u us IH]; simpl; [reflexivity | exact IH]. Qed.

(** The loop either goes through all the usernames or is left by an
    exception. *)
Lemma search_loop_outcome (run : string -> Handler.SubprocessRun)
    (business_name : string) (usernames : list string) :
  fold_left (Handler.search_step run business_name) usernames (Some ([], []))
  = Some (flat_map (Handler.contribution run business_name) usernames,
          usernames)
  \/ fold_left (Handler.search_step run business_name) usernames
       (Some ([], []))
     = None.
Proof.
  destruct (existsb (fun u => match run u with
                              | Handler.OtherException => true
                              | _ => false
                              end) usernames) eqn:E.
  - right. apply existsb_exists in E as [u [Hu Hr]].
    apply in_split in Hu as [l1 [l2 ->]].
    rewrite fold_left_app.
    change (fold_left (Handler.search_step run business_name) (u :: l2)
              (fold_left (Handler.search_step run business_name) l1
                 (Some ([], []))))
      with (fold_left (Handler.search_step run business_name) l2
              (Handler.search_step run business_name
                 (fold_left (Handler.search_step run business_name) l1
                    (Some ([], []))) u)).
    replace (Handler.search_step run business_name
               (fold_left (Handler.search_step run business_name) l1
                  (Some ([], []))) u) with (@None (list Handler.Profile * list string)).
    + apply search_loop_aborted.
    + unfold Handler.search_step.
      destruct (fold_left _ l1 _) as [[ps ss]|]; [|reflexivity].
      destruct (run u); try discriminate. reflexivity.
  - left. rewrite search_loop_no_abort; [reflexivity|].
    intros u Hu Hr.
    assert (H : existsb (fun u => match run u with
                                  | Handler.OtherException => true
                                  | _ => false
                                  end) usernames = true).
    { apply existsb_exists. exists u. split; [assumption|]. now rewrite Hr. }
    congruence.
Qed.

(** The two shapes of what [execute_sherlock_search] returns. *)
Lemma execute_outcome (order : list string -> list string)
    (run : string -> Handler.SubprocessRun) (business_name : string) :
  let usernames := Handler.generate_business_usernames order business_name in
  let all_profiles :=
    flat_map (Handler.contribution run business_name) usernames in
  Handler.execute_sherlock_search order run business_name
  = {| Handler.profiles := firstn 20 all_profiles;
       Handler.total_profiles_found := List.length all_profiles;
       Handler.searched_usernames := usernames |}
  \/ Handler.execute_sherlock_search order run business_name
     = Handler.generate_fallback_search business_name.
Proof.
  intros usernames all_profiles. unfold Handler.execute_sherlock_search.
  fold usernames.
  destruct (search_loop_outcome run business_name usernames) as [-> | ->];
    [left | right]; reflexivity.
Qed.

(** *** The responses of the handler *)

Lemma empty_or_short (s : string) :
  ((s =? "")%string || (String.length s <? 2)) = (String.length s <? 2).
Proof. now destruct s. Qed.

Section Responses.
Variable md5 : string -> string.
Variable order : list string -> list string.
Variable print_error : option string.
Variable client : Handler.ClientInit.
Variable table : Handler.Table.
Variable run : string -> Handler.SubprocessRun.
Variable now : Z.
Variable event : Handler.Event.

(** The handler, case by case. *)
Lemma handler_cases :
  Handler.handler md5 order print_error client table run now event
  = if (Handler.httpMethod event =? "OPTIONS")%string
    then (Handler.respond 200 Handler.NoBody, table)
    else if (Handler.httpMethod event =? "POST")%string
    then
      match Handler.body event with
      | Handler.BodyError message =>
          (Handler.respond 500
             (Handler.FailureBody "Sherlock OSINT search failed" message),
           table)
      | Handler.BodyObject query platforms =>
          let q := strip (Spec.default_query query) in
          let result :=
            Handler.final_result q
              (Handler.execute_sherlock_search order run q) in
          if String.length q <? 2
          then (Handler.respond 400
                  (Handler.ErrorBody "Query must be at least 2 characters"),
                table)
          else
            match print_error, client with
            | Some message, _ =>
                (Handler.respond 500
                   (Handler.FailureBody "Sherlock OSINT search failed"
                      message), table)
            | None, Handler.ClientError message =>
                (Handler.respond 500
                   (Handler.FailureBody "Sherlock OSINT search failed"
                      message), table)
            | None, Handler.Connected =>
                (Handler.respond 200
                   (Handler.ResultBody result "OSINT search completed"),
                 (table ++ [Spec.new_row md5 table now q result])%list)
            | None, Handler.NotConfigured =>
                (Handler.respond 200
                   (Handler.ResultBody result "OSINT search completed"),
                 table)
            end
      end
    else (Handler.respond 405 (Handler.ErrorBody "Method not allowed"),
          table).
Proof.
  unfold Handler.handler.
  destruct (Handler.httpMethod event =? "OPTIONS")%string; [reflexivity|].
  destruct (Handler.httpMethod event =? "POST")%string; [|reflexivity].
  cbn [negb]. destruct (Handler.body event) as [m|query platforms];
    [reflexivity|].
  fold (Spec.default_query query). rewrite empty_or_short. cbv zeta.
  destruct (String.length (strip (Spec.default_query query)) <? 2);
    [reflexivity|].
  destruct print_error as [m|]; [reflexivity|].
  destruct client as [| |m]; reflexivity.
Qed.

Lemma handler_status :
  Handler.statusCode
    (fst (Handler.handler md5 order print_error client table run now event))
  = if (Handler.httpMethod event =? "OPTIONS")%string then 200%Z
    else if (Handler.httpMethod event =? "POST")%string
    then match Handler.body event with
         | Handler.BodyError _ => 500%Z
         | Handler.BodyObject query _ =>
             if String.length (strip (Spec.default_query query)) <? 2
             then 400%Z
             else match print_error, client with
                  | Some _, _ => 500%Z
                  | None, Handler.ClientError _ => 500%Z
                  | None, _ => 200%Z
                  end
         end
    else 405%Z.
Proof.
  rewrite handler_cases.
  destruct (Handler.httpMethod event =? "OPTIONS")%string; [reflexivity|].
  destruct (Handler.httpMethod event =? "POST")%string; [|reflexivity].
  destruct (Handler.body event) as [m|query platforms]; [reflexivity|].
  cbv zeta.
  destruct (String.length (strip (Spec.default_query query)) <? 2);
    [reflexivity|].
  destruct print_error as [m|]; [reflexivity|].
  destruct client as [| |m]; reflexivity.
Qed.

Lemma handler_headers :
  Handler.headers
    (fst (Handler.handler md5 order print_error client table run now event))
  = Handler.cors_headers.
Proof.
  rewrite handler_cases.
  destruct (Handler.httpMethod event =? "OPTIONS")%string; [reflexivity|].
  destruct (Handler.httpMethod event =? "POST")%string; [|reflexivity].
  destruct (Handler.body event) as [m|query platforms]; [reflexivity|].
  cbv zeta.
  destruct (String.length (strip (Spec.default_query query)) <? 2);
    [reflexivity|].
  destruct print_error as [m|]; [reflexivity|].
  destruct client as [| |m]; reflexivity.
Qed.

(** The rows the handler adds to the table. *)
Lemma handler_table :
  exists added,
    snd (Handler.handler md5 order print_error client table run now event)
    = (table ++ added)%list
    /\ (added = []
        \/ (Handler.statusCode
              (fst (Handler.handler md5 order print_error client table run
                      now event)) = 200%Z
            /\ Handler.httpMethod event = "POST"
            /\ client = Handler.Connected
            /\ exists query platforms,
                 Handler.body event = Handler.BodyObject query platforms
                 /\ added
                    = [Spec.new_row md5 table now
                         (strip (Spec.default_query query))
                         (Handler.final_result
                            (strip (Spec.default_query query))
                            (Handler.execute_sherlock_search order run
                               (strip (Spec.default_query query))))])).
Proof.
  assert (Hsame : forall r, exists added,
            snd (r, table) = (table ++ added)%list
            /\ (added = []
                \/ (Handler.statusCode (fst (r, table)) = 200%Z
                    /\ Handler.httpMethod event = "POST"
                    /\ client = Handler.Connected
                    /\ exists query platforms,
                         Handler.body event
                         = Handler.BodyObject query platforms
                         /\ added
                            = [Spec.new_row md5 table now
                                 (strip (Spec.default_query query))
                                 (Handler.final_result
                                    (strip (Spec.default_query query))
                                    (Handler.execute_sherlock_search order
                                       run
                                       (strip (Spec.default_query query))))]))).
  { intros r. exists []. split; [now rewrite app_nil_r | now left]. }
  rewrite handler_cases.
  destruct (Handler.httpMethod event =? "OPTIONS")%string; [apply Hsame|].
  destruct (String.eqb_spec (Handler.httpMethod event) "POST") as [Ep|Np];
    [|apply Hsame].
  destruct (Handler.body event) as [m|query platforms]; [apply Hsame|].
  cbv zeta.
  destruct (String.length (strip (Spec.default_query query)) <? 2);
    [apply Hsame|].
  destruct print_error as [m|]; [apply Hsame|].
  destruct client as [| |m]; try apply Hsame.
  eexists. split; [reflexivity|]. right.
  split; [reflexivity|]. split; [assumption|]. split; [reflexivity|].
  exists query, platforms. split; reflexivity.
Qed.
End Responses.

End HandlerFacts.

Import HandlerFacts.

(** The cases of a statement on the status of a response. *)
Ltac status_hyps :=
  repeat match goal with
         | H : _ /\ _ |- _ => destruct H
         | H : _ \/ _ |- _ => destruct H
         | H : exists _, _ |- _ => destruct H
         | H : Handler.BodyObject _ _ = Handler.BodyObject _ _ |- _ =>
             injection H as ? ?; subst
         | H : Some _ = Some _ |- _ => injection H as ?; subst
         | H : forall message, Handler.ClientError ?m
                               <> Handler.ClientError message |- _ =>
             exfalso; exact (H m eq_refl)
         end;
  try discriminate; try contradiction; try congruence;
  try (cbn [Spec.default_query] in *; lia).

Ltac status_goal :=
  repeat match goal with
         | |- _ /\ _ => split
         | |- exists _, _ => eexists
         | |- forall _, _ => intro
         | |- _ = _ => reflexivity || eassumption
         | |- _ <> _ => assumption || discriminate
         | |- (_ <= _)%nat => eassumption
         | |- (_ < _)%nat => eassumption || (simpl; lia)
         end.

Ltac status_iff :=
  split; intros ?;
  first [ reflexivity
        | solve [status_hyps]
        | solve [status_goal]
        | solve [left; status_goal]
        | solve [right; status_goal]
        | solve [split; [eassumption | left; status_goal]]
        | solve [split;
                 [eassumption
                 | right; split; [left; status_goal | status_goal]]]
        | solve [split;
                 [eassumption
                 | right; split; [right; status_goal | status_goal]]] ].

(** X16.  [handler]: the status of the response is decided by the method
    and the body of the request, by whether the progress lines can be
    printed and by whether the client can be built; it depends neither
    on what the table holds nor on what the subprocess does.  It is 200
    for OPTIONS and for a POST whose query, trimmed, has two characters
    or more, when printing and building the client raise nothing; 400 for
    a POST whose query is missing or shorter; 405 for every other method;
    500 for a POST whose body cannot be read, or whose query is long
    enough when [print] or [create_client] raises, and for nothing else.
    Every response carries the CORS headers, and a response other than
    200 leaves the table as it was. *)
Theorem handler_status_codes :
  forall md5 order print_error client table run now event,
    let response :=
      fst (Handler.handler md5 order print_error client table run now
             event) in
    let method := Handler.httpMethod event in
    Handler.headers response = Handler.cors_headers
    /\ (Handler.statusCode response = 200%Z <->
        method = "OPTIONS"
        \/ (method = "POST"
            /\ print_error = None
            /\ (forall message, client <> Handler.ClientError message)
            /\ exists q platforms,
                 Handler.body event = Handler.BodyObject (Some q) platforms
                 /\ 2 <= String.length (strip q)))
    /\ (Handler.statusCode response = 400%Z <->
        method = "POST"
        /\ exists query platforms,
             Handler.body event = Handler.BodyObject query platforms
             /\ String.length (strip (Spec.default_query query)) < 2)
    /\ (Handler.statusCode response = 405%Z <->
        method <> "OPTIONS" /\ method <> "POST")
    /\ (Handler.statusCode response = 500%Z <->
        method = "POST"
        /\ ((exists message, Handler.body event = Handler.BodyError message)
            \/ ((print_error <> None
                 \/ exists message, client = Handler.ClientError message)
                /\ exists q platforms,
                     Handler.body event
                     = Handler.BodyObject (Some q) platforms
                     /\ 2 <= String.length (strip q))))
    /\ (Handler.statusCode response <> 200%Z ->
        snd (Handler.handler md5 order print_error client table run now
               event) = table).
Proof.
  intros md5 order print_error client table run now event response method.
  split; [apply handler_headers|].
  assert (Hlast : Handler.statusCode response <> 200%Z ->
            snd (Handler.handler md5 order print_error client table run now
                   event) = table).
  { intros Hs.
    destruct (handler_table md5 order print_error client table run now event)
      as [added [-> [->|[H200 _]]]]; [apply app_nil_r | contradiction]. }
  split; [|split; [|split; [|split; [|exact Hlast]]]]; clear Hlast;
    unfold response; clear response; rewrite handler_status; fold method;
    (destruct (String.eqb_spec method "OPTIONS") as [Eo|No];
     [|destruct (String.eqb_spec method "POST") as [Ep|Np];
       [destruct (Handler.body event) as [m|[q|] platforms];
        cbn [Spec.default_query];
        [|destruct (Nat.ltb_spec (String.length (strip q)) 2) as [Hlt|Hge];
          [|destruct print_error as [pe|]; [|destruct client as [| |m]]]
         |change (String.length (strip "") <? 2) with true; cbv iota]|]]);
    status_iff.
Qed.

(** X17.  [execute_sherlock_search]: whatever the subprocess does for
    each username (output, exit status, time-out, missing tool, any other
    exception), the search returns at most 20 profiles and never more
    than it counts, its list of searched usernames is not empty, and each
    profile is for the business name, unverified, identified by its
    platform and its username, found under a username that is listed as
    searched, and either read from a line of the tool (confidence 0.9,
    relevance 85, a platform in lower case, a trimmed URL) or one of the
    six fallback profiles of its username (confidence 0.7, relevance
    75). *)
Theorem handler_search_profiles_well_formed :
  forall order run business_name,
    is_set_order order ->
    let found := Handler.execute_sherlock_search order run business_name in
    List.length (Handler.profiles found) <= 20
    /\ List.length (Handler.profiles found)
       <= Handler.total_profiles_found found
    /\ Handler.searched_usernames found <> []
    /\ Forall (fun p =>
                 In (Handler.username p) (Handler.searched_usernames found)
                 /\ Spec.profile_ok business_name (Handler.username p) p)
         (Handler.profiles found).
Proof.
  intros order run business_name Ho found.
  destruct (execute_outcome order run business_name) as [E|E];
    unfold found; rewrite E; clear E found.
  - cbn [Handler.profiles Handler.total_profiles_found
         Handler.searched_usernames].
    split; [apply firstn_le_length|].
    split; [rewrite length_firstn; lia|].
    split; [now apply handler_generate_nonempty|].
    apply Forall_forall. intros p Hp. apply firstn_incl in Hp.
    apply in_flat_map in Hp as [u [Hu Hp]].
    apply contribution_shape in Hp.
    assert (Hname : Handler.username p = u) by (unfold Spec.profile_ok in Hp; tauto).
    rewrite Hname. split; assumption.
  - unfold Handler.generate_fallback_search.
    cbn [Handler.profiles Handler.total_profiles_found
         Handler.searched_usernames].
    rewrite fallback_profiles_length.
    split; [lia|]. split; [lia|]. split; [discriminate|].
    apply Forall_forall. intros p Hp.
    pose proof (fallback_profile_shape
                  (keep_chars isalnum (lower business_name)) business_name)
      as H.
    rewrite Forall_forall in H. specialize (H p Hp).
    destruct H as [H1 [H2 [H3 [H4 [H5 [H6 H7]]]]]].
    rewrite H4. split; [now left|].
    unfold Spec.profile_ok. rewrite H4.
    split; [assumption|]. split; [assumption|].
    split; [now rewrite H3, H4|]. split; [reflexivity|].
    right. split; [assumption|]. split; assumption.
Qed.

Lemma handler_search_profiles_well_formed_witness :
  List.length
    (Handler.profiles
       (Handler.execute_sherlock_search Examples.first_order
          Examples.one_timeout "Test Company")) <= 20
  /\ Handler.searched_usernames
       (Handler.execute_sherlock_search Examples.first_order
          Examples.one_timeout "Test Company") <> [].
Proof.
  destruct (handler_search_profiles_well_formed Examples.first_order
              Examples.one_timeout "Test Company"
              first_order_is_set_order) as [H20 [_ [Hs _]]].
  split; assumption.
Defined.




(* ------------------------------------------------------------------ *)
(** ** Failures of a probe *)
(* ------------------------------------------------------------------ *)

(** C8, as stated, fails in the handler.  For ["Test Company"] the probe
    of ["test"] finds a profile; the output for ["officialtest"] cannot
    be decoded, which raises an exception the inner [try] does not catch:
    the loop is left, the search answers with the fallback search of the
    business name, and the profile found for ["test"] is not returned.
    And when the first four probes time out, their 24 fallback profiles
    fill the 20 places: the profile found for ["testco"] is counted and
    not returned. *)
Lemma unexpected_failure_drops_other_results :
  Handler.generate_business_usernames Examples.first_order "Test Company"
  = ["test"; "testofficial"; "officialtest"; "testinc"; "testco"]
  /\ Handler.contribution Examples.one_garbled "Test Company" "test"
     = [Examples.instagram_profile "test" "Test Company"]
  /\ Examples.one_garbled "officialtest" = Handler.OtherException
  /\ Handler.execute_sherlock_search Examples.first_order
       Examples.one_garbled "Test Company"
     = Handler.generate_fallback_search "Test Company"
  /\ ~ In (Examples.instagram_profile "test" "Test Company")
         (Handler.profiles
            (Handler.execute_sherlock_search Examples.first_order
               Examples.one_garbled "Test Company"))
  /\ Handler.contribution Examples.late_hit "Test Company" "testco"
     = [Examples.instagram_profile "testco" "Test Company"]
  /\ Handler.total_profiles_found
       (Handler.execute_sherlock_search Examples.first_order
          Examples.late_hit "Test Company") = 25
  /\ ~ In (Examples.instagram_profile "testco" "Test Company")
         (Handler.profiles
            (Handler.execute_sherlock_search Examples.first_order
               Examples.late_hit "Test Company")).
Proof.
  split; [reflexivity|]. split; [reflexivity|]. split; [reflexivity|].
  split; [reflexivity|]. split.
  - vm_compute. intros H.
    repeat (destruct H as [H|H]; [discriminate H|]). exact H.
  - split; [reflexivity|]. split; [reflexivity|].
    vm_compute. intros H.
    repeat (destruct H as [H|H]; [discriminate H|]). exact H.
Qed.

(** C8 (amended).  In the class a probe that fails, by a time-out or by
    any other exception, contributes no hit; the search answers with
    success, and its profiles are the ranking of the hits of the
    usernames whose probe did not fail.  In the handler a probe that
    times out or does not find the tool contributes the fallback
    profiles of its username, and a probe that exits with a non-zero
    status or prints no marked line contributes nothing; as long as the
    probes fail in these ways only, the loop runs to its end, every
    contribution is counted and the first twenty profiles of the
    contributions, in the order of the usernames, are returned.  A probe
    that raises any other exception ends the loop, and the search
    answers with the fallback search of the business name. *)
Theorem recovered_probe_failures_keep_the_search_going :
  (forall parse_file parse_stdout py_hash order run business_name,
     is_set_order order ->
     let usernames := Cli.generate_business_usernames order business_name in
     let hits := fun u =>
       Cli.sherlock_search parse_file parse_stdout (run u) u in
     let result :=
       Cli.search_business_profiles parse_file parse_stdout py_hash order run
         business_name in
     (forall u, Cli.failed (run u) = true -> hits u = [])
     /\ Cli.sr_success result = true
     /\ Cli.sr_searched_usernames result = usernames
     /\ Cli.sr_profiles result
        = Cli.process_results py_hash
            (map (fun u => (u, hits u))
               (filter (fun u => negb (Cli.failed (run u))
                                 && match hits u with
                                    | [] => false
                                    | _ => true
                                    end) usernames))
            business_name)
  /\
  (forall order run business_name,
     let usernames := Handler.generate_business_usernames order business_name in
     let all_profiles :=
       flat_map (Handler.contribution run business_name) usernames in
     ((forall u, In u usernames -> run u <> Handler.OtherException) ->
      Handler.execute_sherlock_search order run business_name
      = {| Handler.profiles := firstn 20 all_profiles;
           Handler.total_profiles_found := List.length all_profiles;
           Handler.searched_usernames := usernames |})
     /\ ((exists u, In u usernames /\ run u = Handler.OtherException) ->
         Handler.execute_sherlock_search order run business_name
         = Handler.generate_fallback_search business_name)
     /\ (forall u, Handler.recovered_failure (run u) = true ->
           Handler.contribution run business_name u = []
           \/ Handler.contribution run business_name u
              = Handler.generate_fallback_profiles u business_name)
     /\ (forall u stdout,
           run u = Handler.Completed 0 stdout ->
           contains "[+]" stdout = false ->
           Handler.contribution run business_name u = [])).
Proof.
  split.
  - intros parse_file parse_stdout py_hash order run business_name Ho
      usernames hits result.
    assert (Hfail : forall u, Cli.failed (run u) = true -> hits u = []).
    { intros u. apply failed_probe_no_hits. }
    split; [exact Hfail|]. split; [reflexivity|]. split; [reflexivity|].
    unfold result, Cli.search_business_profiles. cbn [Cli.sr_profiles].
    fold usernames.
    rewrite (search_loop_appends parse_file parse_stdout run usernames []);
      [|now apply cli_generate_NoDup | intros u _ []].
    cbn [app]. do 2 f_equal. apply filter_ext. intros u. fold (hits u).
    destruct (Cli.failed (run u)) eqn:E; [|reflexivity].
    now rewrite (Hfail u E).
  - intros order run business_name usernames all_profiles.
    split; [|split; [|split]].
    + intros Hrun. unfold Handler.execute_sherlock_search. fold usernames.
      rewrite search_loop_no_abort by assumption. reflexivity.
    + intros [u [Hu Hr]].
      now apply (unexpected_exception_gives_fallback_search order run
                   business_name u).
    + intros u Hu. unfold Handler.contribution.
      destruct (run u) as [rc out| | |]; simpl in Hu; auto.
      apply negb_true_iff in Hu. rewrite Hu. now left.
    + intros u stdout E Hm. unfold Handler.contribution. rewrite E.
      change (0 =? 0)%Z with true. cbv iota.
      now apply parse_without_marker.
Qed.

Lemma recovered_probe_failures_keep_the_search_going_witness :
  Handler.execute_sherlock_search Examples.first_order
    Examples.one_timeout "test company"
  = {| Handler.profiles :=
         firstn 20
           (flat_map (Handler.contribution Examples.one_timeout "test company")
              (Handler.generate_business_usernames Examples.first_order
                 "test company"));
       Handler.total_profiles_found :=
         List.length
           (flat_map (Handler.contribution Examples.one_timeout "test company")
              (Handler.generate_business_usernames Examples.first_order
                 "test company"));
       Handler.searched_usernames :=
         Handler.generate_business_usernames Examples.first_order
           "test company" |}
  /\ Handler.execute_sherlock_search Examples.first_order
       Examples.one_garbled "test company"
     = Handler.generate_fallback_search "test company"
  /\ Cli.sr_success
       (Cli.search_business_profiles
          (Cli.parse_sherlock_output Examples.offline)
          Cli.parse_sherlock_stdout Examples.zero_hash Examples.first_order
          (fun _ => Cli.TimeoutExpired) "Acme Inc") = true.
Proof.
  destruct (proj1 recovered_probe_failures_keep_the_search_going
              (Cli.parse_sherlock_output Examples.offline)
              Cli.parse_sherlock_stdout Examples.zero_hash
              Examples.first_order (fun _ => Cli.TimeoutExpired) "Acme Inc"
              first_order_is_set_order)
    as [_ [Hclass _]].
  destruct (proj2 recovered_probe_failures_keep_the_search_going
              Examples.first_order Examples.one_timeout "test company")
    as [Hloop _].
  destruct (proj2 recovered_probe_failures_keep_the_search_going
              Examples.first_order Examples.one_garbled "test company")
    as [_ [Hout _]].
  split; [|split].
  - apply Hloop. intros u _. unfold Examples.one_timeout.
    destruct (u =? "officialtest")%string; discriminate.
  - apply Hout. exists "officialtest". split; [|reflexivity].
    vm_compute. tauto.
  - exact Hclass.
Defined.

(* ------------------------------------------------------------------ *)
(** ** The lines of the tool, read by the handler *)
(* ------------------------------------------------------------------ *)

Module LineFacts.
Import Py PyFacts StringFacts CharFacts SearchFacts CandidateFacts.
Import ParserFacts CacheFacts.

(** *** Characters *)

Lemma site_char_not_colon (c : ascii) :
  site_char c = true -> (if ascii_dec ":" c then true else false) = false.
Proof. each_char c. Qed.

Lemma site_char_not_bracket (c : ascii) :
  site_char c = true -> (if ascii_dec "[" c then true else false) = false.
Proof. each_char c. Qed.

Lemma site_char_no_space (c : ascii) :
  site_char c = true -> Spec.no_space c = true.
Proof. each_char c. Qed.

Lemma no_space_not_blank (c : ascii) :
  Spec.no_space c = true -> (if ascii_dec " " c then true else false) = false.
Proof. each_char c. Qed.

Lemma no_space_no_line_feed (c : ascii) :
  Spec.no_space c = true -> Spec.no_line_feed c = true.
Proof. each_char c. Qed.

Lemma no_line_feed_dec (c : ascii) :
  Spec.no_line_feed c = true ->
  (if ascii_dec (ascii_of_nat 10) c then true else false) = false.
Proof. each_char c. Qed.

(** *** [strip] of a string without whitespace at its ends *)

Lemma rstrip_no_space (s : string) :
  all_chars Spec.no_space s = true -> rstrip s = s.
Proof.
  induction s as [|c r IH]; simpl; [reflexivity|].
  intros H. apply andb_prop in H as [Hc Hr]. rewrite (IH Hr).
  unfold Spec.no_space in Hc. apply negb_true_iff in Hc. rewrite Hc.
  now destruct r.
Qed.

Lemma strip_no_space (s : string) :
  all_chars Spec.no_space s = true -> strip s = s.
Proof.
  intros H. unfold strip.
  assert (Hl : lstrip s = s).
  { destruct s as [|c r]; [reflexivity|]. simpl in H |- *.
    apply andb_prop in H as [Hc _].
    unfold Spec.no_space in Hc. apply negb_true_iff in Hc. now rewrite Hc. }
  rewrite Hl. now apply rstrip_no_space.
Qed.

Lemma rstrip_app_no_space (x s : string) :
  s <> "" -> all_chars Spec.no_space s = true -> rstrip (x ++ s) = x ++ s.
Proof.
  intros Hne Hs. induction x as [|c r IH].
  - now apply rstrip_no_space.
  - change (String c r ++ s) with (String c (r ++ s)).
    cbn [rstrip]. rewrite IH.
    destruct (r ++ s) as [|d t] eqn:E; [|reflexivity].
    destruct r; [simpl in E; contradiction | discriminate].
Qed.

(** *** [split] *)

Lemma rev_string_cons (c : ascii) (cur r : string) :
  rev_string "" (String c cur) ++ r = rev_string "" cur ++ String c r.
Proof.
  cbn [rev_string]. rewrite (rev_string_acc (String c "") cur).
  now rewrite append_assoc.
Qed.

(** A string without line feed is one line. *)
Lemma split_one_line (cur s : string) :
  all_chars Spec.no_line_feed s = true ->
  split_from 0 Handler.newline cur s = [rev_string "" cur ++ s].
Proof.
  revert cur. induction s as [|c r IH]; intros cur H.
  - simpl. now rewrite append_nil_r.
  - simpl in H. apply andb_prop in H as [Hc Hr].
    rewrite split_from_0. unfold Handler.newline at 1.
    rewrite prefix_one, (no_line_feed_dec c Hc).
    rewrite (IH _ Hr). now rewrite rev_string_cons.
Qed.

Lemma split_first_line (cur s rest : string) :
  all_chars Spec.no_line_feed s = true ->
  split_from 0 Handler.newline cur (s ++ Handler.newline ++ rest)
  = (rev_string "" cur ++ s) :: split_from 0 Handler.newline "" rest.
Proof.
  revert cur. induction s as [|c r IH]; intros cur H.
  - cbn [append]. unfold Handler.newline at 2. cbn [append].
    rewrite split_from_0. unfold Handler.newline at 1.
    rewrite prefix_one.
    destruct (ascii_dec (ascii_of_nat 10) (ascii_of_nat 10));
      [|congruence].
    now rewrite append_nil_r.
  - simpl in H. apply andb_prop in H as [Hc Hr].
    change (String c r ++ Handler.newline ++ rest)
      with (String c (r ++ Handler.newline ++ rest)).
    rewrite split_from_0. unfold Handler.newline at 1.
    rewrite prefix_one, (no_line_feed_dec c Hc).
    rewrite (IH _ Hr). now rewrite rev_string_cons.
Qed.

(** Splitting what [join_lines] joined gives the lines back. *)
Lemma split_join_lines (lines : list string) :
  Forall (fun l => all_chars Spec.no_line_feed l = true) lines ->
  split Handler.newline (Spec.join_lines lines)
  = match lines with [] => [""] | _ => lines end.
Proof.
  unfold split. induction lines as [|l rest IH]; intros H; [reflexivity|].
  inversion H as [|? ? Hl Hrest]; subst.
  destruct rest as [|l' rest'].
  - cbn [Spec.join_lines]. now rewrite split_one_line.
  - change (Spec.join_lines (l :: l' :: rest'))
      with (l ++ Handler.newline ++ Spec.join_lines (l' :: rest')).
    rewrite split_first_line by assumption.
    now rewrite (IH Hrest).
Qed.

(** The two-character separator of site and URL. *)
Lemma prefix_colon_blank (c : ascii) (r : string) :
  prefix ": " (String c r)
  = if ascii_dec ":" c
    then match r with
         | String d _ => if ascii_dec " " d then true else false
         | EmptyString => false
         end
    else false.
Proof.
  destruct r as [|d t]; cbn [prefix].
  - now destruct (ascii_dec ":" c).
  - destruct (ascii_dec ":" c); [|reflexivity].
    destruct (ascii_dec " " d); [now destruct t | reflexivity].
Qed.

Lemma split_colon_no_space (cur s : string) :
  all_chars Spec.no_space s = true ->
  split_from 0 ": " cur s = [rev_string "" cur ++ s].
Proof.
  revert cur. induction s as [|c r IH]; intros cur H.
  - simpl. now rewrite append_nil_r.
  - simpl in H. apply andb_prop in H as [Hc Hr].
    rewrite split_from_0, prefix_colon_blank.
    assert (E : (if ascii_dec ":" c
                 then match r with
                      | String d _ => if ascii_dec " " d then true else false
                      | EmptyString => false
                      end
                 else false) = false).
    { destruct (ascii_dec ":" c); [|reflexivity].
      destruct r as [|d t]; [reflexivity|].
      simpl in Hr. apply andb_prop in Hr as [Hd _].
      exact (no_space_not_blank d Hd). }
    rewrite E, (IH _ Hr). now rewrite rev_string_cons.
Qed.

Lemma split_colon_site (cur site url : string) :
  all_chars site_char site = true ->
  all_chars Spec.no_space url = true ->
  split_from 0 ": " cur (site ++ ": " ++ url)
  = [rev_string "" cur ++ site; url].
Proof.
  intros Hs Hu. revert cur. induction site as [|c r IH]; intros cur.
  - cbn [append]. rewrite split_from_0, prefix_colon_blank.
    destruct (ascii_dec ":" ":"); [|congruence].
    destruct (ascii_dec " " " "); [|congruence].
    cbn [String.length Nat.sub split_from].
    rewrite split_colon_no_space by assumption.
    now rewrite append_nil_r.
  - simpl in Hs. apply andb_prop in Hs as [Hc Hr].
    change (String c r ++ ": " ++ url) with (String c (r ++ ": " ++ url)).
    rewrite split_from_0, prefix_colon_blank.
    pose proof (site_char_not_colon c Hc) as N.
    destruct (ascii_dec ":" c); [discriminate|].
    rewrite (IH Hr). now rewrite rev_string_cons.
Qed.

(** *** [replace] of the mark *)

Lemma replace_mark_absent (s : string) :
  all_chars site_char s = true -> replace_from 0 "[+]" "" s = s.
Proof.
  induction s as [|c r IH]; [reflexivity|].
  intros H. simpl in H. apply andb_prop in H as [Hc Hr].
  rewrite replace_from_0.
  assert (E : prefix "[+]" (String c r) = false).
  { cbn [prefix]. pose proof (site_char_not_bracket c Hc) as N.
    destruct (ascii_dec "[" c); [discriminate | reflexivity]. }
  rewrite E, (IH Hr). reflexivity.
Qed.

Lemma replace_mark (site : string) :
  all_chars site_char site = true ->
  replace "[+]" "" ("[+] " ++ site) = " " ++ site.
Proof.
  intros H. unfold replace.
  change ("[+] " ++ site) with (String "[" (String "+" (String "]" (String " " site)))).
  rewrite replace_from_0.
  assert (E : prefix "[+]" (String "[" (String "+" (String "]" (String " " site))))
              = true).
  { cbn [prefix].
    destruct (ascii_dec "[" "["); [|congruence].
    destruct (ascii_dec "+" "+"); [|congruence].
    destruct (ascii_dec "]" "]"); [|congruence]. reflexivity. }
  rewrite E. cbn [String.length Nat.sub append].
  change (replace_from 2 "[+]" "" (String "+" (String "]" (String " " site))))
    with (replace_from 0 "[+]" "" (String " " site)).
  rewrite replace_from_0.
  assert (E' : prefix "[+]" (String " " site) = false).
  { cbn [prefix]. destruct (ascii_dec "[" " "); [discriminate | reflexivity]. }
  rewrite E', replace_mark_absent by assumption. reflexivity.
Qed.

(** *** One line *)

Lemma parse_found_line (username business_name site url : string) :
  Spec.well_formed (Spec.Found site url) ->
  Handler.parse_line username business_name
    (Spec.line_text (Spec.Found site url))
  = Spec.line_profiles username business_name (Spec.Found site url).
Proof.
  intros [Hs [Hu Hh]]. cbn [Spec.line_text Spec.line_profiles].
  assert (Hne : url <> "") by (intros ->; discriminate).
  assert (Hstrip : strip ("[+] " ++ site ++ ": " ++ url)
                   = "[+] " ++ site ++ ": " ++ url).
  { unfold strip.
    change (lstrip ("[+] " ++ site ++ ": " ++ url))
      with ("[+] " ++ site ++ ": " ++ url).
    rewrite <- !append_assoc. now apply rstrip_app_no_space. }
  unfold Handler.parse_line. rewrite Hstrip.
  assert (H1 : contains "http" ("[+] " ++ site ++ ": " ++ url) = true).
  { now apply contains_app_l, contains_app_l, contains_app_l. }
  assert (H2 : contains "[+]" ("[+] " ++ site ++ ": " ++ url) = true).
  { now apply contains_app_r. }
  rewrite H1, H2.
  change (negb ("[+] " ++ site ++ ": " ++ url =? "")%string) with true.
  cbn [andb].
  assert (Hsplit : split ": " ("[+] " ++ site ++ ": " ++ url)
                   = ["[+] " ++ site; url]).
  { unfold split.
    change ("[+] " ++ site ++ ": " ++ url)
      with (String "[" (String "+" (String "]"
              (String " " (site ++ ": " ++ url))))).
    rewrite split_from_0, prefix_colon_blank.
    destruct (ascii_dec ":" "["); [discriminate|].
    rewrite split_from_0, prefix_colon_blank.
    destruct (ascii_dec ":" "+"); [discriminate|].
    rewrite split_from_0, prefix_colon_blank.
    destruct (ascii_dec ":" "]"); [discriminate|].
    rewrite split_from_0, prefix_colon_blank.
    destruct (ascii_dec ":" " "); [discriminate|].
    rewrite split_colon_site by assumption. reflexivity. }
  rewrite Hsplit, replace_mark by assumption.
  assert (Hsite : strip (" " ++ site) = site).
  { change (strip (" " ++ site)) with (strip site).
    apply strip_no_space.
    now apply (all_chars_impl site_char), Hs; apply site_char_no_space. }
  rewrite Hsite, (strip_no_space url Hu). reflexivity.
Qed.

Lemma parse_other_line (username business_name text : string) :
  contains "[+]" text = false ->
  Handler.parse_line username business_name text = [].
Proof.
  intros H. unfold Handler.parse_line.
  destruct (contains "[+]" (strip text)) eqn:E.
  - apply contains_strip in E. congruence.
  - now rewrite andb_false_r.
Qed.

Lemma line_text_no_line_feed (l : Spec.OutputLine) :
  Spec.well_formed l ->
  all_chars Spec.no_line_feed (Spec.line_text l) = true.
Proof.
  destruct l as [site url|text]; cbn [Spec.well_formed Spec.line_text].
  - intros [Hs [Hu _]].
    rewrite !all_chars_app.
    rewrite (all_chars_impl site_char Spec.no_line_feed site); [| |assumption].
    + rewrite (all_chars_impl Spec.no_space Spec.no_line_feed url);
        [reflexivity| |assumption].
      apply no_space_no_line_feed.
    + intros c Hc. now apply no_space_no_line_feed, site_char_no_space.
  - tauto.
Qed.

End LineFacts.

Import LineFacts.

(** X20.  [parse_sherlock_output] of the handler reads back what the tool
    prints: for an output made of lines of the form
    [[+] site: url] (a site name without whitespace, colon or bracket, a
    URL without whitespace with [http] in it) and of other lines without
    the mark, it returns one profile for each marked line, in the order
    of the lines, with the site name in lower case as platform and the
    URL as it is printed, and nothing for the other lines. *)
Theorem handler_parser_reads_marked_lines :
  forall lines username business_name,
    Forall Spec.well_formed lines ->
    Handler.parse_sherlock_output
      (Spec.join_lines (map Spec.line_text lines)) username business_name
    = flat_map (Spec.line_profiles username business_name) lines.
Proof.
  intros lines username business_name Hwf.
  unfold Handler.parse_sherlock_output.
  rewrite split_join_lines.
  - destruct lines as [|l rest]; [reflexivity|].
    change (match map Spec.line_text (l :: rest) with
            | [] => [""]
            | _ :: _ => map Spec.line_text (l :: rest)
            end) with (map Spec.line_text (l :: rest)).
    induction Hwf as [|x xs Hx Hxs IH]; [reflexivity|].
    cbn [map flat_map]. rewrite IH. f_equal.
    destruct x as [site url|text].
    + now apply parse_found_line.
    + destruct Hx as [Hm _]. now apply parse_other_line.
  - apply Forall_forall. intros t Ht.
    apply in_map_iff in Ht as [l [<- Hl]].
    rewrite Forall_forall in Hwf. now apply line_text_no_line_feed, Hwf.
Qed.

Lemma handler_parser_reads_marked_lines_witness :
  Handler.parse_sherlock_output
    (Spec.join_lines (map Spec.line_text Examples.two_found)) "acme" "Acme"
  = flat_map (Spec.line_profiles "acme" "Acme") Examples.two_found.
Proof.
  apply (handler_parser_reads_marked_lines Examples.two_found "acme" "Acme").
  repeat constructor.
Defined.

(** X21.  [generate_business_usernames] of the handler never comes back
    empty-handed: for every business name, also one without a letter or a
    digit, it returns between one and five usernames, because the
    candidate made of [official] and the base always passes the filter;
    that candidate is among the usernames returned whenever the set has
    five elements at most. *)
Theorem handler_generator_returns_one_to_five :
  forall order business_name,
    is_set_order order ->
    1 <= List.length (Handler.generate_business_usernames order business_name)
      <= 5
    /\ In ("official" ++ Handler.base business_name)
         (Handler.usernames_added business_name)
    /\ (List.length
          (first_added [] (Handler.usernames_added business_name)) <= 5 ->
        In ("official" ++ Handler.base business_name)
           (Handler.generate_business_usernames order business_name)).
Proof.
  intros order business_name Ho.
  split; [|split].
  - split.
    + pose proof (handler_generate_nonempty order business_name Ho) as Hne.
      destruct (Handler.generate_business_usernames order business_name);
        [congruence | simpl; lia].
    + unfold Handler.generate_business_usernames. rewrite length_firstn. lia.
  - apply official_candidate.
  - intros Hlen. rewrite handler_generate_all by assumption.
    apply (proj2 (Ho (Handler.usernames_added business_name))).
    apply official_candidate.
Qed.

Lemma handler_generator_returns_one_to_five_witness :
  1 <= List.length
         (Handler.generate_business_usernames Examples.first_order "!!") <= 5
  /\ In ("official" ++ Handler.base "!!")
       (Handler.generate_business_usernames Examples.first_order "!!").
Proof.
  destruct (handler_generator_returns_one_to_five Examples.first_order "!!"
              first_order_is_set_order) as [H [_ Hin]].
  split; [exact H|]. apply Hin. vm_compute. lia.
Defined.
